(** * Transport planner: schedule materialisation, conflict detection,
      collaboration functions and audit trigger

    A shallow embedding of the SQL of
    [supabase/migrations/20250711105343_golden_brook.sql]:
    the tables as lists of records in scan order, the statement that
    creates the materialised view [schedule_overview] with the name
    resolution that decides whether it is accepted, the plpgsql functions
    as functions on the database state.

    Conventions.
    - A nullable column is an [option]; comparisons follow SQL's three-valued
      logic ([sql_eq], [sql_neq]) and a WHERE, ON or HAVING clause keeps a
      row only when its condition is TRUE ([is_true]).
    - A [date] is a day number (days since 1970-01-01), a [timestamptz] a
      number of microseconds since the epoch read in the session time zone,
      a [time] a number of microseconds since midnight.
    - [uuid_generate_v4()] is modelled by an allocator that returns an
      identifier not stored in the table it is generated for.
    - Row-level security is modelled for [audit_logs] only, where the audit
      trigger depends on it; the other statements are modelled for a role
      their tables' policies admit.
    - A statement that raises aborts the enclosing transaction: an error
      result carries no state, the caller keeps the state it had. *)

From Stdlib Require Import ZArith List String Ascii Bool Lia QArith Qround Permutation.
From Stdlib Require Import DecimalString.
Import ListNotations.

Open Scope string_scope.
Open Scope list_scope.
Open Scope Z_scope.

(* ================================================================== *)
(** * SQL values *)
(* ================================================================== *)

Definition uuid := N.
Bind Scope N_scope with uuid.
Definition date := Z.
Definition timestamptz := Z.
Definition time := Z.

Module SQL.

(** The truth value of a condition: [None] is SQL's unknown (NULL). *)
Definition tv := option bool.

Definition is_true (t : tv) : bool :=
  match t with Some true => true | _ => false end.

Definition sql_eq {A : Type} (eqb : A -> A -> bool) (x y : option A) : tv :=
  match x, y with
  | Some a, Some b => Some (eqb a b)
  | _, _ => None
  end.

Definition sql_neq {A : Type} (eqb : A -> A -> bool) (x y : option A) : tv :=
  match x, y with
  | Some a, Some b => Some (negb (eqb a b))
  | _, _ => None
  end.

Definition sql_or (a b : tv) : tv :=
  match a, b with
  | Some true, _ | _, Some true => Some true
  | Some false, Some false => Some false
  | _, _ => None
  end.

Definition sql_and (a b : tv) : tv :=
  match a, b with
  | Some false, _ | _, Some false => Some false
  | Some true, Some true => Some true
  | _, _ => None
  end.

Definition IS_NULL {A : Type} (x : option A) : bool :=
  match x with None => true | Some _ => false end.

Definition IS_NOT_NULL {A : Type} (x : option A) : bool := negb (IS_NULL x).

Definition COALESCE {A : Type} (x y : option A) : option A :=
  match x with Some _ => x | None => y end.

(** [x = ANY(arr)] for an array without NULL elements. *)
Definition eq_any (x : Z) (arr : list Z) : bool := existsb (Z.eqb x) arr.

(** [FROM a LEFT JOIN t ON p]: the rows of [t] matching [p], or one
    all-NULL row when there is none. *)
Definition left_join {R : Type} (p : R -> bool) (t : list R) : list (option R) :=
  match filter p t with
  | [] => [None]
  | ms => map Some ms
  end.

(** [FROM a JOIN t ON p]. *)
Definition inner_join {R : Type} (p : R -> bool) (t : list R) : list R := filter p t.

(** A column of the nullable side of a LEFT JOIN. *)
Definition col {R A : Type} (f : R -> option A) (r : option R) : option A :=
  match r with Some x => f x | None => None end.

(** A NOT NULL column of the nullable side of a LEFT JOIN. *)
Definition col' {R A : Type} (f : R -> A) (r : option R) : option A :=
  option_map f r.

(** [generate_series(start, stop, '1 day')] on day numbers. *)
Definition generate_series (start stop : date) : list date :=
  map (fun i => start + Z.of_nat i) (seq 0 (Z.to_nat (stop - start + 1))).

(** The keys of [GROUP BY], each once, in order of first appearance. *)
Fixpoint distinct {K : Type} (eqb : K -> K -> bool) (l : list K) : list K :=
  match l with
  | [] => []
  | k :: ks => k :: filter (fun k' => negb (eqb k k')) (distinct eqb ks)
  end.

(** [GROUP BY key]: every distinct key with the rows that carry it, the
    rows of a group in scan order. *)
Definition group_by {R K : Type} (eqb : K -> K -> bool) (key : R -> K)
    (rows : list R) : list (K * list R) :=
  map (fun k => (k, filter (fun r => eqb k (key r)) rows))
      (distinct eqb (map key rows)).

Definition opt_eqb {A : Type} (eqb : A -> A -> bool) (x y : option A) : bool :=
  match x, y with
  | Some a, Some b => eqb a b
  | None, None => true
  | _, _ => false
  end.

End SQL.
Import SQL.

(* ================================================================== *)
(** * Calendar and text conversions *)
(* ================================================================== *)

Module Calendar.

Definition usec_per_day : Z := 86400 * 1000000.
Definition usec_per_hour : Z := 3600 * 1000000.
Definition usec_per_minute : Z := 60 * 1000000.

(** [DATE(ts)] and [CURRENT_DATE] for the transaction timestamp [ts]. *)
Definition DATE (ts : timestamptz) : date := ts / usec_per_day.

(** Day number of a proleptic Gregorian civil date. *)
Definition days_from_civil (y m d : Z) : date :=
  let y' := if m <=? 2 then y - 1 else y in
  let era := y' / 400 in
  let yoe := y' - era * 400 in
  let mp := (m + 9) mod 12 in
  let doy := (153 * mp + 2) / 5 + d - 1 in
  let doe := yoe * 365 + yoe / 4 - yoe / 100 + doy in
  era * 146097 + doe - 719468.

(** Civil date (year, month, day) of a day number. *)
Definition civil_from_days (z : date) : Z * Z * Z :=
  let z' := z + 719468 in
  let era := z' / 146097 in
  let doe := z' - era * 146097 in
  let yoe := (doe - doe / 1460 + doe / 36524 - doe / 146096) / 365 in
  let doy := doe - (365 * yoe + yoe / 4 - yoe / 100) in
  let mp := (5 * doy + 2) / 153 in
  let d := doy - (153 * mp + 2) / 5 + 1 in
  let m := if mp <? 10 then mp + 3 else mp - 9 in
  let y := yoe + era * 400 in
  ((if m <=? 2 then y + 1 else y), m, d).

Definition is_leap (y : Z) : bool :=
  ((y mod 4 =? 0) && negb (y mod 100 =? 0)) || (y mod 400 =? 0).

Definition days_in_month (y m : Z) : Z :=
  if m =? 2 then (if is_leap y then 29 else 28)
  else if (m =? 4) || (m =? 6) || (m =? 9) || (m =? 11) then 30
  else 31.

(** [d + INTERVAL '1 year']: same month and day one year later, the day
    clamped to the month's length (29 February becomes 28 February). *)
Definition plus_one_year (d : date) : date :=
  let '(y, m, dd) := civil_from_days d in
  days_from_civil (y + 1) m (Z.min dd (days_in_month (y + 1) m)).

(** [EXTRACT(DOW FROM d)]: 0 = Sunday, 1 = Monday, ..., 6 = Saturday.
    Day 0 (1970-01-01) is a Thursday. *)
Definition DOW (d : date) : Z := (d + 4) mod 7.

Definition digits (n : Z) : string := NilZero.string_of_uint (N.to_uint (Z.to_N n)).

Fixpoint replicate (n : nat) (c : string) : string :=
  match n with O => "" | S k => (c ++ replicate k c)%string end.

(** [LPAD(s, n, '0')]: pads on the left, and truncates on the right when
    [s] is longer than [n]. *)
Definition LPAD0 (s : string) (n : nat) : string :=
  if (String.length s <? n)%nat
  then (replicate (n - String.length s) "0" ++ s)%string
  else substring 0 n s.

(** A date as text, ISO style (years 1 to 9999). *)
Definition date_text (d : date) : string :=
  let '(y, m, dd) := civil_from_days d in
  (LPAD0 (digits y) 4 ++ "-" ++ LPAD0 (digits m) 2 ++ "-" ++ LPAD0 (digits dd) 2)%string.

End Calendar.
Import Calendar.

(* ================================================================== *)
(** * Tables *)
(* ================================================================== *)

(** Each table is a module holding its row type, the columns under the
    names of the schema.  A column with a CHECK constraint over a fixed list
    of texts is an enumeration.  For [drivers], [vehicles], [customers],
    [routes] and [users] only the key and the columns read by the modelled
    queries are kept. *)

Module drivers.
Record row := mk {
  id : uuid;
  driver_code : string;
  name : string
}.
End drivers.

Module vehicles.
Record row := mk {
  id : uuid;
  vehicle_code : string;
  plate_number : string
}.
End vehicles.

Module customers.
Record row := mk {
  id : uuid;
  name : string
}.
End customers.

Module routes.
Record row := mk {
  id : uuid;
  route_code : string;
  name : string;
  customer_id : option uuid;
  region : option string
}.
End routes.

Module users.
Record row := mk {
  id : uuid;
  name : string
}.
End users.

Module route_schedules.
Inductive schedule_type_t := Single | Recurring.
Inductive status_t := Pending | Confirmed | Changed | Cancelled.
Record row := mk {
  id : uuid;
  route_id : uuid;
  schedule_name : string;
  schedule_type : schedule_type_t;
  days_of_week : option (list Z);      (* 1=Monday, 7=Sunday *)
  start_date : date;
  end_date : option date;
  standby_time : option time;
  departure_time : option time;
  default_driver_id : option uuid;
  default_vehicle_id : option uuid;
  owner_user_id : option uuid;
  helper_user_id : option uuid;
  priority : option Z;
  status : status_t;
  created_by : option uuid;
  created_at : option timestamptz;
  updated_at : option timestamptz;
  notes : option string
}.
Definition status_text (s : status_t) : string :=
  match s with
  | Pending => "Pending" | Confirmed => "Confirmed"
  | Changed => "Changed" | Cancelled => "Cancelled"
  end.
End route_schedules.

Module schedule_instances.
Inductive status_t := Scheduled | Confirmed | In_Progress | Completed | Cancelled.
Record row := mk {
  id : uuid;
  route_schedule_id : uuid;
  schedule_date : date;
  driver_id : option uuid;
  vehicle_id : option uuid;
  standby_date : option date;
  standby_time : option time;
  departure_date : option date;
  departure_time : option time;
  actual_departure_time : option timestamptz;
  actual_arrival_time : option timestamptz;
  status : status_t;
  is_override : option bool;
  is_deleted : option bool;
  override_reason : option string;
  notes : option string;
  created_by : option uuid;
  created_at : option timestamptz;
  updated_at : option timestamptz
}.
Definition status_text (s : status_t) : string :=
  match s with
  | Scheduled => "Scheduled" | Confirmed => "Confirmed"
  | In_Progress => "In Progress" | Completed => "Completed"
  | Cancelled => "Cancelled"
  end.
(** [status IN ('Scheduled', 'Confirmed')] *)
Definition status_in_Scheduled_Confirmed (s : status_t) : bool :=
  match s with Scheduled | Confirmed => true | _ => false end.
End schedule_instances.

Module route_responsibility.
Inductive role_t := Primary | Backup | Observer.
Record row := mk {
  id : uuid;
  responsibility_code : string;
  route_id : uuid;
  user_id : uuid;
  role : role_t;
  assigned_at : option timestamptz;
  assigned_by : option uuid;
  is_active : option bool;
  notes : option string;
  created_at : option timestamptz;
  updated_at : option timestamptz
}.
Definition role_eqb (a b : role_t) : bool :=
  match a, b with
  | Primary, Primary | Backup, Backup | Observer, Observer => true
  | _, _ => false
  end.
Definition role_text (r : role_t) : string :=
  match r with Primary => "Primary" | Backup => "Backup" | Observer => "Observer" end.
(** The texts the CHECK constraint on [role] admits. *)
Definition role_of_text (s : string) : option role_t :=
  if String.eqb s "Primary" then Some Primary
  else if String.eqb s "Backup" then Some Backup
  else if String.eqb s "Observer" then Some Observer
  else None.
End route_responsibility.

Module support_offer.
Inductive offer_type_t := Resource | Takeover | Assistance.
Inductive priority_t := Low | Medium | High | Urgent.
Inductive status_t := Pending | Accepted | Rejected | Expired.
Record row := mk {
  id : uuid;
  offer_code : string;
  route_schedule_id : option uuid;
  schedule_instance_id : option uuid;
  from_user_id : uuid;
  to_user_id : option uuid;
  proposed_driver_id : option uuid;
  proposed_vehicle_id : option uuid;
  offer_type : offer_type_t;
  message : option string;
  priority : priority_t;
  status : status_t;
  expires_at : option timestamptz;
  responded_at : option timestamptz;
  response_message : option string;
  created_at : option timestamptz;
  updated_at : option timestamptz
}.
Definition offer_type_text (t : offer_type_t) : string :=
  match t with Resource => "Resource" | Takeover => "Takeover" | Assistance => "Assistance" end.
Definition priority_text (p : priority_t) : string :=
  match p with Low => "Low" | Medium => "Medium" | High => "High" | Urgent => "Urgent" end.
Definition status_text (s : status_t) : string :=
  match s with
  | Pending => "Pending" | Accepted => "Accepted"
  | Rejected => "Rejected" | Expired => "Expired"
  end.
(** The texts the CHECK constraint on [offer_type] admits. *)
Definition offer_type_of_text (s : string) : option offer_type_t :=
  if String.eqb s "Resource" then Some Resource
  else if String.eqb s "Takeover" then Some Takeover
  else if String.eqb s "Assistance" then Some Assistance
  else None.
Definition is_Pending (s : status_t) : bool :=
  match s with Pending => true | _ => false end.
End support_offer.

Module route_alerts.
Inductive alert_type_t :=
  Reminder | Conflict | Change | Cancellation | Delay | TimeCrossDay | Notification | Offer.
Inductive severity_t := Low | Medium | High | Critical.
Record row := mk {
  id : uuid;
  route_schedule_id : option uuid;
  schedule_instance_id : option uuid;
  alert_type : alert_type_t;
  title : string;
  message : option string;
  severity : severity_t;
  is_read : option bool;
  read_at : option timestamptz;
  created_for_user : option uuid;
  created_at : option timestamptz
}.
Definition is_TimeCrossDay (t : alert_type_t) : bool :=
  match t with TimeCrossDay => true | _ => false end.
End route_alerts.

Module conflict_checks.
Inductive conflict_type_t := Driver_Overlap | Vehicle_Overlap | Time_Conflict.
Inductive severity_t := Low | Medium | High.
Inductive status_t := Open | Resolved | Ignored.
Record row := mk {
  id : uuid;
  check_date : date;
  driver_id : option uuid;
  vehicle_id : option uuid;
  conflicting_schedules : list uuid;
  conflict_type : conflict_type_t;
  severity : severity_t;
  status : status_t;
  resolution_notes : option string;
  created_at : option timestamptz;
  resolved_at : option timestamptz
}.
Definition is_Driver_Overlap (t : conflict_type_t) : bool :=
  match t with Driver_Overlap => true | _ => false end.
Definition is_Vehicle_Overlap (t : conflict_type_t) : bool :=
  match t with Vehicle_Overlap => true | _ => false end.
End conflict_checks.

(** JSON snapshots of rows ([to_jsonb(NEW)], [to_jsonb(OLD)]): an object as
    the list of its members in column order, a member's value tagged with
    the SQL type it renders (the rendering to JSON text is injective on each
    type, so two values of a column are equal as JSON exactly when they are
    equal here). *)
Inductive jval :=
| JNull
| JBool (b : bool)
| JNum (z : Z)
| JText (s : string)
| JUuid (u : uuid)
| JTimestamp (t : timestamptz).

Definition jsonb := list (string * jval).

Module audit_logs.
Inductive operation_t := INSERT | UPDATE | DELETE.
(** [record_id] is the text of the row's id, or ['unknown']. *)
Inductive record_id_t := id_text (u : uuid) | unknown.
Record row := mk {
  id : uuid;
  table_name : string;
  record_id : record_id_t;
  operation : operation_t;
  old_values : option jsonb;
  new_values : option jsonb;
  changed_fields : option (list string);
  user_id : option uuid;
  user_email : option string;
  ip_address : option string;
  user_agent : option string;
  session_id : option string;
  request_id : option string;
  created_at : option timestamptz
}.
End audit_logs.

(** The database: the tables the modelled statements touch, and the two
    sequences they draw from. *)
Record DB := mkDB {
  tbl_drivers : list drivers.row;
  tbl_vehicles : list vehicles.row;
  tbl_customers : list customers.row;
  tbl_routes : list routes.row;
  tbl_users : list users.row;
  tbl_route_schedules : list route_schedules.row;
  tbl_schedule_instances : list schedule_instances.row;
  tbl_route_responsibility : list route_responsibility.row;
  tbl_support_offer : list support_offer.row;
  tbl_route_alerts : list route_alerts.row;
  tbl_conflict_checks : list conflict_checks.row;
  tbl_audit_logs : list audit_logs.row;
  seq_support_offer_num : N;
  seq_route_responsibility_num : N
}.

Definition empty_db : DB :=
  mkDB [] [] [] [] [] [] [] [] [] [] [] [] 0 0.

(** [uuid_generate_v4()] for a table whose stored identifiers are [ids]. *)
Definition fresh_uuid (ids : list uuid) : uuid :=
  (fold_right N.max 0 ids + 1)%N.

(** The transaction's clock: [now()]. *)
Definition CURRENT_DATE (now : timestamptz) : date := DATE now.

(* ================================================================== *)
(** * The materialised view [schedule_overview] *)
(* ================================================================== *)

Module overview.
Record row := mk {
  schedule_id : uuid;
  route_code : string;
  route_name : string;
  region : option string;
  schedule_date : date;
  standby_time : option time;
  departure_time : option time;
  standby_date : option date;
  departure_date : option date;
  driver_code : option string;
  driver_name : option string;
  vehicle_code : option string;
  plate_number : option string;
  status : option string;
  created_at : option timestamptz;
  customer_name : option string;
  has_override : bool;
  is_override : option bool;
  is_deleted : option bool;
  owner_user_name : option string;
  helper_user_name : option string
}.
End overview.

Notation "'FOR' x 'IN' l ;; k" := (flat_map (fun x => k) l)
  (at level 10, x name, l at level 100, k at level 200,
   format "'[v' 'FOR'  x  'IN'  l  ;;  '/' k ']'").
Notation "'WHERE' c ;; k" := (if c then k else [])
  (at level 10, c at level 100, k at level 200,
   format "'[v' 'WHERE'  c  ;;  '/' k ']'").

(** The recurrence rule the view tests the weekday against:
    [CASE WHEN rs.days_of_week IS NULL THEN ARRAY[1,2,3,4,5,6,7]
          ELSE rs.days_of_week END]. *)
Definition rule_days (rs : route_schedules.row) : list Z :=
  match route_schedules.days_of_week rs with
  | None => [1; 2; 3; 4; 5; 6; 7]
  | Some l => l
  end.

(** [rs.status IN ('Confirmed', 'Changed')] *)
Definition status_in_Confirmed_Changed (s : route_schedules.status_t) : bool :=
  match s with
  | route_schedules.Confirmed | route_schedules.Changed => true
  | _ => false
  end.

(** The last day of a template's series:
    [COALESCE(rs.end_date, rs.start_date + INTERVAL '1 year')]. *)
Definition series_stop (rs : route_schedules.row) : date :=
  match route_schedules.end_date rs with
  | Some e => e
  | None => plus_one_year (route_schedules.start_date rs)
  end.

(** The ON condition of [LEFT JOIN schedule_instances si]:
    [si.route_schedule_id = rs.id AND si.schedule_date = schedule_date::DATE
     AND si.is_deleted = FALSE]. *)
Definition si_join_on (rs : route_schedules.row) (schedule_date : date)
    (si : schedule_instances.row) : bool :=
  N.eqb (schedule_instances.route_schedule_id si) (route_schedules.id rs)
  && Z.eqb (schedule_instances.schedule_date si) schedule_date
  && is_true (sql_eq Bool.eqb (schedule_instances.is_deleted si) (Some false)).

(** The SELECT of [CREATE MATERIALIZED VIEW schedule_overview], clause by
    clause, with each of its five unqualified references to [schedule_date]
    (lines 437, 440, 441, 465 and 470) read as the day of the series.
    PostgreSQL does not make that choice, since [si] has a column of that
    name too: the statement as written is analysed by [schedule_overview]
    below.  These rows stand for the occurrences the materialiser is meant
    to give. *)
Definition schedule_overview_rows (db : DB) : list overview.row :=
  FOR rs IN tbl_route_schedules db ;;
  FOR r IN inner_join
      (fun r => N.eqb (route_schedules.route_id rs) (routes.id r)) (tbl_routes db) ;;
  FOR c IN left_join
      (fun c => is_true (sql_eq N.eqb (routes.customer_id r) (Some (customers.id c))))
      (tbl_customers db) ;;
  FOR d_default IN left_join
      (fun d => is_true (sql_eq N.eqb (route_schedules.default_driver_id rs) (Some (drivers.id d))))
      (tbl_drivers db) ;;
  FOR v_default IN left_join
      (fun v => is_true (sql_eq N.eqb (route_schedules.default_vehicle_id rs) (Some (vehicles.id v))))
      (tbl_vehicles db) ;;
  FOR u_owner IN left_join
      (fun u => is_true (sql_eq N.eqb (route_schedules.owner_user_id rs) (Some (users.id u))))
      (tbl_users db) ;;
  FOR u_helper IN left_join
      (fun u => is_true (sql_eq N.eqb (route_schedules.helper_user_id rs) (Some (users.id u))))
      (tbl_users db) ;;
  FOR schedule_date IN
      generate_series (route_schedules.start_date rs) (series_stop rs) ;;
  FOR si IN left_join (si_join_on rs schedule_date) (tbl_schedule_instances db) ;;
  FOR d_override IN left_join
      (fun d => is_true (sql_eq N.eqb (col schedule_instances.driver_id si) (Some (drivers.id d))))
      (tbl_drivers db) ;;
  FOR v_override IN left_join
      (fun v => is_true (sql_eq N.eqb (col schedule_instances.vehicle_id si) (Some (vehicles.id v))))
      (tbl_vehicles db) ;;
  WHERE status_in_Confirmed_Changed (route_schedules.status rs)
        && (is_true (sql_eq Bool.eqb (col schedule_instances.is_deleted si) (Some false))
            || IS_NULL (col schedule_instances.is_deleted si))
        && eq_any (DOW schedule_date) (rule_days rs) ;;
  [ overview.mk
      (route_schedules.id rs)
      (routes.route_code r)
      (routes.name r)
      (routes.region r)
      schedule_date
      (COALESCE (col schedule_instances.standby_time si) (route_schedules.standby_time rs))
      (COALESCE (col schedule_instances.departure_time si) (route_schedules.departure_time rs))
      (COALESCE (col schedule_instances.standby_date si) (Some schedule_date))
      (COALESCE (col schedule_instances.departure_date si) (Some schedule_date))
      (COALESCE (col' drivers.driver_code d_override) (col' drivers.driver_code d_default))
      (COALESCE (col' drivers.name d_override) (col' drivers.name d_default))
      (COALESCE (col' vehicles.vehicle_code v_override) (col' vehicles.vehicle_code v_default))
      (COALESCE (col' vehicles.plate_number v_override) (col' vehicles.plate_number v_default))
      (COALESCE (col' (fun i => schedule_instances.status_text (schedule_instances.status i)) si)
                (Some (route_schedules.status_text (route_schedules.status rs))))
      (route_schedules.created_at rs)
      (col' customers.name c)
      (match si with Some _ => true | None => false end)
      (col schedule_instances.is_override si)
      (col schedule_instances.is_deleted si)
      (col' users.name u_owner)
      (col' users.name u_helper) ].

(* ================================================================== *)
(** * Writing to tables *)
(* ================================================================== *)

Definition set_route_alerts (db : DB) (t : list route_alerts.row) : DB :=
  mkDB (tbl_drivers db) (tbl_vehicles db) (tbl_customers db) (tbl_routes db)
       (tbl_users db) (tbl_route_schedules db) (tbl_schedule_instances db)
       (tbl_route_responsibility db) (tbl_support_offer db) t
       (tbl_conflict_checks db) (tbl_audit_logs db)
       (seq_support_offer_num db) (seq_route_responsibility_num db).

Definition set_conflict_checks (db : DB) (t : list conflict_checks.row) : DB :=
  mkDB (tbl_drivers db) (tbl_vehicles db) (tbl_customers db) (tbl_routes db)
       (tbl_users db) (tbl_route_schedules db) (tbl_schedule_instances db)
       (tbl_route_responsibility db) (tbl_support_offer db) (tbl_route_alerts db)
       t (tbl_audit_logs db)
       (seq_support_offer_num db) (seq_route_responsibility_num db).

Definition set_audit_logs (db : DB) (t : list audit_logs.row) : DB :=
  mkDB (tbl_drivers db) (tbl_vehicles db) (tbl_customers db) (tbl_routes db)
       (tbl_users db) (tbl_route_schedules db) (tbl_schedule_instances db)
       (tbl_route_responsibility db) (tbl_support_offer db) (tbl_route_alerts db)
       (tbl_conflict_checks db) t
       (seq_support_offer_num db) (seq_route_responsibility_num db).

Definition set_support_offer (db : DB) (t : list support_offer.row) (seq : N) : DB :=
  mkDB (tbl_drivers db) (tbl_vehicles db) (tbl_customers db) (tbl_routes db)
       (tbl_users db) (tbl_route_schedules db) (tbl_schedule_instances db)
       (tbl_route_responsibility db) t (tbl_route_alerts db)
       (tbl_conflict_checks db) (tbl_audit_logs db)
       seq (seq_route_responsibility_num db).

Definition set_route_responsibility (db : DB) (t : list route_responsibility.row)
    (seq : N) : DB :=
  mkDB (tbl_drivers db) (tbl_vehicles db) (tbl_customers db) (tbl_routes db)
       (tbl_users db) (tbl_route_schedules db) (tbl_schedule_instances db)
       t (tbl_support_offer db) (tbl_route_alerts db)
       (tbl_conflict_checks db) (tbl_audit_logs db)
       (seq_support_offer_num db) seq.

(** [INSERT INTO t ... SELECT ...] with the id column left to its default:
    the selected rows are appended one by one, each under a generated id. *)
Section InsertRows.
Context {R : Type} (get_id : R -> uuid) (set_id : uuid -> R -> R).

Fixpoint insert_rows (news : list R) (t : list R) : list R :=
  match news with
  | [] => t
  | r :: rest => insert_rows rest (t ++ [set_id (fresh_uuid (map get_id t)) r])
  end.
End InsertRows.

Definition conflict_with_id (u : uuid) (c : conflict_checks.row) : conflict_checks.row :=
  conflict_checks.mk u
    (conflict_checks.check_date c) (conflict_checks.driver_id c)
    (conflict_checks.vehicle_id c) (conflict_checks.conflicting_schedules c)
    (conflict_checks.conflict_type c) (conflict_checks.severity c)
    (conflict_checks.status c) (conflict_checks.resolution_notes c)
    (conflict_checks.created_at c) (conflict_checks.resolved_at c).

Definition alert_with_id (u : uuid) (a : route_alerts.row) : route_alerts.row :=
  route_alerts.mk u
    (route_alerts.route_schedule_id a) (route_alerts.schedule_instance_id a)
    (route_alerts.alert_type a) (route_alerts.title a) (route_alerts.message a)
    (route_alerts.severity a) (route_alerts.is_read a) (route_alerts.read_at a)
    (route_alerts.created_for_user a) (route_alerts.created_at a).

(* ================================================================== *)
(** * [detect_schedule_conflicts()] *)
(* ================================================================== *)

(** The WHERE clause of the driver query:
    [schedule_date = CURRENT_DATE AND driver_id IS NOT NULL
     AND status IN ('Scheduled', 'Confirmed') AND is_deleted = FALSE]. *)
Definition driver_conflict_where (today : date) (si : schedule_instances.row) : bool :=
  Z.eqb (schedule_instances.schedule_date si) today
  && IS_NOT_NULL (schedule_instances.driver_id si)
  && schedule_instances.status_in_Scheduled_Confirmed (schedule_instances.status si)
  && is_true (sql_eq Bool.eqb (schedule_instances.is_deleted si) (Some false)).

(** The WHERE clause of the vehicle query. *)
Definition vehicle_conflict_where (today : date) (si : schedule_instances.row) : bool :=
  Z.eqb (schedule_instances.schedule_date si) today
  && IS_NOT_NULL (schedule_instances.vehicle_id si)
  && schedule_instances.status_in_Scheduled_Confirmed (schedule_instances.status si)
  && is_true (sql_eq Bool.eqb (schedule_instances.is_deleted si) (Some false)).

(** Grouping keys [(driver_id, schedule_date)] and [(vehicle_id,
    schedule_date)]; GROUP BY puts NULLs in one group. *)
Definition group_key := (option uuid * date)%type.

Definition group_key_eqb (a b : group_key) : bool :=
  opt_eqb N.eqb (fst a) (fst b) && Z.eqb (snd a) (snd b).

Definition driver_key (si : schedule_instances.row) : group_key :=
  (schedule_instances.driver_id si, schedule_instances.schedule_date si).

Definition vehicle_key (si : schedule_instances.row) : group_key :=
  (schedule_instances.vehicle_id si, schedule_instances.schedule_date si).

(** [CASE WHEN COUNT( * ) > 2 THEN 'High' ELSE 'Medium' END] *)
Definition conflict_severity (count : nat) : conflict_checks.severity_t :=
  if (2 <? count)%nat then conflict_checks.High else conflict_checks.Medium.

(** The rows selected by the driver query, before their ids are generated
    (the id shown is a placeholder): one per group with [COUNT( * ) > 1]. *)
Definition driver_conflicts (now : timestamptz) (sis : list schedule_instances.row)
    : list conflict_checks.row :=
  let today := CURRENT_DATE now in
  FOR g IN group_by group_key_eqb driver_key (filter (driver_conflict_where today) sis) ;;
  WHERE (1 <? List.length (snd g))%nat ;;
  [ conflict_checks.mk 0%N today (fst (fst g)) None
      (map schedule_instances.id (snd g))
      conflict_checks.Driver_Overlap
      (conflict_severity (List.length (snd g)))
      conflict_checks.Open None (Some now) None ].

Definition vehicle_conflicts (now : timestamptz) (sis : list schedule_instances.row)
    : list conflict_checks.row :=
  let today := CURRENT_DATE now in
  FOR g IN group_by group_key_eqb vehicle_key (filter (vehicle_conflict_where today) sis) ;;
  WHERE (1 <? List.length (snd g))%nat ;;
  [ conflict_checks.mk 0%N today None (fst (fst g))
      (map schedule_instances.id (snd g))
      conflict_checks.Vehicle_Overlap
      (conflict_severity (List.length (snd g)))
      conflict_checks.Open None (Some now) None ].

(** The function takes no argument: the date it works on is [CURRENT_DATE],
    read from the transaction's clock [now]. *)
Definition detect_schedule_conflicts (now : timestamptz) (db : DB) : DB :=
  let today := CURRENT_DATE now in
  (* DELETE FROM conflict_checks WHERE check_date = CURRENT_DATE *)
  let kept :=
    filter (fun c => negb (Z.eqb (conflict_checks.check_date c) today))
           (tbl_conflict_checks db) in
  (* INSERT ... 'Driver Overlap' *)
  let t1 :=
    insert_rows conflict_checks.id conflict_with_id
      (driver_conflicts now (tbl_schedule_instances db)) kept in
  (* INSERT ... 'Vehicle Overlap' *)
  let t2 :=
    insert_rows conflict_checks.id conflict_with_id
      (vehicle_conflicts now (tbl_schedule_instances db)) t1 in
  set_conflict_checks db t2.

(* ================================================================== *)
(** * [detect_cross_day_conflict()] *)
(* ================================================================== *)

(** The alerts the first statement deletes:
    [alert_type = 'TimeCrossDay' AND DATE(created_at) = CURRENT_DATE]. *)
Definition cross_day_alert_of_today (today : date) (a : route_alerts.row) : bool :=
  route_alerts.is_TimeCrossDay (route_alerts.alert_type a)
  && is_true (sql_eq Z.eqb (option_map DATE (route_alerts.created_at a)) (Some today)).

(** ['Route ' || r.route_code || ' has standby time on ' || si.standby_date
     || ' but departure on ' || si.departure_date]; NULL when an operand is. *)
Definition cross_day_message (r : routes.row) (si : schedule_instances.row)
    : option string :=
  match schedule_instances.standby_date si, schedule_instances.departure_date si with
  | Some s, Some d =>
      Some ("Route " ++ routes.route_code r ++ " has standby time on " ++ date_text s
            ++ " but departure on " ++ date_text d)%string
  | _, _ => None
  end.

(** The WHERE clause of the detection query:
    [si.schedule_date = CURRENT_DATE AND si.standby_date != si.departure_date
     AND si.is_deleted = FALSE]. *)
Definition cross_day_where (today : date) (si : schedule_instances.row) : bool :=
  Z.eqb (schedule_instances.schedule_date si) today
  && is_true (sql_neq Z.eqb (schedule_instances.standby_date si)
                            (schedule_instances.departure_date si))
  && is_true (sql_eq Bool.eqb (schedule_instances.is_deleted si) (Some false)).

(** The rows selected for insertion, ids not yet generated. *)
Definition cross_day_alerts (now : timestamptz) (db : DB) : list route_alerts.row :=
  FOR si IN tbl_schedule_instances db ;;
  FOR rs IN inner_join
      (fun rs => N.eqb (schedule_instances.route_schedule_id si) (route_schedules.id rs))
      (tbl_route_schedules db) ;;
  FOR r IN inner_join
      (fun r => N.eqb (route_schedules.route_id rs) (routes.id r)) (tbl_routes db) ;;
  WHERE cross_day_where (CURRENT_DATE now) si ;;
  [ route_alerts.mk 0%N None (Some (schedule_instances.id si))
      route_alerts.TimeCrossDay
      "Cross-Day Schedule Detected"
      (cross_day_message r si)
      route_alerts.Medium
      (Some false) None
      (route_schedules.owner_user_id rs)
      (Some now) ].

Definition detect_cross_day_conflict (now : timestamptz) (db : DB) : DB :=
  let kept :=
    filter (fun a => negb (cross_day_alert_of_today (CURRENT_DATE now) a))
           (tbl_route_alerts db) in
  set_route_alerts db
    (insert_rows route_alerts.id alert_with_id (cross_day_alerts now db) kept).

(* ================================================================== *)
(** * Statements that can raise *)
(* ================================================================== *)

Inductive sql_error :=
| not_null_violation (column : string)
| check_violation (constraint : string)
| unique_violation (constraint : string)
| foreign_key_violation (constraint : string)
| insufficient_privilege (table : string)
| invalid_text_representation (type : string)
| undefined_column (column : string)
| ambiguous_column (column : string).

Inductive result (A : Type) :=
| Ok (a : A)
| Err (e : sql_error).
Arguments Ok {A} a.
Arguments Err {A} e.

(** A statement run against the database: its value and the new state, or
    the error that aborts the transaction. *)
Definition sql (A : Type) := DB -> result (A * DB).

Definition ret {A : Type} (a : A) : sql A := fun db => Ok (a, db).

Definition bind {A B : Type} (c : sql A) (k : A -> sql B) : sql B :=
  fun db =>
    match c db with
    | Ok (a, db') => k a db'
    | Err e => Err e
    end.

Definition raise {A : Type} (e : sql_error) : sql A := fun _ => Err e.

Definition require (b : bool) (e : sql_error) : sql unit :=
  if b then ret tt else raise e.

Definition read {A : Type} (f : DB -> A) : sql A := fun db => Ok (f db, db).

Definition write (f : DB -> DB) : sql unit := fun db => Ok (tt, f db).

Notation "'let*' x ':=' c 'in' k" := (bind c (fun x => k))
  (at level 10, x name, c at level 100, k at level 200).
Notation "c ';;;' k" := (bind c (fun _ => k))
  (at level 100, k at level 200, right associativity).

(* ================================================================== *)
(** * [CREATE MATERIALIZED VIEW schedule_overview] *)
(* ================================================================== *)

(** A relation in the scope of a clause: the name it goes by there and the
    names of its columns. *)
Record relation := mkRelation {
  rel_name : string;
  rel_columns : list string
}.

Definition has_column (column : string) (r : relation) : bool :=
  existsb (String.eqb column) (rel_columns r).

(** An unqualified column reference is the column of the one relation in
    scope that has a column of that name.  With no such relation the
    statement is rejected (SQLSTATE 42703, undefined column); with more than
    one it is rejected too (SQLSTATE 42702, column reference is
    ambiguous). *)
Definition resolve (column : string) (scope : list relation) : result string :=
  match filter (has_column column) scope with
  | [] => Err (undefined_column column)
  | [r] => Ok (rel_name r)
  | _ :: _ :: _ => Err (ambiguous_column column)
  end.

Fixpoint resolve_all (refs : list (string * list relation)) : result (list string) :=
  match refs with
  | [] => Ok []
  | (column, scope) :: rest =>
      match resolve column scope with
      | Err e => Err e
      | Ok r =>
          match resolve_all rest with
          | Err e => Err e
          | Ok rs => Ok (r :: rs)
          end
      end
  end.

(** The columns of the tables of the FROM clause, as the migration creates
    them. *)
Definition columns_of_route_schedules : list string :=
  ["id"; "route_id"; "schedule_name"; "schedule_type"; "days_of_week";
   "start_date"; "end_date"; "standby_time"; "departure_time";
   "default_driver_id"; "default_vehicle_id"; "owner_user_id"; "helper_user_id";
   "priority"; "status"; "created_by"; "created_at"; "updated_at"; "notes"].

Definition columns_of_routes : list string :=
  ["id"; "route_code"; "name"; "description"; "customer_id"; "origin_name";
   "destination_name"; "origin_coordinates"; "destination_coordinates";
   "estimated_distance_km"; "estimated_duration_minutes"; "default_standby_time";
   "default_departure_time"; "region"; "subcontractor"; "status"; "created_at";
   "updated_at"].

Definition columns_of_customers : list string :=
  ["id"; "customer_code"; "name"; "contact_person"; "phone"; "email"; "address";
   "status"; "created_at"; "updated_at"].

Definition columns_of_drivers : list string :=
  ["id"; "driver_code"; "name"; "phone"; "email"; "license_number"; "status";
   "created_at"; "updated_at"].

Definition columns_of_vehicles : list string :=
  ["id"; "vehicle_code"; "plate_number"; "vehicle_type_id"; "brand"; "model";
   "year"; "status"; "created_at"; "updated_at"].

Definition columns_of_users : list string :=
  ["id"; "user_code"; "name"; "email"; "phone"; "role"; "status"; "last_login";
   "password_hash"; "avatar_url"; "preferences"; "created_at"; "updated_at"].

Definition columns_of_schedule_instances : list string :=
  ["id"; "route_schedule_id"; "schedule_date"; "driver_id"; "vehicle_id";
   "standby_date"; "standby_time"; "departure_date"; "departure_time";
   "actual_departure_time"; "actual_arrival_time"; "status"; "is_override";
   "is_deleted"; "override_reason"; "notes"; "created_by"; "created_at";
   "updated_at"].

(** [generate_series(...) AS schedule_date]: a relation named
    [schedule_date] whose one column has that name too. *)
Definition series : relation := mkRelation "schedule_date" ["schedule_date"].

(** The relations of the FROM clause, in the order they are joined. *)
Definition schedule_overview_from : list relation :=
  [ mkRelation "rs" columns_of_route_schedules;
    mkRelation "r" columns_of_routes;
    mkRelation "c" columns_of_customers;
    mkRelation "d_default" columns_of_drivers;
    mkRelation "v_default" columns_of_vehicles;
    mkRelation "u_owner" columns_of_users;
    mkRelation "u_helper" columns_of_users;
    series;
    mkRelation "si" columns_of_schedule_instances;
    mkRelation "d_override" columns_of_drivers;
    mkRelation "v_override" columns_of_vehicles ].

(** The scope of the ON clause of [LEFT JOIN schedule_instances si]: the
    relations joined so far and [si]. *)
Definition schedule_overview_on_si : list relation := firstn 9 schedule_overview_from.

(** The unqualified column references of the statement, each with its
    scope, in the order the statement is analysed (FROM clause, select
    list, WHERE clause).  Every other column reference of the statement is
    qualified. *)
Definition schedule_overview_references : list (string * list relation) :=
  [ (* ON ... AND si.schedule_date = schedule_date::DATE *)
    ("schedule_date", schedule_overview_on_si);
    (* schedule_date::DATE AS schedule_date *)
    ("schedule_date", schedule_overview_from);
    (* COALESCE(si.standby_date, schedule_date::DATE) *)
    ("schedule_date", schedule_overview_from);
    (* COALESCE(si.departure_date, schedule_date::DATE) *)
    ("schedule_date", schedule_overview_from);
    (* EXTRACT(DOW FROM schedule_date) *)
    ("schedule_date", schedule_overview_from) ].

(** The statement: its references are resolved, and only then is the query
    run.  A reference to [schedule_date] that resolves is the column of the
    series, which is in each scope and has the column (lemma
    [resolve_in_scope_of_series]); that is the reading of
    [schedule_overview_rows]. *)
Definition schedule_overview (db : DB) : result (list overview.row) :=
  match resolve_all schedule_overview_references with
  | Err e => Err e
  | Ok _ => Ok (schedule_overview_rows db)
  end.

(** The session a statement runs in. *)
Inductive db_role := anon | authenticated | service_role.

(** [current_setting(name, true)] read at a type: not set (NULL), a text the
    cast accepts, or a text it rejects. *)
Inductive setting (A : Type) :=
| unset
| valid (a : A)
| malformed.
Arguments unset {A}.
Arguments valid {A} a.
Arguments malformed {A}.

Record session := mkSession {
  role : db_role;
  (** whether the INSERT policies on [audit_logs] of the discarded migration
      [20250711151736_steep_base.sql] are in force *)
  audit_insert_policies : bool;
  app_current_user_id : setting uuid;
  app_current_user_email : option string;
  app_client_ip : setting string;
  app_user_agent : option string
}.

(** Row-level security on [audit_logs] for INSERT.  The migration enables
    it and declares a SELECT policy only, so an INSERT by [anon] or
    [authenticated] is refused unless the discarded migration's policies
    ([FOR INSERT ... WITH CHECK (true)]) are in force; [service_role]
    bypasses row-level security. *)
Definition audit_insert_allowed (s : session) : bool :=
  match role s with
  | service_role => true
  | anon | authenticated => audit_insert_policies s
  end.

Definition user_exists (db : DB) (u : option uuid) : bool :=
  match u with
  | None => true
  | Some x => existsb (fun r => N.eqb (users.id r) x) (tbl_users db)
  end.

(* ================================================================== *)
(** * [audit_trigger_function()] *)
(* ================================================================== *)

Record trigger_data := mkTrigger {
  TG_TABLE_NAME : string;
  TG_OP : audit_logs.operation_t;
  OLD : option jsonb;      (* to_jsonb(OLD); no OLD row on INSERT *)
  NEW : option jsonb       (* to_jsonb(NEW); no NEW row on DELETE *)
}.

Definition jval_eqb (a b : jval) : bool :=
  match a, b with
  | JNull, JNull => true
  | JBool x, JBool y => Bool.eqb x y
  | JNum x, JNum y => Z.eqb x y
  | JText x, JText y => String.eqb x y
  | JUuid x, JUuid y => N.eqb x y
  | JTimestamp x, JTimestamp y => Z.eqb x y
  | _, _ => false
  end.

Fixpoint member (k : string) (o : jsonb) : option jval :=
  match o with
  | [] => None
  | (k', v) :: rest => if String.eqb k k' then Some v else member k rest
  end.

(** [NEW.id], [OLD.id] *)
Definition row_id (r : option jsonb) : option uuid :=
  match r with
  | Some o => match member "id" o with Some (JUuid u) => Some u | _ => None end
  | None => None
  end.

(** The tables named by [CASE TG_TABLE_NAME]. *)
Definition record_id_tables : list string :=
  ["drivers"; "vehicles"; "customers"; "routes"; "route_schedules";
   "schedule_instances"; "users"; "support_offer"; "route_responsibility";
   "app_settings"; "suggestion_config"].

(** The block that reads the current user: a setting the cast rejects
    raises inside the block, and the handler sets both variables to NULL. *)
Definition current_user_info (s : session) : option uuid * option string :=
  match app_current_user_id s with
  | malformed => (None, None)
  | unset => (None, app_current_user_email s)
  | valid u => (Some u, app_current_user_email s)
  end.

(** The fields of an UPDATE that changed:
    [SELECT key FROM jsonb_each(to_jsonb(NEW))
     WHERE to_jsonb(NEW) -> key != to_jsonb(OLD) -> key]. *)
Definition changed_fields_of (old new : jsonb) : list string :=
  map fst
    (filter (fun kv => match member (fst kv) old with
                       | Some v' => negb (jval_eqb (snd kv) v')
                       | None => false
                       end) new).

(** The INSERT INTO audit_logs every branch ends with.  Nothing handles an
    error here: the cast of [app.client_ip] to INET, the row-level security
    check, the NOT NULL constraint on [record_id] and the foreign key of
    [user_id] each raise out of the trigger. *)
Definition audit_trigger_function (s : session) (now : timestamptz)
    (tg : trigger_data) : sql unit :=
  let '(v_user_id, v_user_email) := current_user_info s in
  let v_record_id :=
    if existsb (String.eqb (TG_TABLE_NAME tg)) record_id_tables
    then option_map audit_logs.id_text (COALESCE (row_id (NEW tg)) (row_id (OLD tg)))
    else Some audit_logs.unknown in
  let v_changed_fields :=
    match TG_OP tg, OLD tg, NEW tg with
    | audit_logs.UPDATE, Some o, Some n => changed_fields_of o n
    | _, _, _ => []
    end in
  let* ip :=
    match app_client_ip s with
    | malformed => raise (invalid_text_representation "inet")
    | unset => ret None
    | valid a => ret (Some a)
    end in
  require (audit_insert_allowed s) (insufficient_privilege "audit_logs") ;;;
  let* record_id :=
    match v_record_id with
    | Some r => ret r
    | None => raise (not_null_violation "record_id")
    end in
  let* db := read (fun db => db) in
  require (user_exists db v_user_id) (foreign_key_violation "audit_logs_user_id_fkey") ;;;
  let entry :=
    audit_logs.mk
      (fresh_uuid (map audit_logs.id (tbl_audit_logs db)))
      (TG_TABLE_NAME tg) record_id (TG_OP tg)
      (match TG_OP tg with audit_logs.INSERT => None | _ => OLD tg end)
      (match TG_OP tg with audit_logs.DELETE => None | _ => NEW tg end)
      (match TG_OP tg with audit_logs.UPDATE => Some v_changed_fields | _ => None end)
      v_user_id v_user_email ip (app_user_agent s) None None (Some now) in
  write (fun db => set_audit_logs db (tbl_audit_logs db ++ [entry])).

(** A table with an audit trigger ([AFTER INSERT OR UPDATE OR DELETE ...
    FOR EACH ROW EXECUTE FUNCTION audit_trigger_function()]): its name and
    the JSON snapshot of a row. *)
Class Tracked (R : Type) := {
  table_name : string;
  to_jsonb : R -> jsonb
}.

(** A row-level change of a tracked table. *)
Inductive row_change (R : Type) :=
| inserted (new : R)
| updated (old new : R)
| deleted (old : R).
Arguments inserted {R} new.
Arguments updated {R} old new.
Arguments deleted {R} old.

Definition trigger_data_of {R : Type} `{Tracked R} (c : row_change R) : trigger_data :=
  match c with
  | inserted n => mkTrigger table_name audit_logs.INSERT None (Some (to_jsonb n))
  | updated o n => mkTrigger table_name audit_logs.UPDATE (Some (to_jsonb o)) (Some (to_jsonb n))
  | deleted o => mkTrigger table_name audit_logs.DELETE (Some (to_jsonb o)) None
  end.

(** A statement on a tracked table: the change itself ([primary], which
    reports the row it changed), then the AFTER ROW trigger, in one
    transaction. *)
Definition audited {R : Type} `{Tracked R} (s : session) (now : timestamptz)
    (primary : sql (row_change R)) : sql (row_change R) :=
  let* c := primary in
  audit_trigger_function s now (trigger_data_of c) ;;;
  ret c.

Definition jopt {A : Type} (f : A -> jval) (x : option A) : jval :=
  match x with Some a => f a | None => JNull end.

#[export] Instance Tracked_support_offer : Tracked support_offer.row := {
  table_name := "support_offer";
  to_jsonb r :=
    [ ("id", JUuid (support_offer.id r));
      ("offer_code", JText (support_offer.offer_code r));
      ("route_schedule_id", jopt JUuid (support_offer.route_schedule_id r));
      ("schedule_instance_id", jopt JUuid (support_offer.schedule_instance_id r));
      ("from_user_id", JUuid (support_offer.from_user_id r));
      ("to_user_id", jopt JUuid (support_offer.to_user_id r));
      ("proposed_driver_id", jopt JUuid (support_offer.proposed_driver_id r));
      ("proposed_vehicle_id", jopt JUuid (support_offer.proposed_vehicle_id r));
      ("offer_type", JText (support_offer.offer_type_text (support_offer.offer_type r)));
      ("message", jopt JText (support_offer.message r));
      ("priority", JText (support_offer.priority_text (support_offer.priority r)));
      ("status", JText (support_offer.status_text (support_offer.status r)));
      ("expires_at", jopt JTimestamp (support_offer.expires_at r));
      ("responded_at", jopt JTimestamp (support_offer.responded_at r));
      ("response_message", jopt JText (support_offer.response_message r));
      ("created_at", jopt JTimestamp (support_offer.created_at r));
      ("updated_at", jopt JTimestamp (support_offer.updated_at r)) ]
}.

#[export] Instance Tracked_route_responsibility : Tracked route_responsibility.row := {
  table_name := "route_responsibility";
  to_jsonb r :=
    [ ("id", JUuid (route_responsibility.id r));
      ("responsibility_code", JText (route_responsibility.responsibility_code r));
      ("route_id", JUuid (route_responsibility.route_id r));
      ("user_id", JUuid (route_responsibility.user_id r));
      ("role", JText (route_responsibility.role_text (route_responsibility.role r)));
      ("assigned_at", jopt JTimestamp (route_responsibility.assigned_at r));
      ("assigned_by", jopt JUuid (route_responsibility.assigned_by r));
      ("is_active", jopt JBool (route_responsibility.is_active r));
      ("notes", jopt JText (route_responsibility.notes r));
      ("created_at", jopt JTimestamp (route_responsibility.created_at r));
      ("updated_at", jopt JTimestamp (route_responsibility.updated_at r)) ]
}.

(* ================================================================== *)
(** * [create_support_offer(...)] *)
(* ================================================================== *)

(** ['SOF' || LPAD(nextval('seq_support_offer_num')::text, 6, '0')] *)
Definition offer_code_of (n : N) : string :=
  ("SOF" ++ LPAD0 (digits (Z.of_N n)) 6)%string.

Definition id_exists {R : Type} (get_id : R -> uuid) (t : list R) (u : option uuid) : bool :=
  match u with
  | None => true
  | Some x => existsb (fun r => N.eqb (get_id r) x) t
  end.

(** The [INSERT INTO support_offer ... RETURNING id] of the function, with
    the table's defaults and constraints. *)
Definition insert_support_offer (now : timestamptz)
    (p_route_schedule_id p_from_user_id p_to_user_id
     p_proposed_driver_id p_proposed_vehicle_id : option uuid)
    (p_message p_offer_type : option string)
    : sql (row_change support_offer.row) :=
  let* db := read (fun db => db) in
  let n := (seq_support_offer_num db + 1)%N in
  let* from_user :=
    match p_from_user_id with
    | Some u => ret u
    | None => raise (not_null_violation "from_user_id")
    end in
  let* offer_type_text :=
    match p_offer_type with
    | Some t => ret t
    | None => raise (not_null_violation "offer_type")
    end in
  let* offer_type :=
    match support_offer.offer_type_of_text offer_type_text with
    | Some t => ret t
    | None => raise (check_violation "support_offer_offer_type_check")
    end in
  let row :=
    support_offer.mk
      (fresh_uuid (map support_offer.id (tbl_support_offer db)))
      (offer_code_of n)
      p_route_schedule_id None from_user p_to_user_id
      p_proposed_driver_id p_proposed_vehicle_id
      offer_type p_message
      support_offer.Medium support_offer.Pending
      (Some (now + 24 * usec_per_hour))       (* now() + INTERVAL '24 hours' *)
      None None (Some now) (Some now) in
  require (negb (existsb (fun r => String.eqb (support_offer.offer_code r) (offer_code_of n))
                         (tbl_support_offer db)))
          (unique_violation "support_offer_offer_code_key") ;;;
  require (id_exists route_schedules.id (tbl_route_schedules db) p_route_schedule_id)
          (foreign_key_violation "support_offer_route_schedule_id_fkey") ;;;
  require (user_exists db (Some from_user))
          (foreign_key_violation "support_offer_from_user_id_fkey") ;;;
  require (user_exists db p_to_user_id)
          (foreign_key_violation "support_offer_to_user_id_fkey") ;;;
  require (id_exists drivers.id (tbl_drivers db) p_proposed_driver_id)
          (foreign_key_violation "support_offer_proposed_driver_id_fkey") ;;;
  require (id_exists vehicles.id (tbl_vehicles db) p_proposed_vehicle_id)
          (foreign_key_violation "support_offer_proposed_vehicle_id_fkey") ;;;
  write (fun db => set_support_offer db (tbl_support_offer db ++ [row]) n) ;;;
  ret (inserted row).

Definition create_support_offer (s : session) (now : timestamptz)
    (p_route_schedule_id p_from_user_id p_to_user_id
     p_proposed_driver_id p_proposed_vehicle_id : option uuid)
    (p_message p_offer_type : option string) : sql uuid :=
  let* c :=
    audited s now
      (insert_support_offer now p_route_schedule_id p_from_user_id p_to_user_id
         p_proposed_driver_id p_proposed_vehicle_id p_message p_offer_type) in
  let v_offer_id :=
    match c with
    | inserted r | updated _ r | deleted r => support_offer.id r
    end in
  (* Create alert for the offer *)
  write (fun db =>
    set_route_alerts db
      (tbl_route_alerts db ++
       [ route_alerts.mk
           (fresh_uuid (map route_alerts.id (tbl_route_alerts db)))
           p_route_schedule_id None route_alerts.Offer "New Support Offer"
           p_message route_alerts.Medium (Some false) None p_to_user_id
           (Some now) ])) ;;;
  ret v_offer_id.

(** Retrieving an offer by its id. *)
Definition get_support_offer (db : DB) (u : uuid) : option support_offer.row :=
  find (fun r => N.eqb (support_offer.id r) u) (tbl_support_offer db).

(* ================================================================== *)
(** * [assign_route_responsibility(...)] *)
(* ================================================================== *)

(** ['RRP' || LPAD(nextval('seq_route_responsibility_num')::text, 6, '0')] *)
Definition responsibility_code_of (n : N) : string :=
  ("RRP" ++ LPAD0 (digits (Z.of_N n)) 6)%string.

(** The arbiter of ON CONFLICT: [(route_id, user_id, role)]. *)
Definition same_grant (route user : uuid) (role : route_responsibility.role_t)
    (r : route_responsibility.row) : bool :=
  N.eqb (route_responsibility.route_id r) route
  && N.eqb (route_responsibility.user_id r) user
  && route_responsibility.role_eqb (route_responsibility.role r) role.

(** [DO UPDATE SET is_active = true, assigned_at = now(),
     assigned_by = p_assigned_by] *)
Definition reactivate (now : timestamptz) (p_assigned_by : option uuid)
    (r : route_responsibility.row) : route_responsibility.row :=
  route_responsibility.mk
    (route_responsibility.id r) (route_responsibility.responsibility_code r)
    (route_responsibility.route_id r) (route_responsibility.user_id r)
    (route_responsibility.role r)
    (Some now) p_assigned_by (Some true)
    (route_responsibility.notes r)
    (route_responsibility.created_at r) (route_responsibility.updated_at r).

(** The [INSERT ... ON CONFLICT (route_id, user_id, role) DO UPDATE ...
    RETURNING id] of the function.  The sequence is advanced for the
    proposed row whichever branch is taken. *)
Definition upsert_route_responsibility (now : timestamptz)
    (p_route_id p_user_id : option uuid) (p_role : option string)
    (p_assigned_by : option uuid) : sql (row_change route_responsibility.row) :=
  let* db := read (fun db => db) in
  let n := (seq_route_responsibility_num db + 1)%N in
  let* route :=
    match p_route_id with
    | Some u => ret u
    | None => raise (not_null_violation "route_id")
    end in
  let* user :=
    match p_user_id with
    | Some u => ret u
    | None => raise (not_null_violation "user_id")
    end in
  let* role_text :=
    match p_role with
    | Some t => ret t
    | None => raise (not_null_violation "role")
    end in
  let* role :=
    match route_responsibility.role_of_text role_text with
    | Some r => ret r
    | None => raise (check_violation "route_responsibility_role_check")
    end in
  match find (same_grant route user role) (tbl_route_responsibility db) with
  | Some existing =>
      (* ON CONFLICT ... DO UPDATE *)
      let row := reactivate now p_assigned_by existing in
      require (opt_eqb N.eqb p_assigned_by (route_responsibility.assigned_by existing)
               || user_exists db p_assigned_by)
              (foreign_key_violation "route_responsibility_assigned_by_fkey") ;;;
      write (fun db =>
        set_route_responsibility db
          (map (fun r => if same_grant route user role r
                         then reactivate now p_assigned_by r else r)
               (tbl_route_responsibility db)) n) ;;;
      ret (updated existing row)
  | None =>
      let row :=
        route_responsibility.mk
          (fresh_uuid (map route_responsibility.id (tbl_route_responsibility db)))
          (responsibility_code_of n)
          route user role (Some now) p_assigned_by (Some true) None
          (Some now) (Some now) in
      require (negb (existsb (fun r => String.eqb (route_responsibility.responsibility_code r)
                                                  (responsibility_code_of n))
                             (tbl_route_responsibility db)))
              (unique_violation "route_responsibility_responsibility_code_key") ;;;
      require (id_exists routes.id (tbl_routes db) (Some route))
              (foreign_key_violation "route_responsibility_route_id_fkey") ;;;
      require (user_exists db (Some user))
              (foreign_key_violation "route_responsibility_user_id_fkey") ;;;
      require (user_exists db p_assigned_by)
              (foreign_key_violation "route_responsibility_assigned_by_fkey") ;;;
      write (fun db =>
        set_route_responsibility db (tbl_route_responsibility db ++ [row]) n) ;;;
      ret (inserted row)
  end.

Definition assign_route_responsibility (s : session) (now : timestamptz)
    (p_route_id p_user_id : option uuid) (p_role : option string)
    (p_assigned_by : option uuid) : sql uuid :=
  let* c :=
    audited s now (upsert_route_responsibility now p_route_id p_user_id p_role p_assigned_by) in
  let v_responsibility_id :=
    match c with
    | inserted r | updated _ r | deleted r => route_responsibility.id r
    end in
  ret v_responsibility_id.

(* ================================================================== *)
(** * Expiry sweep of support offers *)
(* ================================================================== *)

Module Sweep.

(** An offer nobody answered whose time is up at [now]. *)
Definition due (now : timestamptz) (o : support_offer.row) : bool :=
  support_offer.is_Pending (support_offer.status o)
  && IS_NULL (support_offer.responded_at o)
  && match support_offer.expires_at o with
     | Some e => e <=? now
     | None => false
     end.

Definition expire (o : support_offer.row) : support_offer.row :=
  support_offer.mk
    (support_offer.id o) (support_offer.offer_code o)
    (support_offer.route_schedule_id o) (support_offer.schedule_instance_id o)
    (support_offer.from_user_id o) (support_offer.to_user_id o)
    (support_offer.proposed_driver_id o) (support_offer.proposed_vehicle_id o)
    (support_offer.offer_type o) (support_offer.message o)
    (support_offer.priority o) support_offer.Expired
    (support_offer.expires_at o) (support_offer.responded_at o)
    (support_offer.response_message o)
    (support_offer.created_at o) (support_offer.updated_at o).

(** Modelled from the spec: the scheduled sweep itself is not part of the
    migration, which only declares the ['Expired'] status and the
    [expires_at] column.  "Expired, unanswered support offers transition
    to status Expired by a scheduled sweep rather than being deleted."
    The sweep returns the ids of the offers it marked. *)
Definition sweep_expired_offers (now : timestamptz) (db : DB) : list uuid * DB :=
  (map support_offer.id (filter (due now) (tbl_support_offer db)),
   set_support_offer db
     (map (fun o => if due now o then expire o else o) (tbl_support_offer db))
     (seq_support_offer_num db)).

End Sweep.

(* ================================================================== *)
(** * Suggestion engine *)
(* ================================================================== *)

Module Suggestion.

Local Open Scope Q_scope.

(** The rows seeded into [suggestion_config]: key and value. *)
Definition suggestion_config : list (string * Q) :=
  [ ("min_gap_minutes", 30);
    ("max_gap_minutes", 240);
    ("max_distance_km", 50);
    ("distance_weight", 4 # 10);
    ("time_weight", 6 # 10);
    ("traffic_factor", 12 # 10);
    ("fuel_cost_per_km", 85 # 10);
    ("driver_hourly_rate", 150);
    ("efficiency_threshold", 7 # 10);
    ("max_suggestions_per_route", 5) ].

Fixpoint config_value (cfg : list (string * Q)) (key : string) : Q :=
  match cfg with
  | [] => 0
  | (k, v) :: rest => if String.eqb k key then v else config_value rest key
  end.

(** A materialised occurrence as the engine sees it. *)
Record occurrence := mkOccurrence {
  route : uuid;
  route_code : string;
  departure : time;
  estimated_arrival : time
}.

(** A row of [route_distance_cache], by its unique key. *)
Record distance_row := mkDistance {
  from_route_id : uuid;
  to_route_id : uuid;
  distance_km : Q
}.

Definition lookup_distance (cache : list distance_row) (a b : uuid) : option Q :=
  option_map distance_km
    (find (fun d => N.eqb (from_route_id d) a && N.eqb (to_route_id d) b) cache).

Record SuggestionRecord := mkSuggestion {
  s_from_route : uuid;
  s_to_route : uuid;
  s_to_route_code : string;
  s_date : date;
  s_gap_minutes : Z;
  s_distance_km : Q;
  s_efficiency : Q
}.

(** Modelled from the spec: "gap = (toRoute.departure -
    fromRoute.estimatedArrival) in minutes". *)
Definition gap_minutes (from to : occurrence) : Z :=
  ((departure to - estimated_arrival from) / usec_per_minute)%Z.

(** Modelled from the spec: "efficiency = distanceWeight * (1 -
    distance/maxDistance) + timeWeight * (1 - gap/maxGap)". *)
Definition efficiency (cfg : list (string * Q)) (distance : Q) (gap : Z) : Q :=
  config_value cfg "distance_weight" * (1 - distance / config_value cfg "max_distance_km")
  + config_value cfg "time_weight" * (1 - inject_Z gap / config_value cfg "max_gap_minutes").

(** Ranking of the results of one source route: higher score first, "ties
    broken by lower gap, then by route code lexical order". *)
Definition ranks_before (a b : SuggestionRecord) : bool :=
  if Qeq_bool (s_efficiency a) (s_efficiency b)
  then if Z.eqb (s_gap_minutes a) (s_gap_minutes b)
       then String.leb (s_to_route_code a) (s_to_route_code b)
       else (s_gap_minutes a <? s_gap_minutes b)%Z
  else negb (Qle_bool (s_efficiency a) (s_efficiency b)).

Fixpoint rank_insert (x : SuggestionRecord) (l : list SuggestionRecord) :=
  match l with
  | [] => [x]
  | y :: ys => if ranks_before x y then x :: l else y :: rank_insert x ys
  end.

Definition rank (l : list SuggestionRecord) : list SuggestionRecord :=
  fold_right rank_insert [] l.

(** The candidates of one source occurrence: the other routes whose gap
    and distance are within the configured bounds and whose efficiency
    reaches the threshold. *)
Definition candidates (cfg : list (string * Q)) (cache : list distance_row)
    (d : date) (occs : list occurrence) (from : occurrence) : list SuggestionRecord :=
  FOR to IN occs ;;
  WHERE negb (N.eqb (route from) (route to)) ;;
  match lookup_distance cache (route from) (route to) with
  | None => []
  | Some dist =>
      let gap := gap_minutes from to in
      WHERE Qle_bool (config_value cfg "min_gap_minutes") (inject_Z gap)
            && Qle_bool (inject_Z gap) (config_value cfg "max_gap_minutes")
            && Qle_bool dist (config_value cfg "max_distance_km")
            && Qle_bool (config_value cfg "efficiency_threshold") (efficiency cfg dist gap) ;;
      [ mkSuggestion (route from) (route to) (route_code to) d gap dist
          (efficiency cfg dist gap) ]
  end.

(** Modelled from the spec: [suggest_consolidations] has no counterpart
    in the migration, which only declares the tables [smart_suggestions],
    [route_distance_cache] and [suggestion_config] and seeds the
    configuration.  "For every ordered pair of distinct routes with
    materialized occurrences on date ... emit a SuggestionRecord when
    efficiency >= efficiencyThreshold, capped at maxSuggestionsPerRoute
    highest-scoring results per source route." *)
Definition suggest_consolidations (cfg : list (string * Q)) (cache : list distance_row)
    (d : date) (occs : list occurrence) : list SuggestionRecord :=
  FOR from IN occs ;;
  firstn (Z.to_nat (Qfloor (config_value cfg "max_suggestions_per_route")))
         (rank (candidates cfg cache d occs from)).

(** What the column [efficiency_score DECIMAL(5,2)] of [smart_suggestions]
    keeps of a score: the value rounded to two decimals, half away from
    zero. *)
Definition to_decimal_5_2 (q : Q) : Q :=
  let scaled := q * 100 in
  let r := if Qle_bool 0 scaled
           then Qfloor (scaled + (1 # 2))
           else (- Qfloor (- scaled + (1 # 2)))%Z in
  inject_Z r / 100.

End Suggestion.

(* ================================================================== *)
(** * Integrity constraints and sample data *)
(* ================================================================== *)

(** PRIMARY KEY (id) *)
Definition primary_key {R : Type} (get_id : R -> uuid) (t : list R) : Prop :=
  NoDup (map get_id t).

(** UNIQUE (route_id, user_id, role) on [route_responsibility]: no two rows
    of the table carry the same grant. *)
Fixpoint unique_grants (t : list route_responsibility.row) : Prop :=
  match t with
  | [] => True
  | r :: rest =>
      (forall r', In r' rest ->
         same_grant (route_responsibility.route_id r) (route_responsibility.user_id r)
                    (route_responsibility.role r) r' = false)
      /\ unique_grants rest
  end.

(** What the spec calls a ConflictRecord: the resource, the date, the
    occurrences in conflict, the severity and the resolution status of a
    row of [conflict_checks] (its generated id and timestamp left out). *)
Record ConflictRecord := mkConflictRecord {
  cr_date : date;
  cr_driver : option uuid;
  cr_vehicle : option uuid;
  cr_occurrences : list uuid;
  cr_type : conflict_checks.conflict_type_t;
  cr_severity : conflict_checks.severity_t;
  cr_status : conflict_checks.status_t
}.

Definition conflict_record_of (c : conflict_checks.row) : ConflictRecord :=
  mkConflictRecord
    (conflict_checks.check_date c) (conflict_checks.driver_id c)
    (conflict_checks.vehicle_id c) (conflict_checks.conflicting_schedules c)
    (conflict_checks.conflict_type c) (conflict_checks.severity c)
    (conflict_checks.status c).

(** The rows of [conflict_checks] for one date. *)
Definition conflicts_on (d : date) (db : DB) : list conflict_checks.row :=
  filter (fun c => Z.eqb (conflict_checks.check_date c) d) (tbl_conflict_checks db).

Definition conflicts_off (d : date) (db : DB) : list conflict_checks.row :=
  filter (fun c => negb (Z.eqb (conflict_checks.check_date c) d)) (tbl_conflict_checks db).

Module Example.

(** Monday 2025-07-14 and the Sunday before it. *)
Definition monday : date := Eval vm_compute in days_from_civil 2025 7 14.
Definition sunday : date := Eval vm_compute in days_from_civil 2025 7 13.

Definition at_8am (d : date) : timestamptz := d * usec_per_day + 8 * usec_per_hour.
Definition at_9am (d : date) : timestamptz := d * usec_per_day + 9 * usec_per_hour.

Definition the_drivers : list drivers.row :=
  [ drivers.mk 1 "DRV000001" "Somchai"; drivers.mk 2 "DRV000002" "Malee" ].
Definition the_vehicles : list vehicles.row :=
  [ vehicles.mk 1 "VEH000001" "BKK-1234" ].
Definition the_routes : list routes.row :=
  [ routes.mk 1 "RTE000001" "North loop" None (Some "North");
    routes.mk 2 "RTE000002" "South loop" None (Some "South");
    routes.mk 3 "RTE000003" "Airport" None None ].
Definition the_users : list users.row :=
  [ users.mk 1 "Planner One"; users.mk 2 "Planner Two" ].

(** A confirmed template on route [i], owned by user 1, with driver 1 and
    vehicle 1 as defaults. *)
Definition template (i : uuid) (rule : option (list Z)) (first last : date)
    : route_schedules.row :=
  route_schedules.mk i i "Daily run" route_schedules.Recurring rule
    first (Some last) (Some (8 * usec_per_hour)) (Some (9 * usec_per_hour))
    (Some 1%N) (Some 1%N) (Some 1%N) None (Some 1)
    route_schedules.Confirmed None None None None.

(** A persisted occurrence of template [t] on [d]. *)
Definition instance (i t : uuid) (d : date) (driver : option uuid)
    (standby departure : option date) (deleted : bool) : schedule_instances.row :=
  schedule_instances.mk i t d driver None standby None departure None None None
    schedule_instances.Confirmed (Some true) (Some deleted) None None None None None.

Definition base : DB :=
  mkDB the_drivers the_vehicles [] the_routes the_users [] [] [] [] [] [] [] 0 0.

Definition with_schedules (db : DB) (ts : list route_schedules.row)
    (sis : list schedule_instances.row) : DB :=
  mkDB (tbl_drivers db) (tbl_vehicles db) (tbl_customers db) (tbl_routes db)
       (tbl_users db) ts sis
       (tbl_route_responsibility db) (tbl_support_offer db) (tbl_route_alerts db)
       (tbl_conflict_checks db) (tbl_audit_logs db)
       (seq_support_offer_num db) (seq_route_responsibility_num db).

(** Two templates on Monday, both defaulting to driver 1, nothing persisted. *)
Definition defaults_only : DB :=
  with_schedules base [template 1 None monday monday; template 2 None monday monday] [].

(** Three persisted occurrences on Monday, all with driver 1. *)
Definition three_bookings : DB :=
  with_schedules base
    [template 1 None monday monday; template 2 None monday monday;
     template 3 None monday monday]
    [instance 11 1 monday (Some 1%N) None None false;
     instance 12 2 monday (Some 1%N) None None false;
     instance 13 3 monday (Some 1%N) None None false].

(** A persisted occurrence of template [t] on [d] with vehicle [v] and no
    driver. *)
Definition on_vehicle (i t : uuid) (d : date) (v : uuid)
    (s : schedule_instances.status_t) : schedule_instances.row :=
  schedule_instances.mk i t d None (Some v) None None None None None None
    s (Some true) (Some false) None None None None None.

(** Three persisted occurrences on Monday with vehicle 1 and no driver,
    a fourth on Tuesday and a cancelled fifth on Monday. *)
Definition one_vehicle : DB :=
  with_schedules base
    [template 1 None monday (monday + 1); template 2 None monday monday;
     template 3 None monday monday; template 4 None monday monday]
    [on_vehicle 31 1 monday 1 schedule_instances.Confirmed;
     on_vehicle 32 2 monday 1 schedule_instances.Scheduled;
     on_vehicle 33 3 monday 1 schedule_instances.Confirmed;
     on_vehicle 34 1 (monday + 1) 1 schedule_instances.Confirmed;
     on_vehicle 35 4 monday 1 schedule_instances.Cancelled].

(** A template with the default rule over the week Monday to Sunday. *)
Definition whole_week : DB :=
  with_schedules base [template 1 None monday (monday + 6)] [].

(** Monday's occurrence of template 1 overridden to driver 2. *)
Definition overridden_monday : DB :=
  with_schedules base [template 1 None monday monday]
    [instance 11 1 monday (Some 2%N) None None false].

(** Standby on Monday, departure on Tuesday. *)
Definition overnight : DB :=
  with_schedules base [template 1 None monday monday]
    [instance 21 1 monday (Some 1%N) (Some monday) (Some (monday + 1)) false].

(** No standby date stored (it is then the day of the occurrence, Monday),
    departure on Tuesday. *)
Definition overnight_default_standby : DB :=
  with_schedules base [template 1 None monday monday]
    [instance 22 1 monday (Some 1%N) None (Some (monday + 1)) false].

(** [overnight] with two alerts stored earlier on the same Monday: a
    notification and an offer. *)
Definition noticed : DB :=
  set_route_alerts overnight
    [ route_alerts.mk 1 (Some 1%N) None route_alerts.Notification "Schedule Update"
        None route_alerts.Medium (Some false) None (Some 2%N) (Some (at_8am monday - 1));
      route_alerts.mk 2 (Some 1%N) None route_alerts.Offer "New Support Offer"
        None route_alerts.Medium (Some true) None (Some 1%N) None ].

Definition planning : DB :=
  with_schedules base [template 1 None monday monday] [].

(** [planning] with route 1 held by user 2 as Primary and as Backup, both
    active, and by user 1 as Observer, switched off. *)
Definition shared : DB :=
  set_route_responsibility planning
    [ route_responsibility.mk 5 "RRP000001" 1 2 route_responsibility.Primary
        None None (Some true) None None None;
      route_responsibility.mk 6 "RRP000002" 1 2 route_responsibility.Backup
        None None (Some true) None None None;
      route_responsibility.mk 7 "RRP000003" 1 1 route_responsibility.Observer
        None None (Some false) None None None ] 3.

(** A session of the API role, under the policies of the migration. *)
Definition api_session : session :=
  mkSession authenticated false (valid 1%N) (Some "one@example.org") unset None.

(** The same role once the INSERT policies on audit_logs are in force. *)
Definition api_session_with_policies : session :=
  mkSession authenticated true (valid 1%N) (Some "one@example.org") unset None.

Definition backend_session : session :=
  mkSession service_role false unset None unset None.

(** A grant of route 1 to user 2 as Primary, switched off. *)
Definition old_grant : route_responsibility.row :=
  route_responsibility.mk 5 "RRP000001" 1 2 route_responsibility.Primary
    (Some (at_8am sunday)) None (Some false) None
    (Some (at_8am sunday)) (Some (at_8am sunday)).

Definition granted : DB :=
  set_route_responsibility base [old_grant] 1.

End Example.


(* ================================================================== *)
(** * Vocabulary of the statements *)
(* ================================================================== *)

(** The group the driver query forms for driver [d]: the rows its WHERE
    clause keeps that carry [d]. *)
Definition driver_group (today : date) (d : uuid)
    (sis : list schedule_instances.row) : list schedule_instances.row :=
  filter (fun si => driver_conflict_where today si
                    && opt_eqb N.eqb (schedule_instances.driver_id si) (Some d)) sis.

Definition vehicle_group (today : date) (v : uuid)
    (sis : list schedule_instances.row) : list schedule_instances.row :=
  filter (fun si => vehicle_conflict_where today si
                    && opt_eqb N.eqb (schedule_instances.vehicle_id si) (Some v)) sis.

(** A persisted occurrence counts as a booking on [today] when it is of
    that date, its status is Scheduled or Confirmed, and its deletion flag
    is false (neither true nor NULL). *)
Definition is_booking (today : date) (si : schedule_instances.row) : bool :=
  Z.eqb (schedule_instances.schedule_date si) today
  && match schedule_instances.status si with
     | schedule_instances.Scheduled | schedule_instances.Confirmed => true
     | schedule_instances.In_Progress | schedule_instances.Completed
     | schedule_instances.Cancelled => false
     end
  && match schedule_instances.is_deleted si with
     | Some false => true
     | Some true | None => false
     end.

(** The bookings of driver [d] on [today], in the order stored; an
    occurrence without driver is a booking of nobody. *)
Definition driver_bookings (today : date) (d : uuid)
    (sis : list schedule_instances.row) : list schedule_instances.row :=
  filter (fun si => is_booking today si
                    && match schedule_instances.driver_id si with
                       | Some x => N.eqb x d
                       | None => false
                       end) sis.

(** The bookings of vehicle [v] on [today]. *)
Definition vehicle_bookings (today : date) (v : uuid)
    (sis : list schedule_instances.row) : list schedule_instances.row :=
  filter (fun si => is_booking today si
                    && match schedule_instances.vehicle_id si with
                       | Some x => N.eqb x v
                       | None => false
                       end) sis.

(** The 'Driver Overlap' rows of [conflict_checks] for [today] and driver [d]. *)
Definition driver_overlaps (today : date) (d : uuid) (db : DB) : list conflict_checks.row :=
  filter (fun c => Z.eqb (conflict_checks.check_date c) today
                   && conflict_checks.is_Driver_Overlap (conflict_checks.conflict_type c)
                   && opt_eqb N.eqb (conflict_checks.driver_id c) (Some d))
         (tbl_conflict_checks db).

(** The 'Vehicle Overlap' rows of [conflict_checks] for [today] and vehicle [v]. *)
Definition vehicle_overlaps (today : date) (v : uuid) (db : DB) : list conflict_checks.row :=
  filter (fun c => Z.eqb (conflict_checks.check_date c) today
                   && conflict_checks.is_Vehicle_Overlap (conflict_checks.conflict_type c)
                   && opt_eqb N.eqb (conflict_checks.vehicle_id c) (Some v))
         (tbl_conflict_checks db).

(** What a group of bookings must leave in [conflict_checks]: nothing when
    it has at most one member, else one row naming all members, 'High' for
    more than two and 'Medium' for two. *)
Definition flagged_once (kind : conflict_checks.conflict_type_t)
    (members : list schedule_instances.row) (found : list conflict_checks.row) : Prop :=
  if (1 <? List.length members)%nat
  then exists c,
         found = [c]
         /\ conflict_checks.conflict_type c = kind
         /\ conflict_checks.conflicting_schedules c = map schedule_instances.id members
         /\ conflict_checks.severity c
            = (if (2 <? List.length members)%nat
               then conflict_checks.High else conflict_checks.Medium)
         /\ conflict_checks.status c = conflict_checks.Open
  else found = [].

(** The reading of the detector as an operation on a date given to it: for
    every date [D], whenever it runs, three confirmed, undeleted
    occurrences of [D] with one driver leave one Driver Overlap row of
    severity High for [D]. *)
Definition detector_flags_any_date : Prop :=
  forall (now : timestamptz) (D : date) (db : DB) (d : uuid)
         (s1 s2 s3 : schedule_instances.row),
    In s1 (tbl_schedule_instances db) ->
    In s2 (tbl_schedule_instances db) ->
    In s3 (tbl_schedule_instances db) ->
    NoDup [schedule_instances.id s1; schedule_instances.id s2;
           schedule_instances.id s3] ->
    (forall s, In s [s1; s2; s3] ->
       schedule_instances.schedule_date s = D
       /\ schedule_instances.driver_id s = Some d
       /\ schedule_instances.status s = schedule_instances.Confirmed
       /\ schedule_instances.is_deleted s = Some false) ->
    exists c,
      driver_overlaps D d (detect_schedule_conflicts now db) = [c]
      /\ conflict_checks.severity c = conflict_checks.High.

(** The occurrences of [today] with driver code [code] that the
    materialiser is meant to give and that count as bookings: status
    Scheduled or Confirmed, not deleted. *)
Definition materialized_bookings (today : date) (code : string) (db : DB)
    : list overview.row :=
  filter (fun o =>
            Z.eqb (overview.schedule_date o) today
            && opt_eqb String.eqb (overview.driver_code o) (Some code)
            && (opt_eqb String.eqb (overview.status o) (Some "Scheduled")
                || opt_eqb String.eqb (overview.status o) (Some "Confirmed"))
            && negb (is_true (sql_eq Bool.eqb (overview.is_deleted o) (Some true))))
         (schedule_overview_rows db).

(** The reading of the detector under which it groups the materialised
    occurrences of the date: two of them on one driver would be flagged,
    whether the driver comes from an override or from the template. *)
Definition detector_reads_materialized_occurrences : Prop :=
  forall (now : timestamptz) (db : DB) (code : string),
    (1 < List.length (materialized_bookings (CURRENT_DATE now) code db))%nat ->
    exists c,
      In c (conflicts_on (CURRENT_DATE now) (detect_schedule_conflicts now db))
      /\ conflict_checks.conflict_type c = conflict_checks.Driver_Overlap.

(** An alert of the cross-day type. *)
Definition is_cross_day (a : route_alerts.row) : bool :=
  match route_alerts.alert_type a with
  | route_alerts.TimeCrossDay => true
  | _ => false
  end.

(** An alert created on day [d]; an alert without timestamp is of no day. *)
Definition created_on (d : date) (a : route_alerts.row) : bool :=
  match route_alerts.created_at a with
  | Some t => Z.eqb (DATE t) d
  | None => false
  end.

(** The TimeCrossDay alerts created on [today] that refer to the persisted
    occurrence [i]. *)
Definition cross_day_alerts_for (today : date) (i : uuid) (db : DB)
    : list route_alerts.row :=
  filter (fun a => is_cross_day a && created_on today a
                   && match route_alerts.schedule_instance_id a with
                      | Some x => N.eqb x i
                      | None => false
                      end)
         (tbl_route_alerts db).

(** The standby and departure dates of an occurrence as the materialiser
    gives them: the date stored in the row, the day of the occurrence when
    none is stored ([COALESCE(si.standby_date, schedule_date)]). *)
Definition effective_standby_date (si : schedule_instances.row) : date :=
  match schedule_instances.standby_date si with
  | Some d => d
  | None => schedule_instances.schedule_date si
  end.

Definition effective_departure_date (si : schedule_instances.row) : date :=
  match schedule_instances.departure_date si with
  | Some d => d
  | None => schedule_instances.schedule_date si
  end.

(** The reading of the cross-day check under which it compares the
    effective dates: every undeleted occurrence of the date whose standby
    date differs from its departure date gets one alert. *)
Definition cross_day_check_reads_effective_dates : Prop :=
  forall (now : timestamptz) (db : DB)
         (si : schedule_instances.row) (rs : route_schedules.row) (r : routes.row),
    primary_key schedule_instances.id (tbl_schedule_instances db) ->
    primary_key route_schedules.id (tbl_route_schedules db) ->
    primary_key routes.id (tbl_routes db) ->
    In si (tbl_schedule_instances db) ->
    In rs (tbl_route_schedules db) ->
    route_schedules.id rs = schedule_instances.route_schedule_id si ->
    In r (tbl_routes db) ->
    routes.id r = route_schedules.route_id rs ->
    schedule_instances.schedule_date si = CURRENT_DATE now ->
    schedule_instances.is_deleted si = Some false ->
    effective_standby_date si <> effective_departure_date si ->
    exists alert,
      cross_day_alerts_for (CURRENT_DATE now) (schedule_instances.id si)
        (detect_cross_day_conflict now db) = [alert].

(** The reading of the upsert under which a call for a grant that exists
    never fails. *)
Definition upsert_never_fails : Prop :=
  forall (s : session) (now : timestamptz) (route user : uuid)
         (role : route_responsibility.role_t) (p_assigned_by : option uuid)
         (db : DB) (existing : route_responsibility.row),
    unique_grants (tbl_route_responsibility db) ->
    In existing (tbl_route_responsibility db) ->
    same_grant route user role existing = true ->
    exists db',
      assign_route_responsibility s now (Some route) (Some user)
        (Some (route_responsibility.role_text role)) p_assigned_by db
      = Ok (route_responsibility.id existing, db').

(** The reading of the audit trigger as best effort: whenever the change
    itself goes through, the statement commits it, whatever becomes of the
    audit record. *)
Definition audit_never_blocks : Prop :=
  forall (R : Type) (T : Tracked R) (s : session) (now : timestamptz)
         (primary : sql (row_change R)) (db db1 : DB) (c : row_change R),
    primary db = Ok (c, db1) ->
    exists db', audited s now primary db = Ok (c, db').

(** The operation an audit record reports for a row change. *)
Definition operation_of {R : Type} (c : row_change R) : audit_logs.operation_t :=
  match c with
  | inserted _ => audit_logs.INSERT
  | updated _ _ => audit_logs.UPDATE
  | deleted _ => audit_logs.DELETE
  end.

(** What makes the audit step raise: the role may not insert into
    [audit_logs], [app.client_ip] is not an inet, the row has no id to
    record, or the current user id references no user. *)
Definition audit_step_fails (s : session) (tg : trigger_data) (db : DB) : Prop :=
  app_client_ip s = malformed
  \/ audit_insert_allowed s = false
  \/ (existsb (String.eqb (TG_TABLE_NAME tg)) record_id_tables = true
      /\ COALESCE (row_id (NEW tg)) (row_id (OLD tg)) = None)
  \/ user_exists db (fst (current_user_info s)) = false.

(** A session whose audit step goes through on [db]: the role may insert
    into [audit_logs], [app.client_ip] is unset or an inet, and the current
    user, when set, is a row of [users]. *)
Definition audit_writable (s : session) (db : DB) : Prop :=
  app_client_ip s <> malformed
  /\ audit_insert_allowed s = true
  /\ user_exists db (fst (current_user_info s)) = true.

(** The rows of [route_responsibility] that carry the grant
    [(route, user, role)]. *)
Definition grants_of (route user : uuid) (role : route_responsibility.role_t) (db : DB)
    : list route_responsibility.row :=
  filter (same_grant route user role) (tbl_route_responsibility db).

(* ================================================================== *)
(** * [get_user_routes(p_user_id)] and [notify_responsible(p_schedule_id)] *)
(* ================================================================== *)

(** A row of the table [get_user_routes] returns. *)
Record user_route := mkUserRoute {
  ur_route_id : uuid;
  ur_route_code : string;
  ur_route_name : string;
  ur_role : route_responsibility.role_t
}.

(** [SELECT r.id, r.route_code, r.name, rr.role
     FROM routes r JOIN route_responsibility rr ON r.id = rr.route_id
     WHERE rr.user_id = p_user_id AND rr.is_active = true] *)
Definition get_user_routes (p_user_id : option uuid) (db : DB) : list user_route :=
  FOR r IN tbl_routes db ;;
  FOR rr IN inner_join
      (fun rr => N.eqb (routes.id r) (route_responsibility.route_id rr))
      (tbl_route_responsibility db) ;;
  WHERE is_true (sql_eq N.eqb (Some (route_responsibility.user_id rr)) p_user_id)
        && is_true (sql_eq Bool.eqb (route_responsibility.is_active rr) (Some true)) ;;
  [ mkUserRoute (routes.id r) (routes.route_code r) (routes.name r)
      (route_responsibility.role rr) ].

(** [SELECT rs.route_id INTO v_route_id FROM route_schedules rs
     WHERE rs.id = p_schedule_id]: the first row found, NULL when none. *)
Definition route_of_schedule (p_schedule_id : option uuid) (db : DB) : option uuid :=
  option_map route_schedules.route_id
    (find (fun rs => is_true (sql_eq N.eqb (Some (route_schedules.id rs)) p_schedule_id))
          (tbl_route_schedules db)).

(** The rows the loop of [notify_responsible] runs over:
    [WHERE rr.route_id = v_route_id AND rr.is_active = true]. *)
Definition responsible_for (v_route_id : option uuid) (db : DB)
    : list route_responsibility.row :=
  filter (fun rr =>
            is_true (sql_eq N.eqb (Some (route_responsibility.route_id rr)) v_route_id)
            && is_true (sql_eq Bool.eqb (route_responsibility.is_active rr) (Some true)))
         (tbl_route_responsibility db).

(** The alert the loop body inserts for one responsible user. *)
Definition schedule_update_alert (now : timestamptz) (p_schedule_id : option uuid)
    (rr : route_responsibility.row) : route_alerts.row :=
  route_alerts.mk 0%N p_schedule_id None route_alerts.Notification "Schedule Update"
    (Some "Schedule has been updated for your assigned route")
    route_alerts.Medium (Some false) None
    (Some (route_responsibility.user_id rr)) (Some now).

Definition notify_responsible (now : timestamptz) (p_schedule_id : option uuid)
    (db : DB) : DB :=
  let v_route_id := route_of_schedule p_schedule_id db in
  set_route_alerts db
    (insert_rows route_alerts.id alert_with_id
       (map (schedule_update_alert now p_schedule_id) (responsible_for v_route_id db))
       (tbl_route_alerts db)).

(* ================================================================== *)
(** * Duplicate checks of the follow-up migration *)
(* ================================================================== *)

(** [check_duplicate_vehicle(p_plate_number, p_vehicle_id)]:
    [SELECT COUNT( * ) INTO v_count FROM vehicles
     WHERE plate_number = p_plate_number
       AND (p_vehicle_id IS NULL OR id != p_vehicle_id);
     RETURN v_count > 0]. *)
Definition check_duplicate_vehicle (p_plate_number : option string)
    (p_vehicle_id : option uuid) (db : DB) : bool :=
  let v_count :=
    List.length
      (filter (fun v =>
                 is_true
                   (sql_and
                      (sql_eq String.eqb (Some (vehicles.plate_number v)) p_plate_number)
                      (sql_or (Some (IS_NULL p_vehicle_id))
                              (sql_neq N.eqb (Some (vehicles.id v)) p_vehicle_id))))
              (tbl_vehicles db)) in
  (0 <? v_count)%nat.

(** The columns of [drivers] that [check_duplicate_driver] reads, as the
    follow-up migration leaves them ([license_number] is nullable). *)
Record driver_identity := mkDriverIdentity {
  di_id : uuid;
  di_name : string;
  di_license_number : option string
}.

(** [check_duplicate_driver(p_name, p_license_number, p_driver_id)]:
    [SELECT COUNT( * ) INTO v_count FROM drivers
     WHERE name = p_name AND license_number = p_license_number
       AND (p_driver_id IS NULL OR id != p_driver_id);
     RETURN v_count > 0]. *)
Definition check_duplicate_driver (p_name p_license_number : option string)
    (p_driver_id : option uuid) (tbl : list driver_identity) : bool :=
  let v_count :=
    List.length
      (filter (fun d =>
                 is_true
                   (sql_and
                      (sql_and
                         (sql_eq String.eqb (Some (di_name d)) p_name)
                         (sql_eq String.eqb (di_license_number d) p_license_number))
                      (sql_or (Some (IS_NULL p_driver_id))
                              (sql_neq N.eqb (Some (di_id d)) p_driver_id))))
              tbl) in
  (0 <? v_count)%nat.

(* ================================================================== *)
(** * Vocabulary of the further statements *)
(* ================================================================== *)

(** What an alert says, its generated id and timestamp left out. *)
Definition alert_record_of (a : route_alerts.row) : route_alerts.row :=
  route_alerts.mk 0%N
    (route_alerts.route_schedule_id a) (route_alerts.schedule_instance_id a)
    (route_alerts.alert_type a) (route_alerts.title a) (route_alerts.message a)
    (route_alerts.severity a) (route_alerts.is_read a) (route_alerts.read_at a)
    (route_alerts.created_for_user a) None.

(** The session in which nobody is signed in but the rest is as in [s]. *)
Definition anonymous (s : session) : session :=
  mkSession (role s) (audit_insert_policies s) unset None
            (app_client_ip s) (app_user_agent s).

(** The conditions under which the INSERT of [create_support_offer] is
    accepted by the table: NOT NULL and CHECK on the arguments, the offer
    code not in use, and the references. *)
Definition offer_acceptable (db : DB)
    (p_route_schedule_id p_from_user_id p_to_user_id
     p_proposed_driver_id p_proposed_vehicle_id : option uuid)
    (p_offer_type : option string) : Prop :=
  (exists u, p_from_user_id = Some u /\ user_exists db (Some u) = true)
  /\ (exists t ty, p_offer_type = Some t /\ support_offer.offer_type_of_text t = Some ty)
  /\ existsb (fun r => String.eqb (support_offer.offer_code r)
                                  (offer_code_of (seq_support_offer_num db + 1)))
             (tbl_support_offer db) = false
  /\ id_exists route_schedules.id (tbl_route_schedules db) p_route_schedule_id = true
  /\ user_exists db p_to_user_id = true
  /\ id_exists drivers.id (tbl_drivers db) p_proposed_driver_id = true
  /\ id_exists vehicles.id (tbl_vehicles db) p_proposed_vehicle_id = true.

(** The row the INSERT of [assign_route_responsibility] proposes, with the
    defaults of the table. *)
Definition proposed_grant (now : timestamptz) (db : DB) (route user : uuid)
    (role : route_responsibility.role_t) (p_assigned_by : option uuid)
    : route_responsibility.row :=
  route_responsibility.mk
    (fresh_uuid (map route_responsibility.id (tbl_route_responsibility db)))
    (responsibility_code_of (seq_route_responsibility_num db + 1))
    route user role (Some now) p_assigned_by (Some true) None
    (Some now) (Some now).

(** The conditions under which the table accepts the upsert of
    [assign_route_responsibility]: NOT NULL and CHECK on the arguments;
    for a grant that exists, an assigner that is unchanged, NULL or a user;
    for a new grant, the next code free and the references found. *)
Definition grant_acceptable (db : DB) (p_route_id p_user_id : option uuid)
    (p_role : option string) (p_assigned_by : option uuid) : Prop :=
  exists route user role,
    p_route_id = Some route
    /\ p_user_id = Some user
    /\ p_role = Some (route_responsibility.role_text role)
    /\ match find (same_grant route user role) (tbl_route_responsibility db) with
       | Some existing =>
           p_assigned_by = route_responsibility.assigned_by existing
           \/ user_exists db p_assigned_by = true
       | None =>
           existsb (fun r => String.eqb (route_responsibility.responsibility_code r)
                               (responsibility_code_of
                                  (seq_route_responsibility_num db + 1)))
                   (tbl_route_responsibility db) = false
           /\ id_exists routes.id (tbl_routes db) (Some route) = true
           /\ user_exists db (Some user) = true
           /\ user_exists db p_assigned_by = true
       end.

(** The grants of a user that are switched on. *)
Definition active_grants_of (user : uuid) (db : DB) : list route_responsibility.row :=
  filter (fun rr => N.eqb (route_responsibility.user_id rr) user
                    && opt_eqb Bool.eqb (route_responsibility.is_active rr) (Some true))
         (tbl_route_responsibility db).

(** FOREIGN KEY [route_responsibility.route_id REFERENCES routes(id)] *)
Definition grants_reference_routes (db : DB) : Prop :=
  forall rr, In rr (tbl_route_responsibility db) ->
    In (route_responsibility.route_id rr) (map routes.id (tbl_routes db)).

(* ================================================================== *)
(** * [send_bulk_notifications()] *)
(* ================================================================== *)

(** An ordering comparison of two nullable values: unknown when either is
    NULL. *)
Definition sql_cmp {A : Type} (cmp : A -> A -> bool) (x y : option A) : tv :=
  match x, y with
  | Some a, Some b => Some (cmp a b)
  | _, _ => None
  end.

(** A date read as a timestamp: midnight of the day. *)
Definition midnight (d : date) : timestamptz := d * usec_per_day.

(** The function returns VOID and writes nothing; what it computes is the
    count it puts in its notice:
    [SELECT COUNT( * ) INTO v_alert_count FROM route_alerts
     WHERE is_read = FALSE
       AND created_at >= CURRENT_DATE - INTERVAL '1 day'
       AND created_at < CURRENT_DATE]. *)
Definition send_bulk_notifications (now : timestamptz) (db : DB) : nat :=
  let v_alert_count :=
    List.length
      (filter (fun a =>
                 is_true
                   (sql_and
                      (sql_and
                         (sql_eq Bool.eqb (route_alerts.is_read a) (Some false))
                         (sql_cmp Z.leb (Some (midnight (CURRENT_DATE now - 1)))
                                  (route_alerts.created_at a)))
                      (sql_cmp Z.ltb (route_alerts.created_at a)
                               (Some (midnight (CURRENT_DATE now))))))
              (tbl_route_alerts db)) in
  v_alert_count.

(** An alert nobody has read, created on day [d]. *)
Definition unread_of_day (d : date) (a : route_alerts.row) : bool :=
  opt_eqb Bool.eqb (route_alerts.is_read a) (Some false)
  && opt_eqb Z.eqb (option_map DATE (route_alerts.created_at a)) (Some d).

(* ================================================================== *)
(** * The retry policy of the query hook *)
(* ================================================================== *)

(** [src/hooks/useSupabaseQuery.ts]: the two functions the hook hands to
    the query library to decide whether, and after how long, a failed
    query is run again.  The failure count is a natural number; on such
    arguments the arithmetic of JavaScript numbers agrees with the integers
    (for an exponent too large for a double, [2 ** n] is [Infinity] and the
    minimum is the cap all the same). *)
Module useSupabaseQuery.

(** [String.prototype.includes] *)
Fixpoint includes (s sub : string) : bool :=
  String.prefix sub s
  || match s with
     | EmptyString => false
     | String _ rest => includes rest sub
     end.

(** [retry: (failureCount, error) => { if (error?.message?.includes('JWT')
      || error?.message?.includes('permission')) return false;
      return failureCount < 2 }]; [message] is [error?.message], [None]
    when the error or its message is missing. *)
Definition retry (failureCount : nat) (message : option string) : bool :=
  if match message with Some m => includes m "JWT" | None => false end
     || match message with Some m => includes m "permission" | None => false end
  then false
  else (failureCount <? 2)%nat.

(** [retryDelay: (attemptIndex) => Math.min(1000 * 2 ** attemptIndex, 30000)] *)
Definition retryDelay (attemptIndex : nat) : Z :=
  Z.min (1000 * 2 ^ Z.of_nat attemptIndex) 30000.

End useSupabaseQuery.
(* ================================================================== *)
(** * Facts about queries *)
(* ================================================================== *)

Section QueryFacts.
Context {A B : Type}.

Lemma filter_flat_map (p : B -> bool) (f : A -> list B) (l : list A) :
  filter p (flat_map f l) = flat_map (fun x => filter p (f x)) l.
Proof.
  induction l as [| x l IH]; simpl.
  - reflexivity.
  - rewrite filter_app, IH. reflexivity.
Qed.

Lemma flat_map_nil (f : A -> list B) (l : list A) :
  (forall x, In x l -> f x = []) -> flat_map f l = [].
Proof.
  induction l as [| x l IH]; simpl; intros H.
  - reflexivity.
  - rewrite (H x (or_introl eq_refl)). simpl. apply IH.
    intros y Hy. apply H. now right.
Qed.

(** A query that yields rows for one element only. *)
Lemma flat_map_only (f : A -> list B) (l : list A) (x0 : A) :
  NoDup l -> In x0 l ->
  (forall x, In x l -> x <> x0 -> f x = []) ->
  flat_map f l = f x0.
Proof.
  induction l as [| x l IH]; simpl; intros Hnd Hin Hother.
  - contradiction.
  - inversion Hnd as [| ? ? Hnotin Hnd']; subst.
    destruct Hin as [-> | Hin].
    + rewrite flat_map_nil.
      * apply app_nil_r.
      * intros y Hy. apply Hother; [now right |].
        intros ->. contradiction.
    + rewrite (Hother x (or_introl eq_refl)).
      * simpl. apply IH; auto.
      * intros ->. contradiction.
Qed.

Lemma filter_filter (p q : A -> bool) (l : list A) :
  filter p (filter q l) = filter (fun x => q x && p x) l.
Proof.
  induction l as [| x l IH]; simpl.
  - reflexivity.
  - destruct (q x); simpl; [destruct (p x) |]; rewrite IH; reflexivity.
Qed.

Lemma filter_nil_iff (p : A -> bool) (l : list A) :
  filter p l = [] <-> forall x, In x l -> p x = false.
Proof.
  induction l as [| x l IH]; simpl.
  - split; [intros _ y [] | reflexivity].
  - destruct (p x) eqn:E.
    + split; [discriminate |].
      intros H. specialize (H x (or_introl eq_refl)). congruence.
    + rewrite IH. split.
      * intros H y [<- | Hy]; auto.
      * intros H y Hy. apply H. now right.
Qed.

Lemma map_eq_singleton (f : A -> B) (l : list A) (b : B) :
  map f l = [b] -> exists a, l = [a] /\ f a = b.
Proof.
  destruct l as [| a [| a' l]]; simpl; intros H; try discriminate.
  injection H as H. exists a. split; [reflexivity | assumption].
Qed.

End QueryFacts.

Section DistinctFacts.
Context {K : Type} (eqb : K -> K -> bool).
Hypothesis eqb_eq : forall a b, eqb a b = true <-> a = b.

Lemma distinct_In (l : list K) (k : K) : In k (distinct eqb l) <-> In k l.
Proof.
  induction l as [| x l IH]; simpl.
  - reflexivity.
  - rewrite filter_In, IH. split.
    + intros [H | [H _]]; auto.
    + intros [H | H]; auto.
      destruct (eqb x k) eqn:E.
      * left. now apply eqb_eq.
      * right. split; [assumption | reflexivity].
Qed.

Lemma distinct_NoDup (l : list K) : NoDup (distinct eqb l).
Proof.
  induction l as [| x l IH]; simpl.
  - constructor.
  - constructor.
    + rewrite filter_In. intros [_ H].
      assert (E : eqb x x = true) by now apply eqb_eq.
      rewrite E in H. discriminate.
    + now apply NoDup_filter.
Qed.

End DistinctFacts.

(** Generated ids do not show in a projection that ignores them. *)
Section InsertFacts.
Context {R V : Type} (get_id : R -> uuid) (set_id : uuid -> R -> R).
Context (view : R -> V) (p : R -> bool).
Hypothesis view_set_id : forall u r, view (set_id u r) = view r.
Hypothesis p_set_id : forall u r, p (set_id u r) = p r.

Lemma insert_rows_view (news t : list R) :
  map view (filter p (insert_rows get_id set_id news t))
  = map view (filter p t) ++ map view (filter p news).
Proof.
  revert t. induction news as [| r news IH]; intros t; simpl.
  - now rewrite app_nil_r.
  - rewrite IH, filter_app, map_app, <- app_assoc. f_equal.
    simpl. rewrite p_set_id. destruct (p r); simpl.
    + now rewrite view_set_id.
    + reflexivity.
Qed.

Lemma insert_rows_length (news t : list R) :
  List.length (insert_rows get_id set_id news t)
  = (List.length t + List.length news)%nat.
Proof.
  revert t. induction news as [| r news IH]; intros t; simpl.
  - lia.
  - rewrite IH, length_app. simpl. lia.
Qed.

End InsertFacts.

Lemma group_key_eqb_eq (a b : group_key) : group_key_eqb a b = true <-> a = b.
Proof.
  destruct a as [x d], b as [y e]. unfold group_key_eqb. simpl.
  rewrite andb_true_iff, Z.eqb_eq.
  destruct x as [x |], y as [y |]; simpl; rewrite ?N.eqb_eq.
  - split; [intros [-> ->]; reflexivity | intros H; injection H; auto].
  - split; [intros [H _]; discriminate | discriminate].
  - split; [intros [H _]; discriminate | discriminate].
  - split; [intros [_ ->]; reflexivity | intros H; injection H; auto].
Qed.

(* ================================================================== *)
(** * Conflict detection *)
(* ================================================================== *)

Lemma flat_map_map {A B C : Type} (f : A -> B) (g : B -> list C) (l : list A) :
  flat_map g (map f l) = flat_map (fun x => g (f x)) l.
Proof.
  induction l as [| x l IH]; simpl; [reflexivity | now rewrite IH].
Qed.

Lemma opt_eqb_N_sym (a b : option uuid) : opt_eqb N.eqb a b = opt_eqb N.eqb b a.
Proof.
  destruct a, b; simpl; auto using N.eqb_sym.
Qed.

Lemma opt_eqb_N_eq (a b : option uuid) : opt_eqb N.eqb a b = true <-> a = b.
Proof.
  destruct a, b; simpl; rewrite ?N.eqb_eq; split; congruence.
Qed.

Definition group_key_eq_dec (a b : group_key) : {a = b} + {a <> b} :=
  match bool_dec (group_key_eqb a b) true with
  | left e => left (proj1 (group_key_eqb_eq a b) e)
  | right n => right (fun e => n (proj2 (group_key_eqb_eq a b) e))
  end.

Lemma driver_where_date (today : date) (si : schedule_instances.row) :
  driver_conflict_where today si = true -> schedule_instances.schedule_date si = today.
Proof.
  unfold driver_conflict_where. rewrite !andb_true_iff.
  intros [[[W _] _] _]. now apply Z.eqb_eq.
Qed.

Lemma vehicle_where_date (today : date) (si : schedule_instances.row) :
  vehicle_conflict_where today si = true -> schedule_instances.schedule_date si = today.
Proof.
  unfold vehicle_conflict_where. rewrite !andb_true_iff.
  intros [[[W _] _] _]. now apply Z.eqb_eq.
Qed.

(** The two detection queries differ in the column they group by; one
    script proves the same fact of both.  [select] is the query, [book] its
    bookings, [wh] its WHERE clause, [key] its grouping key and [wh_date]
    the fact that the WHERE clause fixes the date. *)
Ltac conflicts_of select book wh key wh_date :=
  intros today members;
  unfold select, group_by; fold today;
  set (rows := filter (wh today) _);
  rewrite flat_map_map, filter_flat_map;
  set (G := fun k : group_key => filter _ _);
  match goal with
  | d : uuid |- _ = ?rhs =>
      assert (Hmem : filter (fun r => group_key_eqb (Some d, today) (key r)) rows = members)
        by (unfold rows, members, book; rewrite filter_filter;
            apply filter_ext; intros si;
            destruct (wh today si) eqn:W; simpl; [| reflexivity];
            apply wh_date in W;
            unfold group_key_eqb, key; simpl;
            rewrite W, Z.eqb_refl, andb_true_r;
            apply (opt_eqb_N_sym (Some d)));
      assert (HG0 : G (Some d, today) = rhs)
        by (unfold G; simpl; rewrite Hmem;
            destruct (1 <? List.length members)%nat; simpl; [| reflexivity];
            now rewrite N.eqb_refl);
      assert (Hother : forall k, In k (distinct group_key_eqb (map key rows)) ->
                                 k <> (Some d, today) -> G k = [])
        by (intros k Hk Hne; clear HG0; unfold G; simpl;
            match goal with
            | |- context [ (1 <? ?n)%nat ] => destruct (1 <? n)%nat
            end; simpl; [| reflexivity];
            destruct (opt_eqb N.eqb (fst k) (Some d)) eqn:E; [| reflexivity];
            exfalso; apply Hne;
            apply opt_eqb_N_eq in E;
            apply (proj1 (distinct_In _ group_key_eqb_eq _ _)) in Hk;
            apply in_map_iff in Hk; destruct Hk as [si [Hsi Hin]];
            unfold rows in Hin; apply filter_In in Hin; destruct Hin as [_ W];
            apply wh_date in W;
            destruct k as [k1 k2]; simpl in E; subst k1;
            unfold key in Hsi; injection Hsi as _ H2; congruence);
      destruct (in_dec group_key_eq_dec (Some d, today)
                  (distinct group_key_eqb (map key rows))) as [Hin | Hnin];
      [ rewrite (flat_map_only G _ (Some d, today)); auto;
        apply (distinct_NoDup _ group_key_eqb_eq)
      | rewrite flat_map_nil;
        [ rewrite <- HG0; unfold G; simpl; rewrite Hmem;
          assert (Hnil : members = [])
            by (rewrite <- Hmem; apply filter_nil_iff; intros si Hsi;
                destruct (group_key_eqb (Some d, today) (key si)) eqn:E; [| reflexivity];
                exfalso; apply Hnin;
                apply (proj2 (distinct_In _ group_key_eqb_eq _ _));
                apply group_key_eqb_eq in E; rewrite E; now apply in_map);
          rewrite Hnil; reflexivity
        | intros k Hk; apply Hother; [assumption |]; intros ->; contradiction ] ]
  end.

(** The rows the driver query selects for one driver: one row when the
    driver has more than one booking, none otherwise. *)
Lemma driver_conflicts_of (now : timestamptz) (sis : list schedule_instances.row) (d : uuid) :
  let today := CURRENT_DATE now in
  let members := driver_group today d sis in
  filter (fun c => opt_eqb N.eqb (conflict_checks.driver_id c) (Some d))
         (driver_conflicts now sis)
  = if (1 <? List.length members)%nat
    then [ conflict_checks.mk 0%N today (Some d) None
             (map schedule_instances.id members)
             conflict_checks.Driver_Overlap
             (conflict_severity (List.length members))
             conflict_checks.Open None (Some now) None ]
    else [].
Proof.
  conflicts_of driver_conflicts driver_group driver_conflict_where driver_key
               driver_where_date.
Qed.

Lemma vehicle_conflicts_of (now : timestamptz) (sis : list schedule_instances.row) (d : uuid) :
  let today := CURRENT_DATE now in
  let members := vehicle_group today d sis in
  filter (fun c => opt_eqb N.eqb (conflict_checks.vehicle_id c) (Some d))
         (vehicle_conflicts now sis)
  = if (1 <? List.length members)%nat
    then [ conflict_checks.mk 0%N today None (Some d)
             (map schedule_instances.id members)
             conflict_checks.Vehicle_Overlap
             (conflict_severity (List.length members))
             conflict_checks.Open None (Some now) None ]
    else [].
Proof.
  conflicts_of vehicle_conflicts vehicle_group vehicle_conflict_where vehicle_key
               vehicle_where_date.
Qed.

Lemma conflict_with_id_idem (u v : uuid) (c : conflict_checks.row) :
  conflict_with_id u (conflict_with_id v c) = conflict_with_id u c.
Proof. reflexivity. Qed.

Lemma conflict_with_own_id (c : conflict_checks.row) :
  conflict_with_id (conflict_checks.id c) c = c.
Proof. now destruct c. Qed.

Lemma driver_conflicts_shape (now : timestamptz) (sis : list schedule_instances.row)
    (c : conflict_checks.row) :
  In c (driver_conflicts now sis) ->
  conflict_checks.id c = 0%N
  /\ conflict_checks.check_date c = CURRENT_DATE now
  /\ conflict_checks.conflict_type c = conflict_checks.Driver_Overlap
  /\ conflict_checks.vehicle_id c = None
  /\ exists d, conflict_checks.driver_id c = Some d.
Proof.
  unfold driver_conflicts, group_by. rewrite flat_map_map.
  intros H. apply in_flat_map in H. destruct H as [k [Hk Hc]].
  simpl in Hc.
  match type of Hc with
  | In _ (if ?b then _ else _) => destruct b
  end; [| contradiction].
  destruct Hc as [<- | []]. simpl. repeat split.
  apply (proj1 (distinct_In _ group_key_eqb_eq _ _)) in Hk.
  apply in_map_iff in Hk. destruct Hk as [si [<- Hsi]].
  apply filter_In in Hsi. destruct Hsi as [_ W].
  unfold driver_conflict_where in W. rewrite !andb_true_iff in W.
  destruct W as [[[_ W] _] _]. unfold driver_key. simpl.
  destruct (schedule_instances.driver_id si) as [d |]; [now exists d | discriminate].
Qed.

Lemma vehicle_conflicts_shape (now : timestamptz) (sis : list schedule_instances.row)
    (c : conflict_checks.row) :
  In c (vehicle_conflicts now sis) ->
  conflict_checks.id c = 0%N
  /\ conflict_checks.check_date c = CURRENT_DATE now
  /\ conflict_checks.conflict_type c = conflict_checks.Vehicle_Overlap
  /\ conflict_checks.driver_id c = None
  /\ exists v, conflict_checks.vehicle_id c = Some v.
Proof.
  unfold vehicle_conflicts, group_by. rewrite flat_map_map.
  intros H. apply in_flat_map in H. destruct H as [k [Hk Hc]].
  simpl in Hc.
  match type of Hc with
  | In _ (if ?b then _ else _) => destruct b
  end; [| contradiction].
  destruct Hc as [<- | []]. simpl. repeat split.
  apply (proj1 (distinct_In _ group_key_eqb_eq _ _)) in Hk.
  apply in_map_iff in Hk. destruct Hk as [si [<- Hsi]].
  apply filter_In in Hsi. destruct Hsi as [_ W].
  unfold vehicle_conflict_where in W. rewrite !andb_true_iff in W.
  destruct W as [[[_ W] _] _]. unfold vehicle_key. simpl.
  destruct (schedule_instances.vehicle_id si) as [v |]; [now exists v | discriminate].
Qed.

Lemma map_conflict_with_id_0 (l : list conflict_checks.row) :
  (forall c, In c l -> conflict_checks.id c = 0%N) ->
  map (conflict_with_id 0) l = l.
Proof.
  intros H. rewrite <- (map_id l) at 2. apply map_ext_in.
  intros c Hc. rewrite <- (H c Hc). apply conflict_with_own_id.
Qed.

(** The table after a run, through any selection that ignores the
    generated ids: the rows of other dates, then the driver rows, then the
    vehicle rows. *)
Lemma detect_schedule_conflicts_table (now : timestamptz) (db : DB)
    (p : conflict_checks.row -> bool) :
  (forall u c, p (conflict_with_id u c) = p c) ->
  map (conflict_with_id 0)
      (filter p (tbl_conflict_checks (detect_schedule_conflicts now db)))
  = map (conflict_with_id 0) (filter p (conflicts_off (CURRENT_DATE now) db))
    ++ filter p (driver_conflicts now (tbl_schedule_instances db))
    ++ filter p (vehicle_conflicts now (tbl_schedule_instances db)).
Proof.
  intros Hp. unfold detect_schedule_conflicts. simpl.
  rewrite (insert_rows_view conflict_checks.id conflict_with_id (conflict_with_id 0) p
             (conflict_with_id_idem 0) Hp).
  rewrite (insert_rows_view conflict_checks.id conflict_with_id (conflict_with_id 0) p
             (conflict_with_id_idem 0) Hp).
  rewrite <- app_assoc. unfold conflicts_off. f_equal. f_equal.
  - apply map_conflict_with_id_0. intros c Hc. apply filter_In in Hc.
    destruct Hc as [Hc _]. now apply driver_conflicts_shape in Hc.
  - apply map_conflict_with_id_0. intros c Hc. apply filter_In in Hc.
    destruct Hc as [Hc _]. now apply vehicle_conflicts_shape in Hc.
Qed.

Lemma driver_overlaps_after (now : timestamptz) (db : DB) (d : uuid) :
  let today := CURRENT_DATE now in
  map (conflict_with_id 0) (driver_overlaps today d (detect_schedule_conflicts now db))
  = filter (fun c => opt_eqb N.eqb (conflict_checks.driver_id c) (Some d))
           (driver_conflicts now (tbl_schedule_instances db)).
Proof.
  intros today. unfold driver_overlaps.
  rewrite detect_schedule_conflicts_table by reflexivity.
  fold today.
  replace (filter _ (conflicts_off today db)) with (@nil conflict_checks.row).
  2:{ symmetry. apply filter_nil_iff. intros c Hc.
      unfold conflicts_off in Hc. apply filter_In in Hc. destruct Hc as [_ Hc].
      apply negb_true_iff in Hc. now rewrite Hc. }
  replace (filter _ (vehicle_conflicts now (tbl_schedule_instances db)))
    with (@nil conflict_checks.row).
  2:{ symmetry. apply filter_nil_iff. intros c Hc.
      apply vehicle_conflicts_shape in Hc. destruct Hc as (_ & _ & -> & _).
      simpl. now rewrite andb_false_r. }
  simpl. rewrite app_nil_r. apply filter_ext_in. intros c Hc.
  apply driver_conflicts_shape in Hc. destruct Hc as (_ & -> & -> & _).
  fold today. now rewrite Z.eqb_refl.
Qed.

Lemma vehicle_overlaps_after (now : timestamptz) (db : DB) (v : uuid) :
  let today := CURRENT_DATE now in
  map (conflict_with_id 0) (vehicle_overlaps today v (detect_schedule_conflicts now db))
  = filter (fun c => opt_eqb N.eqb (conflict_checks.vehicle_id c) (Some v))
           (vehicle_conflicts now (tbl_schedule_instances db)).
Proof.
  intros today. unfold vehicle_overlaps.
  rewrite detect_schedule_conflicts_table by reflexivity.
  fold today.
  replace (filter _ (conflicts_off today db)) with (@nil conflict_checks.row).
  2:{ symmetry. apply filter_nil_iff. intros c Hc.
      unfold conflicts_off in Hc. apply filter_In in Hc. destruct Hc as [_ Hc].
      apply negb_true_iff in Hc. now rewrite Hc. }
  replace (filter _ (driver_conflicts now (tbl_schedule_instances db)))
    with (@nil conflict_checks.row).
  2:{ symmetry. apply filter_nil_iff. intros c Hc.
      apply driver_conflicts_shape in Hc. destruct Hc as (_ & _ & -> & _).
      simpl. now rewrite andb_false_r. }
  simpl. apply filter_ext_in. intros c Hc.
  apply vehicle_conflicts_shape in Hc. destruct Hc as (_ & -> & -> & _).
  fold today. now rewrite Z.eqb_refl.
Qed.

Lemma flagged_once_of (kind : conflict_checks.conflict_type_t)
    (members : list schedule_instances.row) (found : list conflict_checks.row)
    (today : date) (dr ve : option uuid) (now : timestamptz) :
  map (conflict_with_id 0) found
  = (if (1 <? List.length members)%nat
     then [ conflict_checks.mk 0%N today dr ve
              (map schedule_instances.id members) kind
              (conflict_severity (List.length members))
              conflict_checks.Open None (Some now) None ]
     else []) ->
  flagged_once kind members found.
Proof.
  unfold flagged_once. destruct (1 <? List.length members)%nat.
  - intros H. apply map_eq_singleton in H. destruct H as [c [-> Hc]].
    exists c. split; [reflexivity |].
    destruct c; simpl in *. injection Hc as -> -> -> -> -> -> -> -> -> ->.
    repeat split.
  - intros H. now apply map_eq_nil in H.
Qed.

Lemma three_members (l : list schedule_instances.row) (s1 s2 s3 : schedule_instances.row) :
  In s1 l -> In s2 l -> In s3 l ->
  NoDup [schedule_instances.id s1; schedule_instances.id s2; schedule_instances.id s3] ->
  (3 <= List.length l)%nat.
Proof.
  intros H1 H2 H3 Hnd.
  assert (Hnd' : NoDup [s1; s2; s3]).
  { apply (NoDup_map_inv schedule_instances.id). exact Hnd. }
  apply (NoDup_incl_length Hnd').
  intros x [<- | [<- | [<- | []]]]; assumption.
Qed.

Lemma is_booking_spec (today : date) (si : schedule_instances.row) :
  is_booking today si = true
  <-> schedule_instances.schedule_date si = today
      /\ (schedule_instances.status si = schedule_instances.Scheduled
          \/ schedule_instances.status si = schedule_instances.Confirmed)
      /\ schedule_instances.is_deleted si = Some false.
Proof.
  unfold is_booking. rewrite !andb_true_iff, Z.eqb_eq.
  destruct (schedule_instances.status si);
    destruct (schedule_instances.is_deleted si) as [[|] |];
    intuition (try discriminate; auto).
Qed.

(** The WHERE clauses of the two queries keep the bookings that have a
    driver, respectively a vehicle. *)
Lemma driver_where_booking (today : date) (si : schedule_instances.row) :
  driver_conflict_where today si
  = is_booking today si && IS_NOT_NULL (schedule_instances.driver_id si).
Proof.
  unfold driver_conflict_where, is_booking.
  destruct (schedule_instances.schedule_date si =? today);
    destruct (schedule_instances.driver_id si);
    destruct (schedule_instances.status si);
    destruct (schedule_instances.is_deleted si) as [[|] |]; reflexivity.
Qed.

Lemma vehicle_where_booking (today : date) (si : schedule_instances.row) :
  vehicle_conflict_where today si
  = is_booking today si && IS_NOT_NULL (schedule_instances.vehicle_id si).
Proof.
  unfold vehicle_conflict_where, is_booking.
  destruct (schedule_instances.schedule_date si =? today);
    destruct (schedule_instances.vehicle_id si);
    destruct (schedule_instances.status si);
    destruct (schedule_instances.is_deleted si) as [[|] |]; reflexivity.
Qed.

Lemma driver_group_bookings (today : date) (d : uuid)
    (sis : list schedule_instances.row) :
  driver_group today d sis = driver_bookings today d sis.
Proof.
  apply filter_ext. intros si. rewrite driver_where_booking.
  destruct (schedule_instances.driver_id si); simpl;
    now rewrite ?andb_true_r, ?andb_false_r.
Qed.

Lemma vehicle_group_bookings (today : date) (v : uuid)
    (sis : list schedule_instances.row) :
  vehicle_group today v sis = vehicle_bookings today v sis.
Proof.
  apply filter_ext. intros si. rewrite vehicle_where_booking.
  destruct (schedule_instances.vehicle_id si); simpl;
    now rewrite ?andb_true_r, ?andb_false_r.
Qed.

(** The occurrences a selected row names are bookings of its driver,
    respectively of its vehicle. *)
Lemma driver_conflicts_booked (now : timestamptz) (sis : list schedule_instances.row)
    (c : conflict_checks.row) (i : uuid) :
  In c (driver_conflicts now sis) ->
  In i (conflict_checks.conflicting_schedules c) ->
  exists si d,
    In si sis /\ schedule_instances.id si = i
    /\ is_booking (CURRENT_DATE now) si = true
    /\ schedule_instances.driver_id si = Some d
    /\ conflict_checks.driver_id c = Some d.
Proof.
  unfold driver_conflicts, group_by. rewrite flat_map_map.
  intros H Hi. apply in_flat_map in H. destruct H as [k [_ Hc]].
  simpl in Hc.
  match type of Hc with
  | In _ (if ?b then _ else _) => destruct b
  end; [| contradiction].
  destruct Hc as [<- | []]. simpl in *.
  apply in_map_iff in Hi. destruct Hi as [si [<- Hsi]].
  apply filter_In in Hsi. destruct Hsi as [Hsi Hk].
  apply filter_In in Hsi. destruct Hsi as [Hsi W].
  apply group_key_eqb_eq in Hk. subst k.
  rewrite driver_where_booking in W. apply andb_true_iff in W. destruct W as [W1 W2].
  unfold driver_key. simpl.
  destruct (schedule_instances.driver_id si) as [d |] eqn:Hd; [| discriminate].
  exists si, d. repeat split; assumption.
Qed.

Lemma vehicle_conflicts_booked (now : timestamptz) (sis : list schedule_instances.row)
    (c : conflict_checks.row) (i : uuid) :
  In c (vehicle_conflicts now sis) ->
  In i (conflict_checks.conflicting_schedules c) ->
  exists si v,
    In si sis /\ schedule_instances.id si = i
    /\ is_booking (CURRENT_DATE now) si = true
    /\ schedule_instances.vehicle_id si = Some v
    /\ conflict_checks.vehicle_id c = Some v.
Proof.
  unfold vehicle_conflicts, group_by. rewrite flat_map_map.
  intros H Hi. apply in_flat_map in H. destruct H as [k [_ Hc]].
  simpl in Hc.
  match type of Hc with
  | In _ (if ?b then _ else _) => destruct b
  end; [| contradiction].
  destruct Hc as [<- | []]. simpl in *.
  apply in_map_iff in Hi. destruct Hi as [si [<- Hsi]].
  apply filter_In in Hsi. destruct Hsi as [Hsi Hk].
  apply filter_In in Hsi. destruct Hsi as [Hsi W].
  apply group_key_eqb_eq in Hk. subst k.
  rewrite vehicle_where_booking in W. apply andb_true_iff in W. destruct W as [W1 W2].
  unfold vehicle_key. simpl.
  destruct (schedule_instances.vehicle_id si) as [v |] eqn:Hv; [| discriminate].
  exists si, v. repeat split; assumption.
Qed.

(** The rows of the date after a run are those the two queries select,
    ids apart. *)
Lemma conflicts_on_after_cases (now : timestamptz) (db : DB) (c : conflict_checks.row) :
  In c (conflicts_on (CURRENT_DATE now) (detect_schedule_conflicts now db)) ->
  In (conflict_with_id 0 c) (driver_conflicts now (tbl_schedule_instances db))
  \/ In (conflict_with_id 0 c) (vehicle_conflicts now (tbl_schedule_instances db)).
Proof.
  intros Hc. unfold conflicts_on in Hc.
  apply (in_map (conflict_with_id 0)) in Hc.
  rewrite detect_schedule_conflicts_table in Hc by reflexivity.
  replace (filter _ (conflicts_off (CURRENT_DATE now) db))
    with (@nil conflict_checks.row) in Hc.
  2:{ symmetry. apply filter_nil_iff. intros c' Hc'.
      unfold conflicts_off in Hc'. apply filter_In in Hc'. destruct Hc' as [_ Hc'].
      now apply negb_true_iff in Hc'. }
  simpl in Hc. apply in_app_or in Hc.
  destruct Hc as [Hc | Hc]; apply filter_In in Hc; tauto.
Qed.

(** Three confirmed, undeleted occurrences of the date on one driver are
    three of the driver's bookings. *)
Lemma three_driver_bookings (today : date) (d : uuid)
    (sis : list schedule_instances.row) (s1 s2 s3 : schedule_instances.row) :
  In s1 sis -> In s2 sis -> In s3 sis ->
  NoDup [schedule_instances.id s1; schedule_instances.id s2; schedule_instances.id s3] ->
  (forall s, In s [s1; s2; s3] ->
     schedule_instances.schedule_date s = today
     /\ schedule_instances.driver_id s = Some d
     /\ schedule_instances.status s = schedule_instances.Confirmed
     /\ schedule_instances.is_deleted s = Some false) ->
  (forall s, In s [s1; s2; s3] -> In s (driver_bookings today d sis))
  /\ (3 <= List.length (driver_bookings today d sis))%nat.
Proof.
  intros H1 H2 H3 Hnd Hall.
  assert (Hin : forall s, In s [s1; s2; s3] -> In s (driver_bookings today d sis)).
  { intros s Hs. destruct (Hall s Hs) as (Hd & Hdr & Hst & Hdel).
    unfold driver_bookings. apply filter_In. split.
    - destruct Hs as [<- | [<- | [<- | []]]]; assumption.
    - unfold is_booking. rewrite Hd, Hdr, Hst, Hdel, Z.eqb_refl, N.eqb_refl.
      reflexivity. }
  split; [exact Hin |].
  apply (three_members _ s1 s2 s3); try assumption; apply Hin; simpl; auto.
Qed.

Lemma three_vehicle_bookings (today : date) (v : uuid)
    (sis : list schedule_instances.row) (s1 s2 s3 : schedule_instances.row) :
  In s1 sis -> In s2 sis -> In s3 sis ->
  NoDup [schedule_instances.id s1; schedule_instances.id s2; schedule_instances.id s3] ->
  (forall s, In s [s1; s2; s3] ->
     schedule_instances.schedule_date s = today
     /\ schedule_instances.vehicle_id s = Some v
     /\ schedule_instances.status s = schedule_instances.Confirmed
     /\ schedule_instances.is_deleted s = Some false) ->
  (forall s, In s [s1; s2; s3] -> In s (vehicle_bookings today v sis))
  /\ (3 <= List.length (vehicle_bookings today v sis))%nat.
Proof.
  intros H1 H2 H3 Hnd Hall.
  assert (Hin : forall s, In s [s1; s2; s3] -> In s (vehicle_bookings today v sis)).
  { intros s Hs. destruct (Hall s Hs) as (Hd & Hdr & Hst & Hdel).
    unfold vehicle_bookings. apply filter_In. split.
    - destruct Hs as [<- | [<- | [<- | []]]]; assumption.
    - unfold is_booking. rewrite Hd, Hdr, Hst, Hdel, Z.eqb_refl, N.eqb_refl.
      reflexivity. }
  split; [exact Hin |].
  apply (three_members _ s1 s2 s3); try assumption; apply Hin; simpl; auto.
Qed.

(** Three confirmed bookings of driver 1 on Monday 2025-07-14, and the
    detector run on the Sunday before: it takes no date, works on the day
    of its run, and leaves nothing for the Monday. *)
Lemma detector_skips_other_dates :
  (forall s,
     In s (tbl_schedule_instances Example.three_bookings) ->
     schedule_instances.schedule_date s = Example.monday
     /\ schedule_instances.driver_id s = Some 1%N
     /\ schedule_instances.status s = schedule_instances.Confirmed
     /\ schedule_instances.is_deleted s = Some false)
  /\ List.length (driver_bookings Example.monday 1 (tbl_schedule_instances Example.three_bookings))
     = 3%nat
  /\ CURRENT_DATE (Example.at_8am Example.sunday) = Example.sunday
  /\ tbl_conflict_checks
       (detect_schedule_conflicts (Example.at_8am Example.sunday) Example.three_bookings)
     = []
  /\ ~ detector_flags_any_date.
Proof.
  assert (Hrows : forall s,
            In s (tbl_schedule_instances Example.three_bookings) ->
            schedule_instances.schedule_date s = Example.monday
            /\ schedule_instances.driver_id s = Some 1%N
            /\ schedule_instances.status s = schedule_instances.Confirmed
            /\ schedule_instances.is_deleted s = Some false).
  { intros s [<- | [<- | [<- | []]]]; repeat split. }
  assert (Hnone : tbl_conflict_checks
                    (detect_schedule_conflicts (Example.at_8am Example.sunday)
                       Example.three_bookings) = [])
    by (vm_compute; reflexivity).
  split; [exact Hrows |]. split; [vm_compute; reflexivity |].
  split; [vm_compute; reflexivity |]. split; [exact Hnone |].
  intros Hclaim.
  destruct (Hclaim (Example.at_8am Example.sunday) Example.monday Example.three_bookings
              1%N
              (Example.instance 11 1 Example.monday (Some 1%N) None None false)
              (Example.instance 12 2 Example.monday (Some 1%N) None None false)
              (Example.instance 13 3 Example.monday (Some 1%N) None None false))
    as (c & Hc & _).
  - simpl. auto.
  - simpl. auto.
  - simpl. auto.
  - repeat constructor; simpl; intuition discriminate.
  - intros s Hs. apply Hrows. simpl. simpl in Hs. tauto.
  - unfold driver_overlaps in Hc. rewrite Hnone in Hc. discriminate.
Qed.

(** C2 (amended).  The detector works on the current date of its run.
    For every driver (and likewise every vehicle) the group it forms is the
    driver's bookings of that date: the persisted occurrences of the date
    that name the driver, have status Scheduled or Confirmed and a deletion
    flag that is false.  A group of more than one booking leaves exactly one
    conflict row, which names all its members and is High for more than two
    members and Medium for two; a smaller group leaves none, and the date
    has no other conflict rows.  Every occurrence a conflict row of the
    date names is a persisted occurrence of the date with status Scheduled
    or Confirmed, not deleted, that names the driver, respectively the
    vehicle, of the row.  In particular three confirmed, undeleted
    occurrences of the date with one driver (one vehicle) leave exactly one
    Driver Overlap (Vehicle Overlap) row, of severity High, naming all
    three. *)
Theorem detect_schedule_conflicts_flags_groups (now : timestamptz) (db : DB) :
  let today := CURRENT_DATE now in
  let sis := tbl_schedule_instances db in
  let db' := detect_schedule_conflicts now db in
  (forall d,
     flagged_once conflict_checks.Driver_Overlap
       (driver_bookings today d sis) (driver_overlaps today d db'))
  /\ (forall v,
        flagged_once conflict_checks.Vehicle_Overlap
          (vehicle_bookings today v sis) (vehicle_overlaps today v db'))
  /\ (forall c, In c (conflicts_on today db') ->
        (exists d, In c (driver_overlaps today d db'))
        \/ (exists v, In c (vehicle_overlaps today v db')))
  /\ (forall c i,
        In c (conflicts_on today db') ->
        In i (conflict_checks.conflicting_schedules c) ->
        exists si,
          In si sis
          /\ schedule_instances.id si = i
          /\ schedule_instances.schedule_date si = today
          /\ (schedule_instances.status si = schedule_instances.Scheduled
              \/ schedule_instances.status si = schedule_instances.Confirmed)
          /\ schedule_instances.is_deleted si = Some false
          /\ ((conflict_checks.conflict_type c = conflict_checks.Driver_Overlap
               /\ exists d, schedule_instances.driver_id si = Some d
                            /\ conflict_checks.driver_id c = Some d)
              \/ (conflict_checks.conflict_type c = conflict_checks.Vehicle_Overlap
                  /\ exists v, schedule_instances.vehicle_id si = Some v
                               /\ conflict_checks.vehicle_id c = Some v)))
  /\ (forall d s1 s2 s3,
        In s1 sis -> In s2 sis -> In s3 sis ->
        NoDup [schedule_instances.id s1; schedule_instances.id s2;
               schedule_instances.id s3] ->
        (forall s, In s [s1; s2; s3] ->
           schedule_instances.schedule_date s = today
           /\ schedule_instances.driver_id s = Some d
           /\ schedule_instances.status s = schedule_instances.Confirmed
           /\ schedule_instances.is_deleted s = Some false) ->
        exists c,
          driver_overlaps today d db' = [c]
          /\ conflict_checks.conflict_type c = conflict_checks.Driver_Overlap
          /\ conflict_checks.severity c = conflict_checks.High
          /\ In (schedule_instances.id s1) (conflict_checks.conflicting_schedules c)
          /\ In (schedule_instances.id s2) (conflict_checks.conflicting_schedules c)
          /\ In (schedule_instances.id s3) (conflict_checks.conflicting_schedules c))
  /\ (forall v s1 s2 s3,
        In s1 sis -> In s2 sis -> In s3 sis ->
        NoDup [schedule_instances.id s1; schedule_instances.id s2;
               schedule_instances.id s3] ->
        (forall s, In s [s1; s2; s3] ->
           schedule_instances.schedule_date s = today
           /\ schedule_instances.vehicle_id s = Some v
           /\ schedule_instances.status s = schedule_instances.Confirmed
           /\ schedule_instances.is_deleted s = Some false) ->
        exists c,
          vehicle_overlaps today v db' = [c]
          /\ conflict_checks.conflict_type c = conflict_checks.Vehicle_Overlap
          /\ conflict_checks.severity c = conflict_checks.High
          /\ In (schedule_instances.id s1) (conflict_checks.conflicting_schedules c)
          /\ In (schedule_instances.id s2) (conflict_checks.conflicting_schedules c)
          /\ In (schedule_instances.id s3) (conflict_checks.conflicting_schedules c)).
Proof.
  intros today sis db'.
  assert (Hdrv : forall d,
            flagged_once conflict_checks.Driver_Overlap
              (driver_bookings today d sis) (driver_overlaps today d db')).
  { intros d. eapply flagged_once_of.
    unfold db', today. rewrite driver_overlaps_after, <- driver_group_bookings.
    apply driver_conflicts_of. }
  assert (Hveh : forall v,
            flagged_once conflict_checks.Vehicle_Overlap
              (vehicle_bookings today v sis) (vehicle_overlaps today v db')).
  { intros v. eapply flagged_once_of.
    unfold db', today. rewrite vehicle_overlaps_after, <- vehicle_group_bookings.
    apply vehicle_conflicts_of. }
  split; [exact Hdrv |]. split; [exact Hveh |].
  split; [| split; [| split]].
  - intros c Hc. pose proof Hc as Hc0. unfold conflicts_on in Hc. apply filter_In in Hc.
    destruct Hc as [Hin Hdate].
    apply conflicts_on_after_cases in Hc0. destruct Hc0 as [Hv | Hv].
    + apply driver_conflicts_shape in Hv.
      destruct Hv as (_ & _ & Ht & _ & d & Hd). simpl in Ht, Hd.
      left. exists d. unfold driver_overlaps. apply filter_In.
      split; [assumption |]. rewrite Hdate, Ht, Hd. simpl. apply N.eqb_refl.
    + apply vehicle_conflicts_shape in Hv.
      destruct Hv as (_ & _ & Ht & _ & v & Hd). simpl in Ht, Hd.
      right. exists v. unfold vehicle_overlaps. apply filter_In.
      split; [assumption |]. rewrite Hdate, Ht, Hd. simpl. apply N.eqb_refl.
  - intros c i Hc Hi. apply conflicts_on_after_cases in Hc. destruct Hc as [Hc | Hc].
    + destruct (driver_conflicts_booked _ _ _ i Hc Hi) as (si & d & H1 & H2 & Hb & H3 & H4).
      apply driver_conflicts_shape in Hc. destruct Hc as (_ & _ & Ht & _).
      apply is_booking_spec in Hb. destruct Hb as (Hb1 & Hb2 & Hb3).
      exists si. repeat split; try assumption.
      left. split; [exact Ht |]. exists d. split; assumption.
    + destruct (vehicle_conflicts_booked _ _ _ i Hc Hi) as (si & v & H1 & H2 & Hb & H3 & H4).
      apply vehicle_conflicts_shape in Hc. destruct Hc as (_ & _ & Ht & _).
      apply is_booking_spec in Hb. destruct Hb as (Hb1 & Hb2 & Hb3).
      exists si. repeat split; try assumption.
      right. split; [exact Ht |]. exists v. split; assumption.
  - intros d s1 s2 s3 H1 H2 H3 Hnd Hall.
    destruct (three_driver_bookings today d sis s1 s2 s3 H1 H2 H3 Hnd Hall)
      as [Hin Hlen].
    specialize (Hdrv d). unfold flagged_once in Hdrv.
    destruct (Nat.ltb_spec 1 (List.length (driver_bookings today d sis))); [| lia].
    destruct (Nat.ltb_spec 2 (List.length (driver_bookings today d sis))); [| lia].
    destruct Hdrv as (c & Hc & Ht & Hm & Hs & _).
    exists c. rewrite Hm. repeat split; try assumption;
      apply in_map; apply Hin; simpl; auto.
  - intros v s1 s2 s3 H1 H2 H3 Hnd Hall.
    destruct (three_vehicle_bookings today v sis s1 s2 s3 H1 H2 H3 Hnd Hall)
      as [Hin Hlen].
    specialize (Hveh v). unfold flagged_once in Hveh.
    destruct (Nat.ltb_spec 1 (List.length (vehicle_bookings today v sis))); [| lia].
    destruct (Nat.ltb_spec 2 (List.length (vehicle_bookings today v sis))); [| lia].
    destruct Hveh as (c & Hc & Ht & Hm & Hs & _).
    exists c. rewrite Hm. repeat split; try assumption;
      apply in_map; apply Hin; simpl; auto.
Qed.

(** Three persisted occurrences of Monday on vehicle 1, two confirmed and
    one scheduled, detected on their day: one Vehicle Overlap row. *)
Lemma detect_schedule_conflicts_flags_groups_witness :
  exists c,
    vehicle_overlaps (CURRENT_DATE (Example.at_8am Example.monday)) 1
      (detect_schedule_conflicts (Example.at_8am Example.monday) Example.one_vehicle)
    = [c]
    /\ conflict_checks.conflict_type c = conflict_checks.Vehicle_Overlap
    /\ conflict_checks.severity c = conflict_checks.High
    /\ conflict_checks.conflicting_schedules c = [31%N; 32%N; 33%N].
Proof.
  destruct (detect_schedule_conflicts_flags_groups
              (Example.at_8am Example.monday) Example.one_vehicle)
    as (_ & H & _).
  specialize (H 1%N). unfold flagged_once in H.
  change ((1 <? List.length
                  (vehicle_bookings (CURRENT_DATE (Example.at_8am Example.monday)) 1
                     (tbl_schedule_instances Example.one_vehicle)))%nat)
    with true in H.
  destruct H as (c & Hc & Ht & Hm & Hs & _).
  exists c. split; [exact Hc |]. split; [exact Ht |]. split; [exact Hs | exact Hm].
Defined.

(* ------------------------------------------------------------------ *)
(** ** Running the detector again *)

Lemma filter_all {A : Type} (p : A -> bool) (l : list A) :
  (forall x, In x l -> p x = true) -> filter p l = l.
Proof.
  induction l as [| x l IH]; simpl; intros H.
  - reflexivity.
  - rewrite (H x (or_introl eq_refl)). f_equal. apply IH.
    intros y Hy. apply H. now right.
Qed.

Lemma map_flat_map {A B C : Type} (f : B -> C) (g : A -> list B) (l : list A) :
  map f (flat_map g l) = flat_map (fun x => map f (g x)) l.
Proof.
  induction l as [| x l IH]; simpl; [reflexivity | now rewrite map_app, IH].
Qed.

Section InsertOut.
Context {R : Type} (get_id : R -> uuid) (set_id : uuid -> R -> R) (p : R -> bool).

(** Rows a selection rejects do not show in it once inserted. *)
Lemma insert_rows_filter_out (news t : list R) :
  (forall u r, In r news -> p (set_id u r) = false) ->
  filter p (insert_rows get_id set_id news t) = filter p t.
Proof.
  revert t. induction news as [| r news IH]; intros t H; simpl.
  - reflexivity.
  - rewrite IH.
    + rewrite filter_app. simpl. rewrite (H _ r (or_introl eq_refl)).
      apply app_nil_r.
    + intros u r' Hr'. apply H. now right.
Qed.
End InsertOut.

(** The conflict records of the date after a run are those of the two
    queries, whatever the table held before. *)
Lemma conflicts_on_after (now : timestamptz) (db : DB) :
  map conflict_record_of
      (conflicts_on (CURRENT_DATE now) (detect_schedule_conflicts now db))
  = map conflict_record_of
      (driver_conflicts now (tbl_schedule_instances db)
       ++ vehicle_conflicts now (tbl_schedule_instances db)).
Proof.
  unfold conflicts_on, detect_schedule_conflicts. simpl.
  set (today := CURRENT_DATE now).
  set (p := fun c => Z.eqb (conflict_checks.check_date c) today).
  assert (Hv : forall u c, conflict_record_of (conflict_with_id u c) = conflict_record_of c)
    by reflexivity.
  assert (Hp : forall u c, p (conflict_with_id u c) = p c) by reflexivity.
  rewrite !(insert_rows_view conflict_checks.id conflict_with_id conflict_record_of p Hv Hp).
  rewrite filter_filter.
  replace (filter _ (tbl_conflict_checks db)) with (@nil conflict_checks.row).
  2:{ symmetry. apply filter_nil_iff. intros c _. unfold p.
      now destruct (conflict_checks.check_date c =? today). }
  simpl. rewrite map_app. f_equal; f_equal; apply filter_all; intros c Hc; unfold p.
  - apply driver_conflicts_shape in Hc. destruct Hc as (_ & -> & _). apply Z.eqb_refl.
  - apply vehicle_conflicts_shape in Hc. destruct Hc as (_ & -> & _). apply Z.eqb_refl.
Qed.

(** The rows of other dates are left as they were. *)
Lemma conflicts_off_after (now : timestamptz) (db : DB) :
  conflicts_off (CURRENT_DATE now) (detect_schedule_conflicts now db)
  = conflicts_off (CURRENT_DATE now) db.
Proof.
  unfold conflicts_off, detect_schedule_conflicts. simpl.
  set (today := CURRENT_DATE now).
  rewrite !insert_rows_filter_out.
  - rewrite filter_filter. apply filter_ext. intros c. apply andb_diag.
  - intros u c Hc. apply driver_conflicts_shape in Hc. destruct Hc as (_ & Hd & _).
    simpl. fold today in Hd. rewrite Hd, Z.eqb_refl. reflexivity.
  - intros u c Hc. apply vehicle_conflicts_shape in Hc. destruct Hc as (_ & Hd & _).
    simpl. fold today in Hd. rewrite Hd, Z.eqb_refl. reflexivity.
Qed.

(** The records selected depend on the clock through the date only. *)
Lemma conflict_records_same_day (now now' : timestamptz) (sis : list schedule_instances.row) :
  CURRENT_DATE now' = CURRENT_DATE now ->
  map conflict_record_of (driver_conflicts now' sis ++ vehicle_conflicts now' sis)
  = map conflict_record_of (driver_conflicts now sis ++ vehicle_conflicts now sis).
Proof.
  intros H. unfold driver_conflicts, vehicle_conflicts. rewrite H.
  rewrite !map_app, !map_flat_map. f_equal; apply flat_map_ext; intros g;
    destruct (1 <? List.length (snd g))%nat; reflexivity.
Qed.

(** C3.  Running the detector twice on the same date, with the schedule
    data unchanged in between, yields the same conflict records for that
    date both times: each run deletes the date's rows and inserts the ones
    it computes from the occurrences alone, so nothing accumulates; rows of
    other dates and the schedule data are left as they were. *)
Theorem detect_schedule_conflicts_idempotent (now now' : timestamptz) (db : DB) :
  CURRENT_DATE now' = CURRENT_DATE now ->
  let today := CURRENT_DATE now in
  let db1 := detect_schedule_conflicts now db in
  let db2 := detect_schedule_conflicts now' db1 in
  map conflict_record_of (conflicts_on today db2)
  = map conflict_record_of (conflicts_on today db1)
  /\ List.length (conflicts_on today db2) = List.length (conflicts_on today db1)
  /\ map conflict_record_of (conflicts_on today db1)
     = map conflict_record_of
         (driver_conflicts now (tbl_schedule_instances db)
          ++ vehicle_conflicts now (tbl_schedule_instances db))
  /\ conflicts_off today db2 = conflicts_off today db
  /\ tbl_schedule_instances db2 = tbl_schedule_instances db
  /\ tbl_route_schedules db2 = tbl_route_schedules db.
Proof.
  intros Hday today db1 db2.
  assert (Hsame : map conflict_record_of (conflicts_on today db2)
                  = map conflict_record_of (conflicts_on today db1)).
  { unfold db2, today. rewrite <- Hday. rewrite conflicts_on_after.
    rewrite Hday. unfold db1. rewrite conflicts_on_after.
    now apply conflict_records_same_day. }
  split; [exact Hsame |]. split; [| split; [| split; [| split]]].
  - apply (f_equal (@List.length _)) in Hsame. now rewrite !length_map in Hsame.
  - apply conflicts_on_after.
  - unfold db2, today. rewrite <- Hday. rewrite conflicts_off_after.
    rewrite Hday. apply conflicts_off_after.
  - reflexivity.
  - reflexivity.
Qed.

(** Two runs on the Monday of [Example.three_bookings], an hour apart. *)
Lemma detect_schedule_conflicts_idempotent_witness :
  map conflict_record_of
    (conflicts_on (CURRENT_DATE (Example.at_8am Example.monday))
       (detect_schedule_conflicts (Example.at_9am Example.monday)
          (detect_schedule_conflicts (Example.at_8am Example.monday)
             Example.three_bookings)))
  = map conflict_record_of
      (conflicts_on (CURRENT_DATE (Example.at_8am Example.monday))
         (detect_schedule_conflicts (Example.at_8am Example.monday)
            Example.three_bookings)).
Proof.
  apply (detect_schedule_conflicts_idempotent
           (Example.at_8am Example.monday) (Example.at_9am Example.monday)
           Example.three_bookings).
  reflexivity.
Defined.

(* ------------------------------------------------------------------ *)
(** ** What the detector reads *)

Lemma conflicts_on_after_In (now : timestamptz) (db : DB) (c : conflict_checks.row) :
  In c (conflicts_on (CURRENT_DATE now) (detect_schedule_conflicts now db)) ->
  In (conflict_with_id 0 c)
     (driver_conflicts now (tbl_schedule_instances db)
      ++ vehicle_conflicts now (tbl_schedule_instances db)).
Proof.
  intros Hc. unfold conflicts_on in Hc.
  apply (in_map (conflict_with_id 0)) in Hc.
  rewrite detect_schedule_conflicts_table in Hc by reflexivity.
  replace (filter _ (conflicts_off (CURRENT_DATE now) db))
    with (@nil conflict_checks.row) in Hc.
  2:{ symmetry. apply filter_nil_iff. intros c' Hc'.
      unfold conflicts_off in Hc'. apply filter_In in Hc'. destruct Hc' as [_ Hc'].
      now apply negb_true_iff in Hc'. }
  simpl in Hc. apply in_app_or in Hc. apply in_or_app.
  destruct Hc as [Hc | Hc]; apply filter_In in Hc; tauto.
Qed.

Lemma driver_conflicts_members (now : timestamptz) (sis : list schedule_instances.row)
    (c : conflict_checks.row) (i : uuid) :
  In c (driver_conflicts now sis) ->
  In i (conflict_checks.conflicting_schedules c) ->
  exists si,
    In si sis /\ schedule_instances.id si = i
    /\ schedule_instances.schedule_date si = CURRENT_DATE now
    /\ schedule_instances.driver_id si = conflict_checks.driver_id c.
Proof.
  unfold driver_conflicts, group_by. rewrite flat_map_map.
  intros H Hi. apply in_flat_map in H. destruct H as [k [_ Hc]].
  simpl in Hc.
  match type of Hc with
  | In _ (if ?b then _ else _) => destruct b
  end; [| contradiction].
  destruct Hc as [<- | []]. simpl in *.
  apply in_map_iff in Hi. destruct Hi as [si [<- Hsi]].
  apply filter_In in Hsi. destruct Hsi as [Hsi Hk].
  apply filter_In in Hsi. destruct Hsi as [Hsi W].
  apply group_key_eqb_eq in Hk. subst k.
  exists si. repeat split; [assumption |]. now apply driver_where_date.
Qed.

Lemma vehicle_conflicts_members (now : timestamptz) (sis : list schedule_instances.row)
    (c : conflict_checks.row) (i : uuid) :
  In c (vehicle_conflicts now sis) ->
  In i (conflict_checks.conflicting_schedules c) ->
  exists si,
    In si sis /\ schedule_instances.id si = i
    /\ schedule_instances.schedule_date si = CURRENT_DATE now
    /\ schedule_instances.vehicle_id si = conflict_checks.vehicle_id c.
Proof.
  unfold vehicle_conflicts, group_by. rewrite flat_map_map.
  intros H Hi. apply in_flat_map in H. destruct H as [k [_ Hc]].
  simpl in Hc.
  match type of Hc with
  | In _ (if ?b then _ else _) => destruct b
  end; [| contradiction].
  destruct Hc as [<- | []]. simpl in *.
  apply in_map_iff in Hi. destruct Hi as [si [<- Hsi]].
  apply filter_In in Hsi. destruct Hsi as [Hsi Hk].
  apply filter_In in Hsi. destruct Hsi as [Hsi W].
  apply group_key_eqb_eq in Hk. subst k.
  exists si. repeat split; [assumption |]. now apply vehicle_where_date.
Qed.

(** Two templates defaulting to one driver, nothing persisted: the view
    shows two bookings of the driver on Monday, the detector flags none. *)
Lemma detector_ignores_template_defaults :
  List.length (materialized_bookings (CURRENT_DATE (Example.at_8am Example.monday))
                 "DRV000001" Example.defaults_only) = 2%nat
  /\ tbl_schedule_instances Example.defaults_only = []
  /\ conflicts_on (CURRENT_DATE (Example.at_8am Example.monday))
       (detect_schedule_conflicts (Example.at_8am Example.monday) Example.defaults_only)
     = []
  /\ ~ detector_reads_materialized_occurrences.
Proof.
  assert (H2 : List.length
                 (materialized_bookings (CURRENT_DATE (Example.at_8am Example.monday))
                    "DRV000001" Example.defaults_only) = 2%nat)
    by (vm_compute; reflexivity).
  assert (H0 : conflicts_on (CURRENT_DATE (Example.at_8am Example.monday))
                 (detect_schedule_conflicts (Example.at_8am Example.monday)
                    Example.defaults_only) = [])
    by (vm_compute; reflexivity).
  repeat split; try assumption.
  intros Hclaim.
  destruct (Hclaim (Example.at_8am Example.monday) Example.defaults_only "DRV000001")
    as [c [Hc _]].
  - rewrite H2. lia.
  - rewrite H0 in Hc. contradiction.
Qed.

(** C1 (amended).  The detector takes no date: it works on the current
    date of the transaction's clock, and it groups the persisted rows of
    [schedule_instances] for that date by the driver and vehicle stored in
    the row itself.  Every occurrence a conflict row of the date names is
    such a row, carrying the row's own (non-null) driver, respectively
    vehicle; the records of the date are the same for any two databases
    with the same [schedule_instances], whatever their templates and
    defaults; and with no row persisted for the date nothing is flagged. *)
Theorem detect_schedule_conflicts_reads_persisted_rows (now : timestamptz) (db : DB) :
  let today := CURRENT_DATE now in
  let db' := detect_schedule_conflicts now db in
  (forall c i,
     In c (conflicts_on today db') ->
     In i (conflict_checks.conflicting_schedules c) ->
     exists si,
       In si (tbl_schedule_instances db)
       /\ schedule_instances.id si = i
       /\ schedule_instances.schedule_date si = today
       /\ ((conflict_checks.conflict_type c = conflict_checks.Driver_Overlap
            /\ schedule_instances.driver_id si = conflict_checks.driver_id c
            /\ conflict_checks.driver_id c <> None)
           \/ (conflict_checks.conflict_type c = conflict_checks.Vehicle_Overlap
               /\ schedule_instances.vehicle_id si = conflict_checks.vehicle_id c
               /\ conflict_checks.vehicle_id c <> None)))
  /\ (forall db2,
        tbl_schedule_instances db2 = tbl_schedule_instances db ->
        map conflict_record_of (conflicts_on today (detect_schedule_conflicts now db2))
        = map conflict_record_of (conflicts_on today db'))
  /\ ((forall si, In si (tbl_schedule_instances db) ->
                  schedule_instances.schedule_date si <> today) ->
      conflicts_on today db' = []).
Proof.
  intros today db'. split; [| split].
  - intros c i Hc Hi. apply conflicts_on_after_In in Hc.
    apply in_app_or in Hc. destruct Hc as [Hc | Hc].
    + destruct (driver_conflicts_members _ _ _ i Hc Hi) as (si & H1 & H2 & H3 & H4).
      apply driver_conflicts_shape in Hc. destruct Hc as (_ & _ & Ht & _ & d & Hd).
      exists si. repeat split; try assumption. left. simpl in *.
      repeat split; try assumption. congruence.
    + destruct (vehicle_conflicts_members _ _ _ i Hc Hi) as (si & H1 & H2 & H3 & H4).
      apply vehicle_conflicts_shape in Hc. destruct Hc as (_ & _ & Ht & _ & v & Hv).
      exists si. repeat split; try assumption. right. simpl in *.
      repeat split; try assumption. congruence.
  - intros db2 Hsis. unfold db', today. rewrite !conflicts_on_after. now rewrite Hsis.
  - intros Hnone.
    assert (Hd : filter (driver_conflict_where today) (tbl_schedule_instances db) = []).
    { apply filter_nil_iff. intros si Hsi.
      destruct (driver_conflict_where today si) eqn:W; [| reflexivity].
      apply driver_where_date in W. now apply Hnone in Hsi. }
    assert (Hv : filter (vehicle_conflict_where today) (tbl_schedule_instances db) = []).
    { apply filter_nil_iff. intros si Hsi.
      destruct (vehicle_conflict_where today si) eqn:W; [| reflexivity].
      apply vehicle_where_date in W. now apply Hnone in Hsi. }
    apply (map_eq_nil conflict_record_of). unfold db', today.
    rewrite conflicts_on_after. unfold driver_conflicts, vehicle_conflicts.
    fold today. rewrite Hd, Hv. reflexivity.
Qed.

(* ================================================================== *)
(** * The materialised view *)
(* ================================================================== *)

(** In a scope that holds the series, a reference to [schedule_date] that
    resolves is the column of the series. *)
Lemma resolve_in_scope_of_series (scope : list relation) (r : string) :
  In series scope ->
  resolve "schedule_date" scope = Ok r ->
  r = "schedule_date".
Proof.
  unfold resolve. intros Hin H.
  assert (Hs : In series (filter (has_column "schedule_date") scope))
    by (apply filter_In; split; [assumption | reflexivity]).
  destruct (filter (has_column "schedule_date") scope) as [| x [| y l]];
    try discriminate.
  injection H as <-. destruct Hs as [E | []]. now rewrite E.
Qed.

Lemma schedule_overview_references_rejected :
  resolve_all schedule_overview_references = Err (ambiguous_column "schedule_date").
Proof. vm_compute. reflexivity. Qed.

(** The statement is rejected whatever the tables hold. *)
Lemma schedule_overview_rejected (db : DB) :
  schedule_overview db = Err (ambiguous_column "schedule_date").
Proof.
  unfold schedule_overview. now rewrite schedule_overview_references_rejected.
Qed.

(** C4 (failing input).  The statement that creates the view is rejected:
    its unqualified [schedule_date] names both the column of
    [generate_series] and a column of [si], and no other relation of the
    FROM clause.  So no occurrence is materialised for any template on any
    day; in particular the confirmed template of [Example.whole_week],
    with the default rule and in force from Monday 2025-07-14, gets no
    occurrence on that Monday, which the claim requires.  Besides, the
    weekday test of the WHERE clause compares [EXTRACT(DOW ...)], which is
    0 on a Sunday, with a rule written in the documented numbering 1 to 7:
    it accepts no Sunday, 2025-07-13 for one. *)
Theorem schedule_overview_yields_no_occurrence :
  (forall db, schedule_overview db = Err (ambiguous_column "schedule_date"))
  /\ map rel_name (filter (has_column "schedule_date") schedule_overview_from)
     = ["schedule_date"; "si"]
  /\ (let rs := Example.template 1 None Example.monday (Example.monday + 6) in
      In rs (tbl_route_schedules Example.whole_week)
      /\ route_schedules.status rs = route_schedules.Confirmed
      /\ route_schedules.start_date rs <= Example.monday <= series_stop rs
      /\ In 1 (rule_days rs)
      /\ civil_from_days Example.monday = (2025, 7, 14)
      /\ forall rows, schedule_overview Example.whole_week <> Ok rows)
  /\ (forall rs d,
        (forall k, In k (rule_days rs) -> 1 <= k <= 7) ->
        DOW d = 0 ->
        eq_any (DOW d) (rule_days rs) = false)
  /\ DOW Example.sunday = 0
  /\ civil_from_days Example.sunday = (2025, 7, 13).
Proof.
  split; [exact schedule_overview_rejected |].
  split; [vm_compute; reflexivity |].
  split; [| split; [| split; [vm_compute; reflexivity | vm_compute; reflexivity]]].
  - cbv zeta. split; [simpl; auto |]. split; [reflexivity |].
    split; [vm_compute; split; discriminate |]. split; [simpl; auto |].
    split; [vm_compute; reflexivity |].
    intros rows H. rewrite schedule_overview_rejected in H. discriminate.
  - intros rs d Hrule Hsun. rewrite Hsun.
    destruct (eq_any 0 (rule_days rs)) eqn:E; [| reflexivity].
    unfold eq_any in E. apply existsb_exists in E. destruct E as (k & Hk & E).
    apply Z.eqb_eq in E. specialize (Hrule k Hk). lia.
Qed.


(* ================================================================== *)
(** * Cross-day alerts *)
(* ================================================================== *)

Section KeyFacts.
Context {R : Type} (get_id : R -> uuid).

Lemma key_injective (t : list R) (x y : R) :
  NoDup (map get_id t) -> In x t -> In y t -> get_id x = get_id y -> x = y.
Proof.
  induction t as [| z t IH]; simpl; intros Hnd Hx Hy E.
  - contradiction.
  - inversion Hnd as [| ? ? Hnotin Hnd']; subst.
    destruct Hx as [-> | Hx], Hy as [-> | Hy]; auto.
    + exfalso. apply Hnotin. rewrite E. now apply in_map.
    + exfalso. apply Hnotin. rewrite <- E. now apply in_map.
Qed.

(** A join on a primary key finds the one row that carries the key. *)
Lemma join_on_key (t : list R) (x : R) (k : uuid) :
  NoDup (map get_id t) -> In x t -> get_id x = k ->
  inner_join (fun r => N.eqb k (get_id r)) t = [x].
Proof.
  intros Hnd Hx <-. unfold inner_join.
  induction t as [| z t IH]; simpl.
  - contradiction.
  - inversion Hnd as [| ? ? Hnotin Hnd']; subst.
    destruct Hx as [-> | Hx].
    + rewrite N.eqb_refl. f_equal.
      apply filter_nil_iff. intros y Hy.
      apply N.eqb_neq. intros E. apply Hnotin. rewrite E. now apply in_map.
    + replace (get_id x =? get_id z)%N with false.
      * now apply IH.
      * symmetry. apply N.eqb_neq. intros E. apply Hnotin.
        rewrite <- E. now apply in_map.
Qed.
End KeyFacts.

Lemma alert_with_id_idem (u v : uuid) (a : route_alerts.row) :
  alert_with_id u (alert_with_id v a) = alert_with_id u a.
Proof. reflexivity. Qed.

(** The alerts the detection query selects for one persisted occurrence,
    when the keys it joins on are primary keys and the references hold. *)
Lemma cross_day_alerts_of (now : timestamptz) (db : DB)
    (si : schedule_instances.row) (rs : route_schedules.row) (r : routes.row) :
  primary_key schedule_instances.id (tbl_schedule_instances db) ->
  primary_key route_schedules.id (tbl_route_schedules db) ->
  primary_key routes.id (tbl_routes db) ->
  In si (tbl_schedule_instances db) ->
  In rs (tbl_route_schedules db) ->
  route_schedules.id rs = schedule_instances.route_schedule_id si ->
  In r (tbl_routes db) ->
  routes.id r = route_schedules.route_id rs ->
  filter (fun a => opt_eqb N.eqb (route_alerts.schedule_instance_id a)
                                 (Some (schedule_instances.id si)))
         (cross_day_alerts now db)
  = if cross_day_where (CURRENT_DATE now) si
    then [ route_alerts.mk 0%N None (Some (schedule_instances.id si))
             route_alerts.TimeCrossDay "Cross-Day Schedule Detected"
             (cross_day_message r si) route_alerts.Medium (Some false) None
             (route_schedules.owner_user_id rs) (Some now) ]
    else [].
Proof.
  intros Hsi_pk Hrs_pk Hr_pk Hsi Hrs Hrs_id Hr Hr_id.
  unfold cross_day_alerts. rewrite filter_flat_map.
  rewrite (flat_map_only _ _ si).
  - rewrite (join_on_key route_schedules.id _ rs) by (auto; congruence).
    simpl. rewrite (join_on_key routes.id _ r) by (auto; congruence).
    simpl. destruct (cross_day_where (CURRENT_DATE now) si); simpl.
    + now rewrite N.eqb_refl.
    + reflexivity.
  - apply (NoDup_map_inv schedule_instances.id). exact Hsi_pk.
  - exact Hsi.
  - intros si' Hsi' Hne.
    apply filter_nil_iff. intros a Ha.
    repeat (apply in_flat_map in Ha; destruct Ha as [? [? Ha]]).
    destruct (cross_day_where (CURRENT_DATE now) si'); [| contradiction].
    destruct Ha as [<- | []]. simpl.
    apply N.eqb_neq. intros E. apply Hne.
    now apply (key_injective schedule_instances.id (tbl_schedule_instances db)).
Qed.

Lemma cross_day_alerts_shape (now : timestamptz) (db : DB) (a : route_alerts.row) :
  In a (cross_day_alerts now db) ->
  route_alerts.id a = 0%N
  /\ cross_day_alert_of_today (CURRENT_DATE now) a = true.
Proof.
  unfold cross_day_alerts. intros Ha.
  repeat (apply in_flat_map in Ha; destruct Ha as [? [? Ha]]).
  match type of Ha with
  | In _ (if ?b then _ else _) => destruct b
  end; [| contradiction].
  destruct Ha as [<- | []]. split; [reflexivity |].
  unfold cross_day_alert_of_today. simpl. unfold CURRENT_DATE.
  now rewrite Z.eqb_refl.
Qed.

(** The alerts the first statement deletes are those of the cross-day
    type created on the current date. *)
Lemma cross_day_alert_of_today_spec (today : date) (a : route_alerts.row) :
  cross_day_alert_of_today today a = is_cross_day a && created_on today a.
Proof.
  unfold cross_day_alert_of_today, is_cross_day, created_on.
  destruct (route_alerts.alert_type a);
    destruct (route_alerts.created_at a) as [t |]; simpl; try reflexivity;
    destruct (DATE t =? today); reflexivity.
Qed.

Lemma cross_day_alerts_for_code (today : date) (i : uuid) (db : DB) :
  cross_day_alerts_for today i db
  = filter (fun a => cross_day_alert_of_today today a
                     && opt_eqb N.eqb (route_alerts.schedule_instance_id a) (Some i))
           (tbl_route_alerts db).
Proof.
  apply filter_ext. intros a. rewrite cross_day_alert_of_today_spec.
  destruct (route_alerts.schedule_instance_id a); reflexivity.
Qed.

Lemma cross_day_alerts_for_after (now : timestamptz) (db : DB) (i : uuid) :
  map (alert_with_id 0)
      (cross_day_alerts_for (CURRENT_DATE now) i (detect_cross_day_conflict now db))
  = filter (fun a => opt_eqb N.eqb (route_alerts.schedule_instance_id a) (Some i))
           (cross_day_alerts now db).
Proof.
  rewrite cross_day_alerts_for_code. unfold detect_cross_day_conflict. simpl.
  set (p := fun a => cross_day_alert_of_today (CURRENT_DATE now) a
                     && opt_eqb N.eqb (route_alerts.schedule_instance_id a) (Some i)).
  rewrite (insert_rows_view route_alerts.id alert_with_id (alert_with_id 0) p
             (alert_with_id_idem 0)) by reflexivity.
  rewrite filter_filter.
  replace (filter _ (tbl_route_alerts db)) with (@nil route_alerts.row).
  2:{ symmetry. apply filter_nil_iff. intros a _. unfold p.
      now destruct (cross_day_alert_of_today (CURRENT_DATE now) a). }
  simpl.
  replace (filter p (cross_day_alerts now db))
    with (filter (fun a => opt_eqb N.eqb (route_alerts.schedule_instance_id a) (Some i))
                 (cross_day_alerts now db)).
  2:{ apply filter_ext_in. intros a Ha. unfold p.
      apply cross_day_alerts_shape in Ha. destruct Ha as [_ ->]. reflexivity. }
  rewrite <- (map_id (filter _ _)) at 2. apply map_ext_in.
  intros a Ha. apply filter_In in Ha. destruct Ha as [Ha _].
  apply cross_day_alerts_shape in Ha. destruct Ha as [Hid _].
  rewrite <- Hid. now destruct a.
Qed.

(** A persisted, undeleted occurrence of Monday 2025-07-14 with no standby
    date stored, so that its standby date is that Monday, and departure on
    the Tuesday: the two dates differ, and the check, which compares the
    stored columns, raises no alert. *)
Lemma cross_day_check_misses_default_standby :
  let si := Example.instance 22 1 Example.monday (Some 1%N) None
              (Some (Example.monday + 1)) false in
  let db := Example.overnight_default_standby in
  let now := Example.at_8am Example.monday in
  In si (tbl_schedule_instances db)
  /\ schedule_instances.schedule_date si = CURRENT_DATE now
  /\ schedule_instances.is_deleted si = Some false
  /\ effective_standby_date si = Example.monday
  /\ effective_departure_date si = Example.monday + 1
  /\ tbl_route_alerts (detect_cross_day_conflict now db) = []
  /\ ~ cross_day_check_reads_effective_dates.
Proof.
  cbv zeta.
  assert (Hnone : tbl_route_alerts
                    (detect_cross_day_conflict (Example.at_8am Example.monday)
                       Example.overnight_default_standby) = [])
    by (vm_compute; reflexivity).
  split; [simpl; auto |]. split; [vm_compute; reflexivity |].
  split; [reflexivity |]. split; [reflexivity |]. split; [reflexivity |].
  split; [exact Hnone |].
  intros Hclaim.
  destruct (Hclaim (Example.at_8am Example.monday) Example.overnight_default_standby
              (Example.instance 22 1 Example.monday (Some 1%N) None
                 (Some (Example.monday + 1)) false)
              (Example.template 1 None Example.monday Example.monday)
              (routes.mk 1 "RTE000001" "North loop" None (Some "North")))
    as (alert & Halert).
  - repeat constructor; simpl; tauto.
  - repeat constructor; simpl; tauto.
  - repeat constructor; simpl; intuition discriminate.
  - simpl. auto.
  - simpl. auto.
  - reflexivity.
  - simpl. auto.
  - reflexivity.
  - vm_compute. reflexivity.
  - reflexivity.
  - vm_compute. discriminate.
  - unfold cross_day_alerts_for in Halert. rewrite Hnone in Halert. discriminate.
Qed.

(** C6 (amended).  The cross-day check compares the standby date and the
    departure date stored in the row.  For a persisted occurrence of the
    current date that is not deleted and whose stored standby date and
    departure date are both set and differ, it leaves exactly one
    TimeCrossDay alert of the day referring to it, addressed to the owner
    of the occurrence's template; an occurrence whose stored dates are
    equal, or one of whose stored dates is NULL, gets no such alert; the
    check writes no conflict row.  The schema's primary keys and the
    references occurrence -> template -> route are assumed. *)
Theorem detect_cross_day_conflict_alerts (now : timestamptz) (db : DB)
    (si : schedule_instances.row) (rs : route_schedules.row) (r : routes.row) :
  primary_key schedule_instances.id (tbl_schedule_instances db) ->
  primary_key route_schedules.id (tbl_route_schedules db) ->
  primary_key routes.id (tbl_routes db) ->
  In si (tbl_schedule_instances db) ->
  In rs (tbl_route_schedules db) ->
  route_schedules.id rs = schedule_instances.route_schedule_id si ->
  In r (tbl_routes db) ->
  routes.id r = route_schedules.route_id rs ->
  let today := CURRENT_DATE now in
  let db' := detect_cross_day_conflict now db in
  let raised := cross_day_alerts_for today (schedule_instances.id si) db' in
  (forall a b,
     schedule_instances.schedule_date si = today ->
     schedule_instances.is_deleted si = Some false ->
     schedule_instances.standby_date si = Some a ->
     schedule_instances.departure_date si = Some b ->
     a <> b ->
     exists alert,
       raised = [alert]
       /\ route_alerts.alert_type alert = route_alerts.TimeCrossDay
       /\ route_alerts.schedule_instance_id alert = Some (schedule_instances.id si)
       /\ route_alerts.created_for_user alert = route_schedules.owner_user_id rs)
  /\ (schedule_instances.standby_date si = schedule_instances.departure_date si ->
      raised = [])
  /\ (schedule_instances.standby_date si = None
      \/ schedule_instances.departure_date si = None ->
      raised = [])
  /\ tbl_conflict_checks db' = tbl_conflict_checks db.
Proof.
  intros Hsi_pk Hrs_pk Hr_pk Hsi Hrs Hrs_id Hr Hr_id today db' raised.
  assert (Hraised : map (alert_with_id 0) raised
                    = if cross_day_where today si
                      then [ route_alerts.mk 0%N None (Some (schedule_instances.id si))
                               route_alerts.TimeCrossDay "Cross-Day Schedule Detected"
                               (cross_day_message r si) route_alerts.Medium (Some false)
                               None (route_schedules.owner_user_id rs) (Some now) ]
                      else []).
  { unfold raised, db', today. rewrite cross_day_alerts_for_after.
    now apply cross_day_alerts_of. }
  split; [| split; [| split]].
  - intros a b Hdate Hdel Hsb Hdp Hab.
    assert (W : cross_day_where today si = true).
    { unfold cross_day_where. rewrite Hdate, Hdel, Hsb, Hdp. simpl.
      rewrite Z.eqb_refl. simpl.
      destruct (Z.eqb_spec a b); [contradiction | reflexivity]. }
    rewrite W in Hraised. apply map_eq_singleton in Hraised.
    destruct Hraised as [alert [-> Halert]].
    exists alert. split; [reflexivity |].
    destruct alert; simpl in *. injection Halert as -> -> -> -> -> -> -> -> -> ->.
    repeat split.
  - intros Heq.
    assert (W : cross_day_where today si = false).
    { unfold cross_day_where. rewrite Heq.
      destruct (schedule_instances.departure_date si) as [d |]; simpl.
      - rewrite Z.eqb_refl. simpl. now rewrite andb_false_r.
      - now rewrite andb_false_r. }
    rewrite W in Hraised. now apply map_eq_nil in Hraised.
  - intros Hnull.
    assert (W : cross_day_where today si = false).
    { unfold cross_day_where. destruct Hnull as [H | H]; rewrite H.
      - simpl. now rewrite andb_false_r.
      - destruct (schedule_instances.standby_date si); simpl;
          now rewrite andb_false_r. }
    rewrite W in Hraised. now apply map_eq_nil in Hraised.
  - reflexivity.
Qed.

(** Standby on Monday 2025-07-14, departure on the Tuesday. *)
Lemma detect_cross_day_conflict_alerts_witness :
  exists alert,
    cross_day_alerts_for (CURRENT_DATE (Example.at_8am Example.monday)) 21
      (detect_cross_day_conflict (Example.at_8am Example.monday) Example.overnight)
    = [alert]
    /\ route_alerts.alert_type alert = route_alerts.TimeCrossDay
    /\ route_alerts.schedule_instance_id alert = Some 21%N
    /\ route_alerts.created_for_user alert = Some 1%N.
Proof.
  assert (Hnd3 : NoDup [1%N; 2%N; 3%N])
    by (repeat constructor; simpl; intuition discriminate).
  assert (Hnd1 : forall x : N, NoDup [x])
    by (intros x; repeat constructor; simpl; tauto).
  destruct (detect_cross_day_conflict_alerts
              (Example.at_8am Example.monday) Example.overnight
              (Example.instance 21 1 Example.monday (Some 1%N)
                 (Some Example.monday) (Some (Example.monday + 1)) false)
              (Example.template 1 None Example.monday Example.monday)
              (routes.mk 1 "RTE000001" "North loop" None (Some "North")))
    as (H & _).
  - exact (Hnd1 21%N).
  - exact (Hnd1 1%N).
  - exact Hnd3.
  - simpl. auto.
  - simpl. auto.
  - reflexivity.
  - simpl. auto.
  - reflexivity.
  - apply (H Example.monday (Example.monday + 1)); try reflexivity.
    vm_compute. discriminate.
Defined.

(* ================================================================== *)
(** * Suggestion engine *)
(* ================================================================== *)

Lemma gap_of_the_example :
  ((14 * usec_per_hour + 45 * usec_per_minute - 14 * usec_per_hour) / usec_per_minute = 45)%Z.
Proof. vm_compute. reflexivity. Qed.

Lemma candidates_of_the_example (A B : Suggestion.occurrence)
    (cache : list Suggestion.distance_row) (d : date) :
  Suggestion.route A <> Suggestion.route B ->
  Suggestion.estimated_arrival A = 14 * usec_per_hour ->
  Suggestion.departure B = 14 * usec_per_hour + 45 * usec_per_minute ->
  Suggestion.lookup_distance cache (Suggestion.route A) (Suggestion.route B) = Some (10 # 1) ->
  Suggestion.candidates Suggestion.suggestion_config cache d [A; B] A
  = [ Suggestion.mkSuggestion (Suggestion.route A) (Suggestion.route B)
        (Suggestion.route_code B) d 45 (10 # 1)
        (Suggestion.efficiency Suggestion.suggestion_config (10 # 1) 45) ].
Proof.
  intros Hne HA HB Hdist.
  unfold Suggestion.candidates. simpl flat_map.
  rewrite N.eqb_refl. simpl negb. cbv iota.
  apply N.eqb_neq in Hne. rewrite Hne. simpl negb. cbv iota.
  rewrite Hdist. unfold Suggestion.gap_minutes. rewrite HA, HB.
  rewrite gap_of_the_example.
  replace (Qle_bool (Suggestion.config_value Suggestion.suggestion_config "min_gap_minutes")
             (inject_Z 45)
           && Qle_bool (inject_Z 45)
                (Suggestion.config_value Suggestion.suggestion_config "max_gap_minutes")
           && Qle_bool (10 # 1)
                (Suggestion.config_value Suggestion.suggestion_config "max_distance_km")
           && Qle_bool
                (Suggestion.config_value Suggestion.suggestion_config "efficiency_threshold")
                (Suggestion.efficiency Suggestion.suggestion_config (10 # 1) 45))
    with true by (vm_compute; reflexivity).
  reflexivity.
Qed.

(** C7.  With the seeded configuration (gap within 30 to 240 minutes,
    distance at most 50 km, weights 0.4 and 0.6, threshold 0.7), two
    occurrences on different routes, one arriving at 14:00 and the other
    departing at 14:45, on routes 10 km apart: a suggestion from the first
    route to the second is emitted, with gap 45 minutes and efficiency
    0.4 * (1 - 10/50) + 0.6 * (1 - 45/240) = 0.8075, above the threshold. *)
Theorem suggest_consolidations_example (A B : Suggestion.occurrence)
    (cache : list Suggestion.distance_row) (d : date) :
  Suggestion.route A <> Suggestion.route B ->
  Suggestion.estimated_arrival A = 14 * usec_per_hour ->
  Suggestion.departure B = 14 * usec_per_hour + 45 * usec_per_minute ->
  Suggestion.lookup_distance cache (Suggestion.route A) (Suggestion.route B) = Some (10 # 1) ->
  let cfg := Suggestion.suggestion_config in
  (Suggestion.config_value cfg "min_gap_minutes" == 30
   /\ Suggestion.config_value cfg "max_gap_minutes" == 240
   /\ Suggestion.config_value cfg "max_distance_km" == 50
   /\ Suggestion.config_value cfg "distance_weight" == 0.4
   /\ Suggestion.config_value cfg "time_weight" == 0.6
   /\ Suggestion.config_value cfg "efficiency_threshold" == 0.7)%Q
  /\ exists s,
       In s (Suggestion.suggest_consolidations cfg cache d [A; B])
       /\ Suggestion.s_from_route s = Suggestion.route A
       /\ Suggestion.s_to_route s = Suggestion.route B
       /\ Suggestion.s_date s = d
       /\ Suggestion.s_gap_minutes s = 45
       /\ (Suggestion.s_distance_km s == 10)%Q
       /\ (Suggestion.s_efficiency s == 0.4 * (1 - 10 / 50) + 0.6 * (1 - 45 / 240))%Q
       /\ (Suggestion.s_efficiency s == 0.8075)%Q
       /\ (Suggestion.config_value cfg "efficiency_threshold" < Suggestion.s_efficiency s)%Q.
Proof.
  intros Hne HA HB Hdist cfg. split.
  - repeat split; vm_compute; reflexivity.
  - eexists. split.
    + unfold Suggestion.suggest_consolidations.
      change (flat_map ?f [A; B]) with (f A ++ f B ++ []).
      apply in_or_app. left. unfold cfg.
      rewrite (candidates_of_the_example A B cache d Hne HA HB Hdist).
      replace (Z.to_nat (Qfloor (Suggestion.config_value Suggestion.suggestion_config
                                   "max_suggestions_per_route")))
        with 5%nat by (vm_compute; reflexivity).
      simpl. left. reflexivity.
    + simpl. repeat split; vm_compute; reflexivity.
Qed.

(** The two occurrences of the example, on routes 1 and 2. *)
Lemma suggest_consolidations_example_witness :
  exists s,
    In s (Suggestion.suggest_consolidations Suggestion.suggestion_config
            [Suggestion.mkDistance 1 2 (10 # 1)] Example.monday
            [ Suggestion.mkOccurrence 1 "RTE000001" (13 * usec_per_hour) (14 * usec_per_hour);
              Suggestion.mkOccurrence 2 "RTE000002"
                (14 * usec_per_hour + 45 * usec_per_minute) (16 * usec_per_hour) ])
    /\ Suggestion.s_gap_minutes s = 45
    /\ (Suggestion.s_efficiency s == 0.8075)%Q.
Proof.
  destruct (suggest_consolidations_example
              (Suggestion.mkOccurrence 1 "RTE000001" (13 * usec_per_hour) (14 * usec_per_hour))
              (Suggestion.mkOccurrence 2 "RTE000002"
                 (14 * usec_per_hour + 45 * usec_per_minute) (16 * usec_per_hour))
              [Suggestion.mkDistance 1 2 (10 # 1)] Example.monday)
    as (_ & s & Hin & _ & _ & _ & Hgap & _ & _ & Heff & _).
  - simpl. discriminate.
  - reflexivity.
  - reflexivity.
  - reflexivity.
  - exists s. repeat split; assumption.
Defined.

(** What the column [efficiency_score DECIMAL(5,2)] would keep of that
    score. *)
Lemma stored_efficiency_of_the_example :
  (Suggestion.to_decimal_5_2 0.8075 == 0.81)%Q.
Proof. vm_compute. reflexivity. Qed.

(* ================================================================== *)
(** * The audit trigger *)
(* ================================================================== *)

(** The two outcomes of the trigger: one more row in [audit_logs] and
    nothing else changed, or an error, raised exactly in the cases of
    [audit_step_fails]. *)
Lemma audit_trigger_function_outcome (s : session) (now : timestamptz)
    (tg : trigger_data) (db : DB) :
  (exists entry,
     audit_trigger_function s now tg db
     = Ok (tt, set_audit_logs db (tbl_audit_logs db ++ [entry]))
     /\ audit_logs.table_name entry = TG_TABLE_NAME tg
     /\ audit_logs.operation entry = TG_OP tg
     /\ audit_logs.user_id entry = fst (current_user_info s)
     /\ audit_logs.created_at entry = Some now
     /\ ~ audit_step_fails s tg db)
  \/ (exists e, audit_trigger_function s now tg db = Err e /\ audit_step_fails s tg db).
Proof.
  unfold audit_trigger_function, audit_step_fails.
  destruct (current_user_info s) as [v_user_id v_user_email] eqn:Hu. simpl fst.
  unfold bind, require, read, write, ret, raise.
  destruct (app_client_ip s) eqn:Hip.
  - destruct (audit_insert_allowed s) eqn:Hrls;
      [| right; eexists; split; [reflexivity | tauto]].
    destruct (existsb (String.eqb (TG_TABLE_NAME tg)) record_id_tables) eqn:Htab.
    + destruct (COALESCE (row_id (NEW tg)) (row_id (OLD tg))) eqn:Hid; simpl.
      * destruct (user_exists db v_user_id) eqn:Hfk.
        -- left. eexists. split; [reflexivity |]. simpl. repeat split.
           intros [H | [H | [[_ H] | H]]]; discriminate.
        -- right. eexists. split; [reflexivity | tauto].
      * right. eexists. split; [reflexivity | tauto].
    + simpl. destruct (user_exists db v_user_id) eqn:Hfk.
      * left. eexists. split; [reflexivity |]. simpl. repeat split.
        intros [H | [H | [[H _] | H]]]; discriminate.
      * right. eexists. split; [reflexivity | tauto].
  - destruct (audit_insert_allowed s) eqn:Hrls;
      [| right; eexists; split; [reflexivity | tauto]].
    destruct (existsb (String.eqb (TG_TABLE_NAME tg)) record_id_tables) eqn:Htab.
    + destruct (COALESCE (row_id (NEW tg)) (row_id (OLD tg))) eqn:Hid; simpl.
      * destruct (user_exists db v_user_id) eqn:Hfk.
        -- left. eexists. split; [reflexivity |]. simpl. repeat split.
           intros [H | [H | [[_ H] | H]]]; discriminate.
        -- right. eexists. split; [reflexivity | tauto].
      * right. eexists. split; [reflexivity | tauto].
    + simpl. destruct (user_exists db v_user_id) eqn:Hfk.
      * left. eexists. split; [reflexivity |]. simpl. repeat split.
        intros [H | [H | [[H _] | H]]]; discriminate.
      * right. eexists. split; [reflexivity | tauto].
  - right. eexists. split; [reflexivity | tauto].
Qed.

Lemma trigger_data_of_table {R : Type} `{Tracked R} (c : row_change R) :
  TG_TABLE_NAME (trigger_data_of c) = table_name
  /\ TG_OP (trigger_data_of c) = operation_of c.
Proof. destruct c; split; reflexivity. Qed.

(** An audited statement is the change followed by the trigger. *)
Lemma audited_run {R : Type} `{Tracked R} (s : session) (now : timestamptz)
    (primary : sql (row_change R)) (db db1 : DB) (c : row_change R) :
  primary db = Ok (c, db1) ->
  audited s now primary db
  = match audit_trigger_function s now (trigger_data_of c) db1 with
    | Ok (_, db') => Ok (c, db')
    | Err e => Err e
    end.
Proof.
  intros Hp. unfold audited, bind. rewrite Hp.
  destruct (audit_trigger_function s now (trigger_data_of c) db1) as [[[] db'] | e];
    reflexivity.
Qed.

(** What a committed audited statement has done. *)
Lemma audited_ok {R : Type} `{Tracked R} (s : session) (now : timestamptz)
    (primary : sql (row_change R)) (db db' : DB) (c : row_change R) :
  audited s now primary db = Ok (c, db') ->
  exists db1 entry,
    primary db = Ok (c, db1)
    /\ db' = set_audit_logs db1 (tbl_audit_logs db1 ++ [entry])
    /\ audit_logs.table_name entry = table_name
    /\ audit_logs.operation entry = operation_of c
    /\ ~ audit_step_fails s (trigger_data_of c) db1.
Proof.
  intros Hrun.
  destruct (primary db) as [[c1 db1] |] eqn:Hp.
  - rewrite (audited_run s now primary db db1 c1 Hp) in Hrun.
    destruct (audit_trigger_function_outcome s now (trigger_data_of c1) db1)
      as [(entry & Hok & Ht & Ho & _ & _ & Hnf) | (e & Herr & _)].
    + rewrite Hok in Hrun. injection Hrun as -> <-.
      destruct (trigger_data_of_table c) as [Ht' Ho'].
      exists db1, entry. repeat split; first [congruence | exact Hnf].
    + rewrite Herr in Hrun. discriminate.
  - unfold audited, bind in Hrun. rewrite Hp in Hrun. discriminate.
Qed.



(* ================================================================== *)
(** * Support offers *)
(* ================================================================== *)

Lemma fold_max_ge (ids : list uuid) (u : uuid) :
  In u ids -> (u <= fold_right N.max 0 ids)%N.
Proof.
  induction ids as [| x ids IH]; simpl; intros H.
  - contradiction.
  - destruct H as [-> | H]; [lia | specialize (IH H); lia].
Qed.

(** A generated id is not among the stored ones. *)
Lemma fresh_uuid_not_in (ids : list uuid) : ~ In (fresh_uuid ids) ids.
Proof.
  intros H. apply fold_max_ge in H. unfold fresh_uuid in H. lia.
Qed.

(** The row [insert_support_offer] stores when it goes through. *)
Lemma insert_support_offer_ok (now : timestamptz)
    (p_route_schedule_id p_from_user_id p_to_user_id
     p_proposed_driver_id p_proposed_vehicle_id : option uuid)
    (p_message p_offer_type : option string)
    (db db1 : DB) (c : row_change support_offer.row) :
  insert_support_offer now p_route_schedule_id p_from_user_id p_to_user_id
    p_proposed_driver_id p_proposed_vehicle_id p_message p_offer_type db
  = Ok (c, db1) ->
  exists o,
    c = inserted o
    /\ tbl_support_offer db1 = tbl_support_offer db ++ [o]
    /\ support_offer.id o = fresh_uuid (map support_offer.id (tbl_support_offer db))
    /\ support_offer.proposed_driver_id o = p_proposed_driver_id
    /\ support_offer.proposed_vehicle_id o = p_proposed_vehicle_id
    /\ support_offer.message o = p_message
    /\ support_offer.status o = support_offer.Pending
    /\ support_offer.responded_at o = None
    /\ support_offer.created_at o = Some now
    /\ support_offer.expires_at o = Some (now + 24 * usec_per_hour).
Proof.
  unfold insert_support_offer, bind, read, require, raise, ret, write.
  destruct p_from_user_id as [from |]; [| discriminate].
  destruct p_offer_type as [ot |]; [| discriminate].
  destruct (support_offer.offer_type_of_text ot) as [t |]; [| discriminate].
  repeat match goal with
         | |- context [ if ?b then _ else _ ] => destruct b; [| discriminate]
         end.
  intros H. injection H as <- <-.
  eexists. split; [reflexivity |]. simpl. repeat split.
Qed.

Lemma create_support_offer_ok (s : session) (now : timestamptz)
    (p_route_schedule_id p_from_user_id p_to_user_id
     p_proposed_driver_id p_proposed_vehicle_id : option uuid)
    (p_message p_offer_type : option string)
    (db db' : DB) (v_offer_id : uuid) :
  create_support_offer s now p_route_schedule_id p_from_user_id p_to_user_id
    p_proposed_driver_id p_proposed_vehicle_id p_message p_offer_type db
  = Ok (v_offer_id, db') ->
  exists o,
    tbl_support_offer db' = tbl_support_offer db ++ [o]
    /\ support_offer.id o = v_offer_id
    /\ ~ In v_offer_id (map support_offer.id (tbl_support_offer db))
    /\ support_offer.proposed_driver_id o = p_proposed_driver_id
    /\ support_offer.proposed_vehicle_id o = p_proposed_vehicle_id
    /\ support_offer.message o = p_message
    /\ support_offer.status o = support_offer.Pending
    /\ support_offer.responded_at o = None
    /\ support_offer.created_at o = Some now
    /\ support_offer.expires_at o = Some (now + 24 * usec_per_hour).
Proof.
  unfold create_support_offer. unfold bind at 1.
  destruct (audited s now _ db) as [[c db2] | e] eqn:Ha; [| discriminate].
  apply audited_ok in Ha. destruct Ha as (db1 & entry & Hins & -> & _).
  apply insert_support_offer_ok in Hins.
  destruct Hins as (o & -> & Htbl & Hid & Hrest).
  unfold bind, write, ret. intros H. injection H as <- <-.
  exists o. simpl. split; [exact Htbl |]. split; [reflexivity |].
  split; [rewrite Hid; apply fresh_uuid_not_in | exact Hrest].
Qed.

Section SweepFacts.
Variables (t : timestamptz) (db : DB) (v : uuid).

Let touch (o : support_offer.row) : support_offer.row :=
  if Sweep.due t o then Sweep.expire o else o.

Lemma touch_id (o : support_offer.row) : support_offer.id (touch o) = support_offer.id o.
Proof. unfold touch. now destruct (Sweep.due t o). Qed.

(** The sweep changes rows in place: none is added or removed. *)
Lemma sweep_length :
  List.length (tbl_support_offer (snd (Sweep.sweep_expired_offers t db)))
  = List.length (tbl_support_offer db).
Proof. simpl. apply length_map. Qed.

Lemma sweep_get :
  get_support_offer (snd (Sweep.sweep_expired_offers t db)) v
  = option_map touch (get_support_offer db v).
Proof.
  unfold get_support_offer. simpl. fold touch.
  induction (tbl_support_offer db) as [| o l IH]; simpl.
  - reflexivity.
  - rewrite touch_id. destruct (support_offer.id o =? v)%N; [reflexivity | exact IH].
Qed.

(** How many times the sweep reports the offer [v]. *)
Lemma sweep_marked :
  count_occ N.eq_dec (fst (Sweep.sweep_expired_offers t db)) v
  = List.length (filter (fun o => N.eqb (support_offer.id o) v && Sweep.due t o)
                        (tbl_support_offer db)).
Proof.
  simpl. induction (tbl_support_offer db) as [| o l IH]; simpl.
  - reflexivity.
  - destruct (Sweep.due t o); simpl.
    + destruct (N.eq_dec (support_offer.id o) v) as [E | E].
      * apply N.eqb_eq in E. rewrite E. simpl. now rewrite IH.
      * apply N.eqb_neq in E. rewrite E. simpl. exact IH.
    + rewrite andb_false_r. exact IH.
Qed.

End SweepFacts.

Lemma count_with_id_app (p : support_offer.row -> bool) (l : list support_offer.row)
    (o : support_offer.row) :
  ~ In (support_offer.id o) (map support_offer.id l) ->
  List.length (filter (fun x => N.eqb (support_offer.id x) (support_offer.id o) && p x)
                      (l ++ [o]))
  = if p o then 1%nat else 0%nat.
Proof.
  intros Hfresh. rewrite filter_app, length_app.
  replace (filter _ l) with (@nil support_offer.row).
  - simpl. rewrite N.eqb_refl. simpl. now destruct (p o).
  - symmetry. apply filter_nil_iff. intros x Hx.
    replace (support_offer.id x =? support_offer.id o)%N with false; [reflexivity |].
    symmetry. apply N.eqb_neq. intros E. apply Hfresh. rewrite <- E. now apply in_map.
Qed.

Lemma find_fresh_app (l : list support_offer.row) (o : support_offer.row) :
  ~ In (support_offer.id o) (map support_offer.id l) ->
  find (fun r => N.eqb (support_offer.id r) (support_offer.id o)) (l ++ [o]) = Some o.
Proof.
  intros Hfresh. induction l as [| x l IH]; simpl.
  - now rewrite N.eqb_refl.
  - replace (support_offer.id x =? support_offer.id o)%N with false.
    + apply IH. intros H. apply Hfresh. now right.
    + symmetry. apply N.eqb_neq. intros E. apply Hfresh. left. exact E.
Qed.

Lemma count_with_id_app_map (p : support_offer.row -> bool)
    (f : support_offer.row -> support_offer.row) (l : list support_offer.row)
    (o : support_offer.row) :
  (forall x, support_offer.id (f x) = support_offer.id x) ->
  ~ In (support_offer.id o) (map support_offer.id l) ->
  List.length (filter (fun x => N.eqb (support_offer.id x) (support_offer.id o) && p x)
                      (map f (l ++ [o])))
  = if p (f o) then 1%nat else 0%nat.
Proof.
  intros Hf Hfresh. rewrite map_app. simpl. rewrite <- (Hf o).
  apply count_with_id_app. rewrite Hf, map_map.
  rewrite (map_ext _ support_offer.id) by exact Hf. exact Hfresh.
Qed.

(** C9.  An offer that [create_support_offer] stores expires exactly 24
    hours after its creation time, and retrieving it by the returned id
    yields the proposed driver, proposed vehicle and message that were
    supplied.  Left unanswered, a sweep run before the 24 hours are over
    leaves it as it is; a sweep run once they are over reports it exactly
    once and sets its status to Expired, keeping the row (no row is added
    or removed); any later sweep leaves it alone. *)
Theorem create_support_offer_expires_after_24h (s : session) (now : timestamptz)
    (p_route_schedule_id p_from_user_id p_to_user_id
     p_proposed_driver_id p_proposed_vehicle_id : option uuid)
    (p_message p_offer_type : option string)
    (db db' : DB) (v_offer_id : uuid) :
  create_support_offer s now p_route_schedule_id p_from_user_id p_to_user_id
    p_proposed_driver_id p_proposed_vehicle_id p_message p_offer_type db
  = Ok (v_offer_id, db') ->
  exists o,
    get_support_offer db' v_offer_id = Some o
    /\ support_offer.proposed_driver_id o = p_proposed_driver_id
    /\ support_offer.proposed_vehicle_id o = p_proposed_vehicle_id
    /\ support_offer.message o = p_message
    /\ support_offer.status o = support_offer.Pending
    /\ support_offer.created_at o = Some now
    /\ support_offer.expires_at o = Some (now + 24 * usec_per_hour)
    /\ (forall t,
          t < now + 24 * usec_per_hour ->
          let swept := Sweep.sweep_expired_offers t db' in
          count_occ N.eq_dec (fst swept) v_offer_id = 0%nat
          /\ get_support_offer (snd swept) v_offer_id = Some o)
    /\ (forall t,
          now + 24 * usec_per_hour <= t ->
          let swept := Sweep.sweep_expired_offers t db' in
          count_occ N.eq_dec (fst swept) v_offer_id = 1%nat
          /\ get_support_offer (snd swept) v_offer_id = Some (Sweep.expire o)
          /\ support_offer.status (Sweep.expire o) = support_offer.Expired
          /\ support_offer.proposed_driver_id (Sweep.expire o) = p_proposed_driver_id
          /\ support_offer.proposed_vehicle_id (Sweep.expire o) = p_proposed_vehicle_id
          /\ support_offer.message (Sweep.expire o) = p_message
          /\ List.length (tbl_support_offer (snd swept))
             = List.length (tbl_support_offer db')
          /\ forall t',
               let again := Sweep.sweep_expired_offers t' (snd swept) in
               count_occ N.eq_dec (fst again) v_offer_id = 0%nat
               /\ get_support_offer (snd again) v_offer_id = Some (Sweep.expire o)).
Proof.
  intros Hrun. apply create_support_offer_ok in Hrun.
  destruct Hrun as (o & Htbl & Hid & Hfresh & Hdrv & Hveh & Hmsg & Hst & Hresp & Hcr & Hexp).
  subst v_offer_id.
  assert (Hget : get_support_offer db' (support_offer.id o) = Some o).
  { unfold get_support_offer. rewrite Htbl. now apply find_fresh_app. }
  assert (Hdue : forall t, Sweep.due t o = (now + 24 * usec_per_hour <=? t)).
  { intros t. unfold Sweep.due. now rewrite Hst, Hresp, Hexp. }
  exists o. repeat (split; [assumption |]). split.
  - intros t Ht swept. unfold swept. split.
    + rewrite sweep_marked, Htbl, count_with_id_app by assumption.
      rewrite Hdue. now apply Z.leb_gt in Ht; rewrite Ht.
    + rewrite sweep_get, Hget. simpl. rewrite Hdue.
      now apply Z.leb_gt in Ht; rewrite Ht.
  - intros t Ht swept. unfold swept.
    assert (Hd : Sweep.due t o = true) by (rewrite Hdue; now apply Z.leb_le).
    assert (Hget1 : get_support_offer (snd (Sweep.sweep_expired_offers t db'))
                      (support_offer.id o) = Some (Sweep.expire o)).
    { rewrite sweep_get, Hget. simpl. now rewrite Hd. }
    split; [| split; [exact Hget1 | split; [reflexivity |]]].
    + rewrite sweep_marked, Htbl, count_with_id_app by assumption. now rewrite Hd.
    + split; [exact Hdrv |]. split; [exact Hveh |]. split; [exact Hmsg |].
      split; [apply sweep_length |].
      intros t'. cbv zeta. split.
      * rewrite sweep_marked. simpl tbl_support_offer. rewrite Htbl.
        rewrite (count_with_id_app_map (Sweep.due t')
                   (fun x => if Sweep.due t x then Sweep.expire x else x))
          by (try assumption; intros x; now destruct (Sweep.due t x)).
        now rewrite Hd.
      * rewrite sweep_get, Hget1. reflexivity.
Qed.

(** An offer created by the backend on Monday 2025-07-14 at 8:00. *)
Lemma create_support_offer_expires_after_24h_witness :
  exists v_offer_id db' o,
    create_support_offer Example.backend_session (Example.at_8am Example.monday)
      (Some 1%N) (Some 1%N) (Some 2%N) (Some 2%N) (Some 1%N)
      (Some "can help") (Some "Resource") Example.planning
    = Ok (v_offer_id, db')
    /\ get_support_offer db' v_offer_id = Some o
    /\ support_offer.proposed_driver_id o = Some 2%N
    /\ support_offer.proposed_vehicle_id o = Some 1%N
    /\ support_offer.message o = Some "can help"
    /\ support_offer.expires_at o
       = Some (Example.at_8am Example.monday + 24 * usec_per_hour).
Proof.
  assert (Hrun : exists v db',
            create_support_offer Example.backend_session (Example.at_8am Example.monday)
              (Some 1%N) (Some 1%N) (Some 2%N) (Some 2%N) (Some 1%N)
              (Some "can help") (Some "Resource") Example.planning
            = Ok (v, db')).
  { eexists. eexists. vm_compute. reflexivity. }
  destruct Hrun as (v & db' & Hrun).
  destruct (create_support_offer_expires_after_24h
              Example.backend_session (Example.at_8am Example.monday)
              (Some 1%N) (Some 1%N) (Some 2%N) (Some 2%N) (Some 1%N)
              (Some "can help") (Some "Resource") Example.planning db' v Hrun)
    as (o & Hget & Hd & Hv & Hm & _ & _ & He & _).
  exists v, db', o.
  split; [exact Hrun |]. repeat split; assumption.
Defined.

(* ================================================================== *)
(** * Route responsibility *)
(* ================================================================== *)

Lemma role_eqb_eq (a b : route_responsibility.role_t) :
  route_responsibility.role_eqb a b = true <-> a = b.
Proof. destruct a, b; simpl; split; congruence. Qed.

Lemma role_of_text_text (r : route_responsibility.role_t) :
  route_responsibility.role_of_text (route_responsibility.role_text r) = Some r.
Proof. now destruct r. Qed.

Lemma same_grant_eq (route user : uuid) (role : route_responsibility.role_t)
    (r : route_responsibility.row) :
  same_grant route user role r = true
  <-> route_responsibility.route_id r = route
      /\ route_responsibility.user_id r = user
      /\ route_responsibility.role r = role.
Proof.
  unfold same_grant. rewrite !andb_true_iff, !N.eqb_eq, role_eqb_eq. tauto.
Qed.

Lemma same_grant_of_key (x y : route_responsibility.row) :
  same_grant (route_responsibility.route_id x) (route_responsibility.user_id x)
             (route_responsibility.role x) y
  = same_grant (route_responsibility.route_id y) (route_responsibility.user_id y)
               (route_responsibility.role y) x.
Proof.
  destruct (same_grant _ _ _ y) eqn:E1; destruct (same_grant _ _ _ x) eqn:E2;
    try reflexivity.
  - apply same_grant_eq in E1. destruct E1 as (H1 & H2 & H3).
    rewrite <- E2. symmetry. apply same_grant_eq. auto.
  - apply same_grant_eq in E2. destruct E2 as (H1 & H2 & H3).
    rewrite <- E1. apply same_grant_eq. auto.
Qed.

Lemma same_grant_reactivate (now : timestamptz) (by_ : option uuid)
    (route user : uuid) (role : route_responsibility.role_t) (r : route_responsibility.row) :
  same_grant route user role (reactivate now by_ r) = same_grant route user role r.
Proof. reflexivity. Qed.

(** A change of rows that keeps their grants keeps the grants unique. *)
Lemma unique_grants_map (f : route_responsibility.row -> route_responsibility.row)
    (l : list route_responsibility.row) :
  (forall route user role r, same_grant route user role (f r) = same_grant route user role r) ->
  (forall r, route_responsibility.route_id (f r) = route_responsibility.route_id r
             /\ route_responsibility.user_id (f r) = route_responsibility.user_id r
             /\ route_responsibility.role (f r) = route_responsibility.role r) ->
  unique_grants l -> unique_grants (map f l).
Proof.
  intros Hf Hkey. induction l as [| x l IH]; simpl.
  - trivial.
  - intros [Hx Hl]. split; [| now apply IH].
    intros r' Hr'. apply in_map_iff in Hr'. destruct Hr' as [y [<- Hy]].
    destruct (Hkey x) as (-> & -> & ->). rewrite Hf. now apply Hx.
Qed.

(** A row with a grant no stored row has keeps the grants unique. *)
Lemma unique_grants_app (l : list route_responsibility.row) (row : route_responsibility.row) :
  unique_grants l ->
  (forall x, In x l ->
     same_grant (route_responsibility.route_id row) (route_responsibility.user_id row)
                (route_responsibility.role row) x = false) ->
  unique_grants (l ++ [row]).
Proof.
  induction l as [| x l IH]; simpl; intros Hl Hnew.
  - split; [intros r' [] | trivial].
  - destruct Hl as [Hx Hl]. split.
    + intros r' Hr'. apply in_app_or in Hr'. destruct Hr' as [Hr' | [<- | []]].
      * now apply Hx.
      * rewrite same_grant_of_key. apply Hnew. now left.
    + apply IH; [assumption |]. intros y Hy. apply Hnew. now right.
Qed.

(** With unique grants, the rows of a stored grant are that row alone. *)
Lemma unique_grants_filter (l : list route_responsibility.row)
    (route user : uuid) (role : route_responsibility.role_t) (x : route_responsibility.row) :
  unique_grants l -> In x l -> same_grant route user role x = true ->
  filter (same_grant route user role) l = [x].
Proof.
  intros Hl Hx Hg. apply same_grant_eq in Hg. destruct Hg as (<- & <- & <-).
  induction l as [| y l IH]; simpl in *.
  - contradiction.
  - destruct Hl as [Hy Hl]. destruct Hx as [-> | Hx].
    + replace (same_grant _ _ _ x) with true by (symmetry; now apply same_grant_eq).
      f_equal. apply filter_nil_iff. exact Hy.
    + replace (same_grant _ _ _ y) with false.
      * now apply IH.
      * symmetry. rewrite same_grant_of_key. now apply Hy.
Qed.

Lemma find_of_filter {A : Type} (p : A -> bool) (l : list A) (x : A) :
  filter p l = [x] -> find p l = Some x.
Proof.
  induction l as [| y l IH]; simpl.
  - discriminate.
  - destruct (p y); [intros H; injection H as -> _; reflexivity | exact IH].
Qed.

Lemma filter_map_commute {A : Type} (p : A -> bool) (f : A -> A) (l : list A) :
  (forall x, p (f x) = p x) ->
  filter p (map f l) = map f (filter p l).
Proof.
  intros H. induction l as [| x l IH]; simpl.
  - reflexivity.
  - rewrite H. destruct (p x); simpl; now rewrite IH.
Qed.

(** The two ways [upsert_route_responsibility] goes through. *)
Lemma upsert_route_responsibility_ok (now : timestamptz)
    (p_route_id p_user_id : option uuid) (p_role : option string)
    (p_assigned_by : option uuid) (db db1 : DB)
    (c : row_change route_responsibility.row) :
  upsert_route_responsibility now p_route_id p_user_id p_role p_assigned_by db
  = Ok (c, db1) ->
  exists route user role,
    (exists existing,
       find (same_grant route user role) (tbl_route_responsibility db) = Some existing
       /\ c = updated existing (reactivate now p_assigned_by existing)
       /\ tbl_route_responsibility db1
          = map (fun r => if same_grant route user role r
                          then reactivate now p_assigned_by r else r)
                (tbl_route_responsibility db))
    \/ (exists row,
          find (same_grant route user role) (tbl_route_responsibility db) = None
          /\ c = inserted row
          /\ route_responsibility.route_id row = route
          /\ route_responsibility.user_id row = user
          /\ route_responsibility.role row = role
          /\ tbl_route_responsibility db1 = tbl_route_responsibility db ++ [row]).
Proof.
  unfold upsert_route_responsibility, bind, read, raise, ret.
  destruct p_route_id as [route |]; [| discriminate].
  destruct p_user_id as [user |]; [| discriminate].
  destruct p_role as [rt |]; [| discriminate].
  destruct (route_responsibility.role_of_text rt) as [role |]; [| discriminate].
  intros H. exists route, user, role.
  destruct (find (same_grant route user role) (tbl_route_responsibility db))
    as [existing |] eqn:Hfind.
  - unfold bind, require, write, ret, raise in H.
    match type of H with
    | context [ if ?b then _ else _ ] => destruct b; [| discriminate]
    end.
    injection H as <- <-.
    left. exists existing. repeat split.
  - unfold bind, require, write, ret, raise in H.
    repeat match type of H with
           | context [ if ?b then _ else _ ] => destruct b; [| discriminate]
           end.
    injection H as <- <-.
    right. eexists. repeat split.
Qed.

Lemma audit_step_goes_through (s : session) (db db1 : DB)
    (c : row_change route_responsibility.row) :
  audit_writable s db ->
  tbl_users db1 = tbl_users db ->
  ~ audit_step_fails s (trigger_data_of c) db1.
Proof.
  intros (Hip & Hrls & Hfk) Husers [H | [H | [[_ H] | H]]].
  - contradiction.
  - congruence.
  - destruct c; simpl in H; discriminate.
  - unfold user_exists in *. rewrite Husers in H. congruence.
Qed.




(* ================================================================== *)
(** * Further facts: the detectors *)
(* ================================================================== *)

Lemma driver_conflicts_row (now : timestamptz) (sis : list schedule_instances.row)
    (c : conflict_checks.row) :
  In c (driver_conflicts now sis) ->
  conflict_checks.status c = conflict_checks.Open
  /\ conflict_checks.resolution_notes c = None
  /\ conflict_checks.resolved_at c = None
  /\ conflict_checks.created_at c = Some now
  /\ (2 <= List.length (conflict_checks.conflicting_schedules c))%nat
  /\ conflict_checks.severity c
     = conflict_severity (List.length (conflict_checks.conflicting_schedules c)).
Proof.
  unfold driver_conflicts, group_by. rewrite flat_map_map.
  intros H. apply in_flat_map in H. destruct H as [k [_ Hc]].
  simpl in Hc.
  match type of Hc with
  | In _ (if ?b then _ else _) => destruct b eqn:Hn
  end; [| contradiction].
  destruct Hc as [<- | []]. simpl. rewrite length_map.
  apply Nat.ltb_lt in Hn. repeat split. lia.
Qed.

Lemma vehicle_conflicts_row (now : timestamptz) (sis : list schedule_instances.row)
    (c : conflict_checks.row) :
  In c (vehicle_conflicts now sis) ->
  conflict_checks.status c = conflict_checks.Open
  /\ conflict_checks.resolution_notes c = None
  /\ conflict_checks.resolved_at c = None
  /\ conflict_checks.created_at c = Some now
  /\ (2 <= List.length (conflict_checks.conflicting_schedules c))%nat
  /\ conflict_checks.severity c
     = conflict_severity (List.length (conflict_checks.conflicting_schedules c)).
Proof.
  unfold vehicle_conflicts, group_by. rewrite flat_map_map.
  intros H. apply in_flat_map in H. destruct H as [k [_ Hc]].
  simpl in Hc.
  match type of Hc with
  | In _ (if ?b then _ else _) => destruct b eqn:Hn
  end; [| contradiction].
  destruct Hc as [<- | []]. simpl. rewrite length_map.
  apply Nat.ltb_lt in Hn. repeat split. lia.
Qed.

(** X5.  Whatever [conflict_checks] held before, after a run every row of
    the current date is freshly written: its status is Open with no
    resolution notes and no resolution time (a resolution recorded earlier
    that day is gone), it is stamped with the time of the run, it names at
    least two occurrences, and its severity is High exactly when it names
    more than two, Medium otherwise (never Low). *)
Theorem detect_schedule_conflicts_resets_resolution (now : timestamptz) (db : DB)
    (c : conflict_checks.row) :
  In c (conflicts_on (CURRENT_DATE now) (detect_schedule_conflicts now db)) ->
  conflict_checks.status c = conflict_checks.Open
  /\ conflict_checks.resolution_notes c = None
  /\ conflict_checks.resolved_at c = None
  /\ conflict_checks.created_at c = Some now
  /\ (2 <= List.length (conflict_checks.conflicting_schedules c))%nat
  /\ (conflict_checks.severity c = conflict_checks.High
      <-> (2 < List.length (conflict_checks.conflicting_schedules c))%nat)
  /\ (conflict_checks.severity c = conflict_checks.Medium
      <-> List.length (conflict_checks.conflicting_schedules c) = 2%nat)
  /\ conflict_checks.conflict_type c <> conflict_checks.Time_Conflict.
Proof.
  intros Hc. apply conflicts_on_after_In in Hc.
  assert (H : conflict_checks.status c = conflict_checks.Open
              /\ conflict_checks.resolution_notes c = None
              /\ conflict_checks.resolved_at c = None
              /\ conflict_checks.created_at c = Some now
              /\ (2 <= List.length (conflict_checks.conflicting_schedules c))%nat
              /\ conflict_checks.severity c
                 = conflict_severity (List.length (conflict_checks.conflicting_schedules c))
              /\ conflict_checks.conflict_type c <> conflict_checks.Time_Conflict).
  { apply in_app_or in Hc. destruct Hc as [Hc | Hc].
    - pose proof (driver_conflicts_shape _ _ _ Hc) as (_ & _ & Ht & _).
      apply driver_conflicts_row in Hc. simpl in *.
      destruct Hc as (H1 & H2 & H3 & H4 & H5 & H6).
      repeat split; try assumption. rewrite Ht. discriminate.
    - pose proof (vehicle_conflicts_shape _ _ _ Hc) as (_ & _ & Ht & _).
      apply vehicle_conflicts_row in Hc. simpl in *.
      destruct Hc as (H1 & H2 & H3 & H4 & H5 & H6).
      repeat split; try assumption. rewrite Ht. discriminate. }
  destruct H as (H1 & H2 & H3 & H4 & H5 & H6 & H7).
  repeat split; try assumption.
  - intros Hs. rewrite H6 in Hs. unfold conflict_severity in Hs.
    destruct (Nat.ltb_spec 2 (List.length (conflict_checks.conflicting_schedules c)));
      [assumption | discriminate].
  - intros Hn. rewrite H6. unfold conflict_severity.
    apply Nat.ltb_lt in Hn. now rewrite Hn.
  - intros Hs. rewrite H6 in Hs. unfold conflict_severity in Hs.
    destruct (Nat.ltb_spec 2 (List.length (conflict_checks.conflicting_schedules c)));
      [discriminate | lia].
  - intros Hn. rewrite H6, Hn. reflexivity.
Qed.

(** The conflict of [Example.three_bookings] had been marked resolved
    earlier in the day; the next run writes it as Open again. *)
Lemma detect_schedule_conflicts_resets_resolution_witness :
  exists c,
    In c (conflicts_on (CURRENT_DATE (Example.at_9am Example.monday))
            (detect_schedule_conflicts (Example.at_9am Example.monday)
               (set_conflict_checks Example.three_bookings
                  [conflict_checks.mk 7 Example.monday (Some 1%N) None [11%N; 12%N; 13%N]
                     conflict_checks.Driver_Overlap conflict_checks.High
                     conflict_checks.Resolved (Some "driver swapped")
                     (Some (Example.at_8am Example.monday))
                     (Some (Example.at_8am Example.monday))])))
    /\ conflict_checks.status c = conflict_checks.Open
    /\ conflict_checks.resolution_notes c = None.
Proof.
  eexists. split; [vm_compute; left; reflexivity |].
  match goal with
  | |- conflict_checks.status ?c = _ /\ _ =>
      destruct (detect_schedule_conflicts_resets_resolution
                  (Example.at_9am Example.monday)
                  (set_conflict_checks Example.three_bookings
                     [conflict_checks.mk 7 Example.monday (Some 1%N) None [11%N; 12%N; 13%N]
                        conflict_checks.Driver_Overlap conflict_checks.High
                        conflict_checks.Resolved (Some "driver swapped")
                        (Some (Example.at_8am Example.monday))
                        (Some (Example.at_8am Example.monday))])
                  c) as (H1 & H2 & _)
  end.
  - vm_compute. left. reflexivity.
  - split; assumption.
Defined.

Lemma cross_day_alerts_row (now : timestamptz) (db : DB) (a : route_alerts.row) :
  In a (cross_day_alerts now db) ->
  route_alerts.is_read a = Some false
  /\ route_alerts.read_at a = None
  /\ route_alerts.created_at a = Some now
  /\ route_alerts.severity a = route_alerts.Medium
  /\ route_alerts.route_schedule_id a = None.
Proof.
  unfold cross_day_alerts. intros Ha.
  repeat (apply in_flat_map in Ha; destruct Ha as [? [? Ha]]).
  match type of Ha with
  | In _ (if ?b then _ else _) => destruct b
  end; [| contradiction].
  destruct Ha as [<- | []]. repeat split.
Qed.

(** The alerts selected say the same whenever the clock shows the same
    date, their timestamp apart. *)
Lemma cross_day_alerts_same_day (now now' : timestamptz) (db : DB) :
  CURRENT_DATE now' = CURRENT_DATE now ->
  map alert_record_of (cross_day_alerts now' db)
  = map alert_record_of (cross_day_alerts now db).
Proof.
  intros H. unfold cross_day_alerts. rewrite H, !map_flat_map.
  apply flat_map_ext. intros si. rewrite !map_flat_map.
  apply flat_map_ext. intros rs. rewrite !map_flat_map.
  apply flat_map_ext. intros r.
  destruct (cross_day_where (CURRENT_DATE now) si); reflexivity.
Qed.

Lemma cross_day_alerts_of_today_after (now : timestamptz) (db : DB) :
  map alert_record_of
      (filter (cross_day_alert_of_today (CURRENT_DATE now))
              (tbl_route_alerts (detect_cross_day_conflict now db)))
  = map alert_record_of (cross_day_alerts now db).
Proof.
  unfold detect_cross_day_conflict. simpl.
  rewrite (insert_rows_view route_alerts.id alert_with_id alert_record_of
             (cross_day_alert_of_today (CURRENT_DATE now)))
    by reflexivity.
  rewrite filter_filter.
  match goal with
  | |- map _ (filter ?p ?t) ++ _ = _ => assert (E : filter p t = [])
  end.
  { apply filter_nil_iff. intros a _.
    now destruct (cross_day_alert_of_today (CURRENT_DATE now) a). }
  rewrite E. simpl. f_equal. apply filter_all.
  intros a Ha. now apply cross_day_alerts_shape in Ha.
Qed.

(** X6.  The cross-day check replaces the TimeCrossDay alerts created on
    the current date and nothing else.  Every alert of another type is
    kept as it was and in place, whenever it was created; so is every
    alert that was not created on the current date (created on another
    day, or without timestamp), whatever its type.  The TimeCrossDay
    alerts of the day are, after the run, unread and stamped with the time
    of the run; and a second run on the same date, the schedule data
    unchanged, leaves the same alerts of the day (ids and timestamps
    apart): they do not pile up. *)
Theorem detect_cross_day_conflict_replaces_alerts (now now' : timestamptz) (db : DB) :
  CURRENT_DATE now' = CURRENT_DATE now ->
  let today := CURRENT_DATE now in
  let db1 := detect_cross_day_conflict now db in
  let db2 := detect_cross_day_conflict now' db1 in
  let of_the_day := fun a => is_cross_day a && created_on today a in
  filter (fun a => negb (is_cross_day a)) (tbl_route_alerts db1)
  = filter (fun a => negb (is_cross_day a)) (tbl_route_alerts db)
  /\ filter (fun a => negb (created_on today a)) (tbl_route_alerts db1)
     = filter (fun a => negb (created_on today a)) (tbl_route_alerts db)
  /\ (forall a,
        In a (tbl_route_alerts db) ->
        is_cross_day a = false \/ created_on today a = false ->
        In a (tbl_route_alerts db1))
  /\ (forall a,
        In a (filter of_the_day (tbl_route_alerts db1)) ->
        route_alerts.is_read a = Some false
        /\ route_alerts.created_at a = Some now)
  /\ map alert_record_of (filter of_the_day (tbl_route_alerts db2))
     = map alert_record_of (filter of_the_day (tbl_route_alerts db1))
  /\ List.length (filter of_the_day (tbl_route_alerts db2))
     = List.length (filter of_the_day (tbl_route_alerts db1))
  /\ tbl_schedule_instances db1 = tbl_schedule_instances db.
Proof.
  intros Hday today db1 db2 of_the_day.
  assert (Hof : forall t, filter of_the_day t = filter (cross_day_alert_of_today today) t).
  { intros t. apply filter_ext. intros a. unfold of_the_day.
    now rewrite cross_day_alert_of_today_spec. }
  rewrite !Hof.
  assert (Hkeep : forall q : route_alerts.row -> bool,
            (forall u a, q (alert_with_id u a) = q a) ->
            (forall a, q a = true -> cross_day_alert_of_today today a = false) ->
            filter q (tbl_route_alerts db1) = filter q (tbl_route_alerts db)).
  { intros q Hq Hout. unfold db1, detect_cross_day_conflict. simpl. fold today.
    rewrite insert_rows_filter_out.
    - rewrite filter_filter. apply filter_ext. intros a.
      destruct (q a) eqn:E; [now rewrite (Hout a E) | apply andb_false_r].
    - intros u a Ha. apply cross_day_alerts_shape in Ha. destruct Ha as [_ Ha].
      fold today in Ha. rewrite Hq.
      destruct (q a) eqn:E; [| reflexivity]. rewrite (Hout a E) in Ha. discriminate. }
  assert (Hsame : map alert_record_of
                    (filter (cross_day_alert_of_today today) (tbl_route_alerts db2))
                  = map alert_record_of
                      (filter (cross_day_alert_of_today today) (tbl_route_alerts db1))).
  { transitivity (map alert_record_of (cross_day_alerts now' db1)).
    - unfold db2, today. rewrite <- Hday. apply cross_day_alerts_of_today_after.
    - rewrite (cross_day_alerts_same_day now now' db1 Hday).
      unfold today, db1. rewrite cross_day_alerts_of_today_after. reflexivity. }
  assert (Htype : filter (fun a => negb (is_cross_day a)) (tbl_route_alerts db1)
                  = filter (fun a => negb (is_cross_day a)) (tbl_route_alerts db)).
  { apply Hkeep; [reflexivity |]. intros a Ha.
    rewrite cross_day_alert_of_today_spec. apply negb_true_iff in Ha. now rewrite Ha. }
  assert (Hdate : filter (fun a => negb (created_on today a)) (tbl_route_alerts db1)
                  = filter (fun a => negb (created_on today a)) (tbl_route_alerts db)).
  { apply Hkeep; [reflexivity |]. intros a Ha.
    rewrite cross_day_alert_of_today_spec. apply negb_true_iff in Ha.
    rewrite Ha. apply andb_false_r. }
  split; [exact Htype |]. split; [exact Hdate |].
  split; [| split; [| split; [exact Hsame | split; [| reflexivity]]]].
  - intros a Hin [H | H].
    + assert (Ha : In a (filter (fun a => negb (is_cross_day a)) (tbl_route_alerts db)))
        by (apply filter_In; split; [assumption | now rewrite H]).
      rewrite <- Htype in Ha. apply filter_In in Ha. tauto.
    + assert (Ha : In a (filter (fun a => negb (created_on today a)) (tbl_route_alerts db)))
        by (apply filter_In; split; [assumption | now rewrite H]).
      rewrite <- Hdate in Ha. apply filter_In in Ha. tauto.
  - intros a Ha. apply filter_In in Ha. destruct Ha as [Hin Hp].
    assert (Hv : In (alert_with_id 0 a)
                   (map (alert_with_id 0)
                      (filter (cross_day_alert_of_today today) (tbl_route_alerts db1)))).
    { apply in_map, filter_In. split; assumption. }
    unfold db1, detect_cross_day_conflict in Hv. simpl in Hv. fold today in Hv.
    rewrite (insert_rows_view route_alerts.id alert_with_id (alert_with_id 0)
               (cross_day_alert_of_today today) (alert_with_id_idem 0)) in Hv
      by reflexivity.
    rewrite filter_filter in Hv.
    match type of Hv with
    | In _ (map _ (filter ?p ?t) ++ _) => assert (E : filter p t = [])
    end.
    { apply filter_nil_iff. intros x _.
      now destruct (cross_day_alert_of_today today x). }
    rewrite E in Hv. simpl in Hv.
    apply in_map_iff in Hv. destruct Hv as [x [Ex Hx]].
    apply filter_In in Hx. destruct Hx as [Hx _].
    apply cross_day_alerts_row in Hx. destruct Hx as (H1 & _ & H3 & _).
    assert (Hr : route_alerts.is_read a = route_alerts.is_read x)
      by (apply (f_equal route_alerts.is_read) in Ex; symmetry; exact Ex).
    assert (Hc : route_alerts.created_at a = route_alerts.created_at x)
      by (apply (f_equal route_alerts.created_at) in Ex; symmetry; exact Ex).
    split; congruence.
  - apply (f_equal (@List.length _)) in Hsame. now rewrite !length_map in Hsame.
Qed.

(** Two checks on the Monday of [Example.noticed], an hour apart: the
    notification and the offer alert stored before are kept, the cross-day
    alert of the occurrence is there once. *)
Lemma detect_cross_day_conflict_replaces_alerts_witness :
  let now := Example.at_8am Example.monday in
  let db2 := detect_cross_day_conflict (Example.at_9am Example.monday)
               (detect_cross_day_conflict now Example.noticed) in
  filter (fun a => negb (is_cross_day a))
         (tbl_route_alerts (detect_cross_day_conflict now Example.noticed))
  = tbl_route_alerts Example.noticed
  /\ List.length (tbl_route_alerts Example.noticed) = 2%nat
  /\ List.length
       (filter (fun a => is_cross_day a && created_on (CURRENT_DATE now) a)
               (tbl_route_alerts db2))
     = List.length
         (filter (fun a => is_cross_day a && created_on (CURRENT_DATE now) a)
                 (tbl_route_alerts (detect_cross_day_conflict now Example.noticed))).
Proof.
  cbv zeta.
  destruct (detect_cross_day_conflict_replaces_alerts
              (Example.at_8am Example.monday) (Example.at_9am Example.monday)
              Example.noticed eq_refl)
    as (Htype & _ & _ & _ & _ & Hlen & _).
  split; [rewrite Htype; reflexivity |]. split; [reflexivity | exact Hlen].
Defined.

(** X7.  The cross-day check raises nothing for a persisted occurrence
    whose standby date or departure date is NULL (even when the other one
    is another day than the schedule date), whose deletion flag is not
    false, or whose schedule date is not the current date. *)
Theorem detect_cross_day_conflict_skips (now : timestamptz) (db : DB)
    (si : schedule_instances.row) (rs : route_schedules.row) (r : routes.row) :
  primary_key schedule_instances.id (tbl_schedule_instances db) ->
  primary_key route_schedules.id (tbl_route_schedules db) ->
  primary_key routes.id (tbl_routes db) ->
  In si (tbl_schedule_instances db) ->
  In rs (tbl_route_schedules db) ->
  route_schedules.id rs = schedule_instances.route_schedule_id si ->
  In r (tbl_routes db) ->
  routes.id r = route_schedules.route_id rs ->
  schedule_instances.standby_date si = None
  \/ schedule_instances.departure_date si = None
  \/ schedule_instances.is_deleted si <> Some false
  \/ schedule_instances.schedule_date si <> CURRENT_DATE now ->
  cross_day_alerts_for (CURRENT_DATE now) (schedule_instances.id si)
    (detect_cross_day_conflict now db) = [].
Proof.
  intros Hsi_pk Hrs_pk Hr_pk Hsi Hrs Hrs_id Hr Hr_id Hskip.
  apply (map_eq_nil (alert_with_id 0)).
  rewrite cross_day_alerts_for_after.
  rewrite (cross_day_alerts_of now db si rs r) by assumption.
  replace (cross_day_where (CURRENT_DATE now) si) with false; [reflexivity |].
  symmetry. unfold cross_day_where.
  destruct Hskip as [H | [H | [H | H]]].
  - rewrite H. simpl. now rewrite andb_false_r.
  - rewrite H. destruct (schedule_instances.standby_date si); simpl;
      now rewrite andb_false_r.
  - destruct (schedule_instances.is_deleted si) as [[|] |]; simpl;
      try apply andb_false_r. contradiction.
  - apply Z.eqb_neq in H. now rewrite H.
Qed.

(** An occurrence of Monday with no standby date stored and a departure
    on the Tuesday. *)
Lemma detect_cross_day_conflict_skips_witness :
  cross_day_alerts_for (CURRENT_DATE (Example.at_8am Example.monday)) 21
    (detect_cross_day_conflict (Example.at_8am Example.monday)
       (Example.with_schedules Example.base
          [Example.template 1 None Example.monday Example.monday]
          [Example.instance 21 1 Example.monday (Some 1%N) None
             (Some (Example.monday + 1)) false]))
  = [].
Proof.
  assert (Hnd3 : NoDup [1%N; 2%N; 3%N])
    by (repeat constructor; simpl; intuition discriminate).
  assert (Hnd1 : forall x : N, NoDup [x])
    by (intros x; repeat constructor; simpl; tauto).
  apply (detect_cross_day_conflict_skips
           (Example.at_8am Example.monday)
           (Example.with_schedules Example.base
              [Example.template 1 None Example.monday Example.monday]
              [Example.instance 21 1 Example.monday (Some 1%N) None
                 (Some (Example.monday + 1)) false])
           (Example.instance 21 1 Example.monday (Some 1%N) None
              (Some (Example.monday + 1)) false)
           (Example.template 1 None Example.monday Example.monday)
           (routes.mk 1 "RTE000001" "North loop" None (Some "North"))).
  - exact (Hnd1 21%N).
  - exact (Hnd1 1%N).
  - exact Hnd3.
  - simpl. auto.
  - simpl. auto.
  - reflexivity.
  - simpl. auto.
  - reflexivity.
  - left. reflexivity.
Defined.

(* ================================================================== *)
(** * Further facts: the audit record *)
(* ================================================================== *)

(** The row the trigger writes when it goes through. *)
Lemma audit_trigger_function_entry (s : session) (now : timestamptz)
    (tg : trigger_data) (db db' : DB) (u : unit) :
  audit_trigger_function s now tg db = Ok (u, db') ->
  exists entry,
    db' = set_audit_logs db (tbl_audit_logs db ++ [entry])
    /\ audit_logs.table_name entry = TG_TABLE_NAME tg
    /\ audit_logs.operation entry = TG_OP tg
    /\ Some (audit_logs.record_id entry)
       = (if existsb (String.eqb (TG_TABLE_NAME tg)) record_id_tables
          then option_map audit_logs.id_text
                 (COALESCE (row_id (NEW tg)) (row_id (OLD tg)))
          else Some audit_logs.unknown)
    /\ audit_logs.old_values entry
       = match TG_OP tg with audit_logs.INSERT => None | _ => OLD tg end
    /\ audit_logs.new_values entry
       = match TG_OP tg with audit_logs.DELETE => None | _ => NEW tg end
    /\ audit_logs.changed_fields entry
       = match TG_OP tg with
         | audit_logs.UPDATE =>
             Some match OLD tg, NEW tg with
                  | Some o, Some n => changed_fields_of o n
                  | _, _ => []
                  end
         | _ => None
         end
    /\ (audit_logs.user_id entry, audit_logs.user_email entry) = current_user_info s
    /\ user_exists db (fst (current_user_info s)) = true
    /\ audit_logs.created_at entry = Some now.
Proof.
  unfold audit_trigger_function.
  destruct (current_user_info s) as [v_user_id v_user_email] eqn:Hu.
  unfold bind, require, read, write, ret, raise.
  destruct (app_client_ip s) eqn:Hip; [| | discriminate];
    (destruct (audit_insert_allowed s); [| discriminate]);
    (destruct (existsb (String.eqb (TG_TABLE_NAME tg)) record_id_tables);
     [destruct (COALESCE (row_id (NEW tg)) (row_id (OLD tg))); simpl; [| discriminate]
     | simpl]);
    (destruct (user_exists db v_user_id) eqn:Hfk; [| discriminate]);
    intros H; injection H as _ <-; eexists; (split; [reflexivity |]); simpl;
    destruct (TG_OP tg), (OLD tg), (NEW tg); repeat split.
Qed.

Lemma listed_table (name : string) :
  existsb (String.eqb name) record_id_tables = true <-> In name record_id_tables.
Proof.
  rewrite existsb_exists. split.
  - intros (x & Hx & E). apply String.eqb_eq in E. now subst.
  - intros H. exists name. split; [assumption | apply String.eqb_refl].
Qed.

(** X8.  What an audit record says of the row and of the actor.  For a
    table the trigger function lists, the record carries the id of the new
    row, or of the old row when there is no new one; for any other table
    with the trigger (license_types of the follow-up migration) it carries
    'unknown', whatever the row.  When app.current_user_id is not a uuid
    the record names no user and no e-mail, even if app.current_user_email
    is set; when it is a uuid, it is the id of a stored user and the e-mail
    is the one of the session. *)
Theorem audit_trigger_function_identifies (s : session) (now : timestamptz)
    (tg : trigger_data) (db db' : DB) (u : unit) :
  audit_trigger_function s now tg db = Ok (u, db') ->
  exists entry,
    tbl_audit_logs db' = tbl_audit_logs db ++ [entry]
    /\ (In (TG_TABLE_NAME tg) record_id_tables ->
        exists x,
          audit_logs.record_id entry = audit_logs.id_text x
          /\ (row_id (NEW tg) = Some x
              \/ row_id (NEW tg) = None /\ row_id (OLD tg) = Some x))
    /\ (~ In (TG_TABLE_NAME tg) record_id_tables ->
        audit_logs.record_id entry = audit_logs.unknown)
    /\ (app_current_user_id s = malformed ->
        audit_logs.user_id entry = None /\ audit_logs.user_email entry = None)
    /\ (forall x, app_current_user_id s = valid x ->
        audit_logs.user_id entry = Some x
        /\ In x (map users.id (tbl_users db))
        /\ audit_logs.user_email entry = app_current_user_email s)
    /\ (app_current_user_id s = unset ->
        audit_logs.user_id entry = None
        /\ audit_logs.user_email entry = app_current_user_email s).
Proof.
  intros Hrun. apply audit_trigger_function_entry in Hrun.
  destruct Hrun as (entry & -> & _ & _ & Hid & _ & _ & _ & Hwho & Hfk & _).
  exists entry. split; [reflexivity |].
  split; [| split; [| split; [| split]]].
  - intros Hin. apply listed_table in Hin. rewrite Hin in Hid.
    destruct (row_id (NEW tg)) as [x |] eqn:Hnew; simpl in Hid.
    + exists x. split; [congruence | now left].
    + destruct (row_id (OLD tg)) as [x |] eqn:Hold; simpl in Hid; [| discriminate].
      exists x. split; [congruence | now right].
  - intros Hout.
    destruct (existsb (String.eqb (TG_TABLE_NAME tg)) record_id_tables) eqn:E.
    + apply listed_table in E. contradiction.
    + congruence.
  - intros Hbad. unfold current_user_info in Hwho. rewrite Hbad in Hwho.
    split; congruence.
  - intros x Hx. unfold current_user_info in Hwho, Hfk. rewrite Hx in Hwho, Hfk.
    split; [congruence |]. split; [| congruence].
    simpl in Hfk. apply existsb_exists in Hfk. destruct Hfk as (r & Hr & E).
    apply N.eqb_eq in E. subst x. now apply in_map.
  - intros Hun. unfold current_user_info in Hwho. rewrite Hun in Hwho.
    split; congruence.
Qed.

(** The insertion of a licence type with id 7 by the backend. *)
Lemma audit_trigger_function_identifies_witness :
  exists db' entry,
    audit_trigger_function Example.backend_session (Example.at_8am Example.monday)
      (mkTrigger "license_types" audit_logs.INSERT None
         (Some [("id", JUuid 7); ("license_code", JText "B2")]))
      Example.base
    = Ok (tt, db')
    /\ tbl_audit_logs db' = [entry]
    /\ audit_logs.record_id entry = audit_logs.unknown.
Proof.
  assert (Hrun : exists db',
            audit_trigger_function Example.backend_session
              (Example.at_8am Example.monday)
              (mkTrigger "license_types" audit_logs.INSERT None
                 (Some [("id", JUuid 7); ("license_code", JText "B2")]))
              Example.base
            = Ok (tt, db')).
  { eexists. vm_compute. reflexivity. }
  destruct Hrun as (db' & Hrun).
  destruct (audit_trigger_function_identifies _ _ _ _ _ _ Hrun)
    as (entry & Htbl & _ & Hunknown & _).
  exists db', entry. split; [exact Hrun |]. split; [exact Htbl |].
  apply Hunknown. simpl. intros H.
  repeat (destruct H as [H | H]; [discriminate |]). exact H.
Defined.

(* ================================================================== *)
(** * Further facts: support offers *)
(* ================================================================== *)

(** The insert of an offer goes through exactly when the table accepts
    it. *)
Lemma insert_support_offer_accepts (now : timestamptz)
    (p_route_schedule_id p_from_user_id p_to_user_id
     p_proposed_driver_id p_proposed_vehicle_id : option uuid)
    (p_message p_offer_type : option string) (db : DB) :
  offer_acceptable db p_route_schedule_id p_from_user_id p_to_user_id
    p_proposed_driver_id p_proposed_vehicle_id p_offer_type ->
  exists o,
    insert_support_offer now p_route_schedule_id p_from_user_id p_to_user_id
      p_proposed_driver_id p_proposed_vehicle_id p_message p_offer_type db
    = Ok (inserted o,
          set_support_offer db (tbl_support_offer db ++ [o])
            (seq_support_offer_num db + 1)%N).
Proof.
  intros ((from & -> & Hfrom) & (t & ty & -> & Hty) & Hcode & Hrs & Hto & Hd & Hv).
  unfold insert_support_offer, bind, read, require, raise, ret, write. cbv zeta.
  rewrite Hty, Hcode, Hrs, Hfrom, Hto, Hd, Hv. simpl.
  eexists. reflexivity.
Qed.

Lemma insert_support_offer_acceptable (now : timestamptz)
    (p_route_schedule_id p_from_user_id p_to_user_id
     p_proposed_driver_id p_proposed_vehicle_id : option uuid)
    (p_message p_offer_type : option string)
    (db db1 : DB) (c : row_change support_offer.row) :
  insert_support_offer now p_route_schedule_id p_from_user_id p_to_user_id
    p_proposed_driver_id p_proposed_vehicle_id p_message p_offer_type db
  = Ok (c, db1) ->
  offer_acceptable db p_route_schedule_id p_from_user_id p_to_user_id
    p_proposed_driver_id p_proposed_vehicle_id p_offer_type.
Proof.
  unfold insert_support_offer, bind, read, require, raise, ret, write,
    offer_acceptable. cbv zeta.
  destruct p_from_user_id as [from |]; [| discriminate].
  destruct p_offer_type as [ot |]; [| discriminate].
  destruct (support_offer.offer_type_of_text ot) as [t |] eqn:Hty; [| discriminate].
  destruct (existsb _ (tbl_support_offer db)) eqn:Hcode; [discriminate |].
  cbn [negb].
  destruct (id_exists route_schedules.id _ p_route_schedule_id) eqn:Hrs;
    [| discriminate].
  destruct (user_exists db (Some from)) eqn:Hfrom; [| discriminate].
  destruct (user_exists db p_to_user_id) eqn:Hto; [| discriminate].
  destruct (id_exists drivers.id _ p_proposed_driver_id) eqn:Hd; [| discriminate].
  destruct (id_exists vehicles.id _ p_proposed_vehicle_id) eqn:Hv; [| discriminate].
  intros _. split; [exists from; auto |]. split; [exists ot, t; auto |].
  repeat split; reflexivity.
Qed.

(** With the users unchanged and a row that has an id, the audit step goes
    through exactly in a session that can write the audit record. *)
Lemma audit_step_of_writable (s : session) (tg : trigger_data) (db db1 : DB) :
  tbl_users db1 = tbl_users db ->
  COALESCE (row_id (NEW tg)) (row_id (OLD tg)) <> None ->
  (~ audit_step_fails s tg db1 <-> audit_writable s db).
Proof.
  intros Husers Hid. unfold audit_step_fails, audit_writable.
  assert (E : user_exists db1 (fst (current_user_info s))
              = user_exists db (fst (current_user_info s)))
    by (unfold user_exists; now rewrite Husers).
  rewrite E. split.
  - intros Hnf. split; [| split].
    + intros H. apply Hnf. now left.
    + destruct (audit_insert_allowed s); [reflexivity |].
      exfalso. apply Hnf. right. now left.
    + destruct (user_exists db (fst (current_user_info s))); [reflexivity |].
      exfalso. apply Hnf. right. right. now right.
  - intros (Hip & Hrls & Hfk) [H | [H | [[_ H] | H]]]; congruence.
Qed.

Lemma offer_has_id (o : support_offer.row) :
  row_id (NEW (trigger_data_of (inserted o))) = Some (support_offer.id o).
Proof. reflexivity. Qed.

(** X9.  [create_support_offer] goes through exactly when the table
    accepts the offer (a sender who is a user, a valid offer type, the next
    offer code free, every reference given found) and the session can write
    the audit record; otherwise it raises, and neither the offer nor the
    alert is stored. *)
Theorem create_support_offer_succeeds_iff (s : session) (now : timestamptz)
    (p_route_schedule_id p_from_user_id p_to_user_id
     p_proposed_driver_id p_proposed_vehicle_id : option uuid)
    (p_message p_offer_type : option string) (db : DB) :
  (exists v db',
     create_support_offer s now p_route_schedule_id p_from_user_id p_to_user_id
       p_proposed_driver_id p_proposed_vehicle_id p_message p_offer_type db
     = Ok (v, db'))
  <-> offer_acceptable db p_route_schedule_id p_from_user_id p_to_user_id
        p_proposed_driver_id p_proposed_vehicle_id p_offer_type
      /\ audit_writable s db.
Proof.
  split.
  - intros (v & db' & Hrun). unfold create_support_offer in Hrun.
    unfold bind at 1 in Hrun.
    destruct (audited s now _ db) as [[c db2] | e] eqn:Ha; [| discriminate].
    apply audited_ok in Ha. destruct Ha as (db1 & entry & Hins & _ & _ & _ & Hnf).
    assert (Hacc := insert_support_offer_acceptable _ _ _ _ _ _ _ _ _ _ _ Hins).
    split; [exact Hacc |].
    destruct (insert_support_offer_accepts now _ _ _ _ _ p_message _ _ Hacc)
      as (o & Hins').
    rewrite Hins' in Hins. injection Hins as <- <-.
    apply (audit_step_of_writable s (trigger_data_of (inserted o)) db) in Hnf.
    + exact Hnf.
    + reflexivity.
    + rewrite offer_has_id. discriminate.
  - intros (Hacc & Haudit).
    destruct (insert_support_offer_accepts now _ _ _ _ _ p_message _ _ Hacc)
      as (o & Hins).
    unfold create_support_offer. unfold bind at 1.
    rewrite (audited_run s now _ db _ _ Hins).
    destruct (audit_trigger_function_outcome s now (trigger_data_of (inserted o))
                (set_support_offer db (tbl_support_offer db ++ [o])
                   (seq_support_offer_num db + 1)%N))
      as [(entry & Hok & _) | (e & _ & Hfail)].
    + rewrite Hok. unfold bind, write, ret. eexists. eexists. reflexivity.
    + exfalso. revert Hfail.
      apply (audit_step_of_writable s (trigger_data_of (inserted o)) db).
      * reflexivity.
      * rewrite offer_has_id. discriminate.
      * exact Haudit.
Qed.

(** The offer of the backend on [Example.planning] goes through. *)
Lemma create_support_offer_succeeds_iff_witness :
  exists v db',
    create_support_offer Example.backend_session (Example.at_8am Example.monday)
      (Some 1%N) (Some 1%N) None None None None (Some "Takeover") Example.planning
    = Ok (v, db').
Proof.
  apply (proj2 (create_support_offer_succeeds_iff
                  Example.backend_session (Example.at_8am Example.monday)
                  (Some 1%N) (Some 1%N) None None None None (Some "Takeover")
                  Example.planning)).
  split.
  - split; [exists 1%N; split; reflexivity |].
    split; [exists "Takeover", support_offer.Takeover; split; reflexivity |].
    repeat split; reflexivity.
  - repeat split. discriminate.
Defined.

Lemma offer_type_text_of_text (t : string) (ty : support_offer.offer_type_t) :
  support_offer.offer_type_of_text t = Some ty ->
  support_offer.offer_type_text ty = t.
Proof.
  unfold support_offer.offer_type_of_text.
  destruct (String.eqb t "Resource") eqn:E1.
  { apply String.eqb_eq in E1. intros H. injection H as <-. now subst. }
  destruct (String.eqb t "Takeover") eqn:E2.
  { apply String.eqb_eq in E2. intros H. injection H as <-. now subst. }
  destruct (String.eqb t "Assistance") eqn:E3.
  { apply String.eqb_eq in E3. intros H. injection H as <-. now subst. }
  discriminate.
Qed.

(** X10.  What a call of [create_support_offer] that goes through has
    written: one offer, under the next offer code and the id returned; one
    unread alert of type Offer for the addressee (or for nobody when none
    is given) that carries the message; one audit record of the insert with
    the id returned and the stored offer as new values; and nothing
    else. *)
Theorem create_support_offer_writes (s : session) (now : timestamptz)
    (p_route_schedule_id p_from_user_id p_to_user_id
     p_proposed_driver_id p_proposed_vehicle_id : option uuid)
    (p_message p_offer_type : option string)
    (db db' : DB) (v_offer_id : uuid) :
  create_support_offer s now p_route_schedule_id p_from_user_id p_to_user_id
    p_proposed_driver_id p_proposed_vehicle_id p_message p_offer_type db
  = Ok (v_offer_id, db') ->
  exists o a e,
    tbl_support_offer db' = tbl_support_offer db ++ [o]
    /\ support_offer.id o = v_offer_id
    /\ support_offer.offer_code o = offer_code_of (seq_support_offer_num db + 1)
    /\ seq_support_offer_num db' = (seq_support_offer_num db + 1)%N
    /\ Some (support_offer.from_user_id o) = p_from_user_id
    /\ support_offer.to_user_id o = p_to_user_id
    /\ support_offer.route_schedule_id o = p_route_schedule_id
    /\ option_map support_offer.offer_type_text (Some (support_offer.offer_type o))
       = p_offer_type
    /\ tbl_route_alerts db' = tbl_route_alerts db ++ [a]
    /\ ~ In (route_alerts.id a) (map route_alerts.id (tbl_route_alerts db))
    /\ alert_record_of a
       = route_alerts.mk 0%N p_route_schedule_id None route_alerts.Offer
           "New Support Offer" p_message route_alerts.Medium (Some false) None
           p_to_user_id None
    /\ route_alerts.created_at a = Some now
    /\ tbl_audit_logs db' = tbl_audit_logs db ++ [e]
    /\ audit_logs.table_name e = "support_offer"
    /\ audit_logs.operation e = audit_logs.INSERT
    /\ audit_logs.record_id e = audit_logs.id_text v_offer_id
    /\ audit_logs.old_values e = None
    /\ audit_logs.new_values e = Some (to_jsonb o)
    /\ audit_logs.changed_fields e = None
    /\ (audit_logs.user_id e, audit_logs.user_email e) = current_user_info s
    /\ tbl_drivers db' = tbl_drivers db
    /\ tbl_vehicles db' = tbl_vehicles db
    /\ tbl_customers db' = tbl_customers db
    /\ tbl_routes db' = tbl_routes db
    /\ tbl_users db' = tbl_users db
    /\ tbl_route_schedules db' = tbl_route_schedules db
    /\ tbl_schedule_instances db' = tbl_schedule_instances db
    /\ tbl_route_responsibility db' = tbl_route_responsibility db
    /\ tbl_conflict_checks db' = tbl_conflict_checks db
    /\ seq_route_responsibility_num db' = seq_route_responsibility_num db.
Proof.
  intros Hrun. unfold create_support_offer in Hrun. unfold bind at 1 in Hrun.
  destruct (audited s now _ db) as [[c db2] | err] eqn:Ha; [| discriminate].
  unfold audited, bind in Ha.
  destruct (insert_support_offer now _ _ _ _ _ _ _ db) as [[c1 db1] | err] eqn:Hins;
    [| discriminate].
  destruct (audit_trigger_function s now (trigger_data_of c1) db1)
    as [[u db3] | err] eqn:Htg; [| discriminate].
  unfold ret in Ha. injection Ha as -> ->.
  apply audit_trigger_function_entry in Htg.
  destruct Htg as (e & -> & Htab & Hop & Hid & Hold & Hnew & Hch & Hwho & _ & _).
  assert (Hacc := insert_support_offer_acceptable _ _ _ _ _ _ _ _ _ _ _ Hins).
  destruct Hacc as ((from & -> & _) & (t & ty & -> & Hty) & _).
  revert Hins. unfold insert_support_offer, bind, read, require, raise, ret, write.
  cbv zeta. rewrite Hty.
  repeat match goal with
         | |- context [ if ?b then _ else _ ] => destruct b; [| discriminate]
         end.
  intros Hins. injection Hins as <- <-.
  unfold bind, write, ret in Hrun. injection Hrun as <- <-.
  simpl in *. injection Hid as Hid.
  eexists. eexists. exists e.
  split; [reflexivity |]. simpl.
  split; [reflexivity |]. split; [reflexivity |]. split; [reflexivity |].
  split; [reflexivity |]. split; [reflexivity |]. split; [reflexivity |].
  split.
  { f_equal. now apply offer_type_text_of_text. }
  split; [reflexivity |]. split; [apply fresh_uuid_not_in |].
  split; [reflexivity |]. split; [reflexivity |]. split; [reflexivity |].
  repeat split; assumption || reflexivity.
Qed.

(** An offer with no addressee and no message. *)
Lemma create_support_offer_writes_witness :
  exists v db' a,
    create_support_offer Example.backend_session (Example.at_8am Example.monday)
      (Some 1%N) (Some 1%N) None None None None (Some "Takeover") Example.planning
    = Ok (v, db')
    /\ tbl_route_alerts db' = [a]
    /\ route_alerts.created_for_user a = None
    /\ List.length (tbl_audit_logs db') = 1%nat.
Proof.
  assert (Hrun : exists v db',
            create_support_offer Example.backend_session (Example.at_8am Example.monday)
              (Some 1%N) (Some 1%N) None None None None (Some "Takeover")
              Example.planning
            = Ok (v, db')).
  { eexists. eexists. vm_compute. reflexivity. }
  destruct Hrun as (v & db' & Hrun).
  destruct (create_support_offer_writes _ _ _ _ _ _ _ _ _ _ _ _ Hrun)
    as (o & a & e & _ & _ & _ & _ & _ & _ & _ & _ & Halerts & _ & Hrec & _ & Hlog & _).
  exists v, db', a. split; [exact Hrun |]. split; [exact Halerts |].
  split.
  - apply (f_equal route_alerts.created_for_user) in Hrec. exact Hrec.
  - rewrite Hlog. reflexivity.
Defined.

(* ================================================================== *)
(** * Further facts: route responsibility *)
(* ================================================================== *)

Lemma role_text_of_text (t : string) (role : route_responsibility.role_t) :
  route_responsibility.role_of_text t = Some role <->
  t = route_responsibility.role_text role.
Proof.
  split; [| intros ->; apply role_of_text_text].
  unfold route_responsibility.role_of_text.
  destruct (String.eqb t "Primary") eqn:E1.
  { apply String.eqb_eq in E1. intros H. injection H as <-. now subst. }
  destruct (String.eqb t "Backup") eqn:E2.
  { apply String.eqb_eq in E2. intros H. injection H as <-. now subst. }
  destruct (String.eqb t "Observer") eqn:E3.
  { apply String.eqb_eq in E3. intros H. injection H as <-. now subst. }
  discriminate.
Qed.

(** The upsert, branch by branch. *)
Lemma upsert_route_responsibility_run (now : timestamptz)
    (route user : uuid) (role : route_responsibility.role_t)
    (p_assigned_by : option uuid) (db : DB) :
  upsert_route_responsibility now (Some route) (Some user)
    (Some (route_responsibility.role_text role)) p_assigned_by db
  = match find (same_grant route user role) (tbl_route_responsibility db) with
    | Some existing =>
        if opt_eqb N.eqb p_assigned_by (route_responsibility.assigned_by existing)
           || user_exists db p_assigned_by
        then Ok (updated existing (reactivate now p_assigned_by existing),
                 set_route_responsibility db
                   (map (fun r => if same_grant route user role r
                                  then reactivate now p_assigned_by r else r)
                        (tbl_route_responsibility db))
                   (seq_route_responsibility_num db + 1)%N)
        else Err (foreign_key_violation "route_responsibility_assigned_by_fkey")
    | None =>
        if existsb (fun r => String.eqb (route_responsibility.responsibility_code r)
                               (responsibility_code_of
                                  (seq_route_responsibility_num db + 1)))
                   (tbl_route_responsibility db)
        then Err (unique_violation "route_responsibility_responsibility_code_key")
        else if negb (id_exists routes.id (tbl_routes db) (Some route))
        then Err (foreign_key_violation "route_responsibility_route_id_fkey")
        else if negb (user_exists db (Some user))
        then Err (foreign_key_violation "route_responsibility_user_id_fkey")
        else if negb (user_exists db p_assigned_by)
        then Err (foreign_key_violation "route_responsibility_assigned_by_fkey")
        else Ok (inserted (proposed_grant now db route user role p_assigned_by),
                 set_route_responsibility db
                   (tbl_route_responsibility db
                    ++ [proposed_grant now db route user role p_assigned_by])
                   (seq_route_responsibility_num db + 1)%N)
    end.
Proof.
  unfold upsert_route_responsibility, bind, read, raise, ret. cbv zeta.
  rewrite role_of_text_text.
  destruct (find (same_grant route user role) (tbl_route_responsibility db)).
  - unfold bind, require, write, ret, raise.
    destruct (opt_eqb N.eqb p_assigned_by _ || user_exists db p_assigned_by);
      reflexivity.
  - unfold bind, require, write, ret, raise, proposed_grant.
    destruct (existsb _ (tbl_route_responsibility db)); [reflexivity |].
    cbn [negb].
    destruct (id_exists routes.id (tbl_routes db) (Some route)); [| reflexivity].
    destruct (user_exists db (Some user)); [| reflexivity].
    destruct (user_exists db p_assigned_by); reflexivity.
Qed.

(** A call of the upsert that goes through was given a route, a user and
    one of the three roles. *)
Lemma upsert_route_responsibility_args (now : timestamptz)
    (p_route_id p_user_id : option uuid) (p_role : option string)
    (p_assigned_by : option uuid) (db db1 : DB)
    (c : row_change route_responsibility.row) :
  upsert_route_responsibility now p_route_id p_user_id p_role p_assigned_by db
  = Ok (c, db1) ->
  exists route user role,
    p_route_id = Some route /\ p_user_id = Some user
    /\ p_role = Some (route_responsibility.role_text role).
Proof.
  unfold upsert_route_responsibility, bind, read, raise, ret.
  destruct p_route_id as [route |]; [| discriminate].
  destruct p_user_id as [user |]; [| discriminate].
  destruct p_role as [rt |]; [| discriminate].
  destruct (route_responsibility.role_of_text rt) as [role |] eqn:E; [| discriminate].
  intros _. exists route, user, role. apply role_text_of_text in E. now subst.
Qed.

Lemma grant_has_id (c : row_change route_responsibility.row) :
  COALESCE (row_id (NEW (trigger_data_of c))) (row_id (OLD (trigger_data_of c)))
  <> None.
Proof. destruct c; discriminate. Qed.

(** X11.  [assign_route_responsibility] goes through exactly when the
    table accepts the upsert (a route, a user and one of the roles Primary,
    Backup, Observer; for a grant that exists an assigner unchanged, NULL or
    a user; for a new grant the next code free, the route, the user and the
    assigner found) and the session can write the audit record.  Otherwise
    it raises and nothing is stored. *)
Theorem assign_route_responsibility_succeeds_iff (s : session) (now : timestamptz)
    (p_route_id p_user_id : option uuid) (p_role : option string)
    (p_assigned_by : option uuid) (db : DB) :
  (exists v db',
     assign_route_responsibility s now p_route_id p_user_id p_role p_assigned_by db
     = Ok (v, db'))
  <-> grant_acceptable db p_route_id p_user_id p_role p_assigned_by
      /\ audit_writable s db.
Proof.
  split.
  - intros (v & db' & Hrun). unfold assign_route_responsibility in Hrun.
    unfold bind at 1 in Hrun.
    destruct (audited s now _ db) as [[c db2] | e] eqn:Ha; [| discriminate].
    apply audited_ok in Ha. destruct Ha as (db1 & entry & Hup & _ & _ & _ & Hnf).
    destruct (upsert_route_responsibility_args _ _ _ _ _ _ _ _ Hup)
      as (route & user & role & -> & -> & ->).
    rewrite upsert_route_responsibility_run in Hup.
    unfold grant_acceptable.
    destruct (find (same_grant route user role) (tbl_route_responsibility db))
      as [existing |] eqn:Hfind.
    + destruct (opt_eqb N.eqb p_assigned_by _ || user_exists db p_assigned_by) eqn:Hby;
        [| discriminate].
      injection Hup as <- <-. split.
      * exists route, user, role. repeat (split; [reflexivity |]).
        rewrite Hfind. apply orb_true_iff in Hby.
        destruct Hby as [Hby | Hby]; [left; now apply opt_eqb_N_eq | now right].
      * apply (audit_step_of_writable s _ db) in Hnf;
          [exact Hnf | reflexivity | apply grant_has_id].
    + destruct (existsb _ (tbl_route_responsibility db)) eqn:Hcode; [discriminate |].
      destruct (id_exists routes.id (tbl_routes db) (Some route)) eqn:Hr;
        [| discriminate].
      destruct (user_exists db (Some user)) eqn:Hu; [| discriminate].
      destruct (user_exists db p_assigned_by) eqn:Hby; [| discriminate].
      injection Hup as <- <-. split.
      * exists route, user, role. repeat (split; [reflexivity |]).
        rewrite Hfind. repeat split; assumption.
      * apply (audit_step_of_writable s _ db) in Hnf;
          [exact Hnf | reflexivity | apply grant_has_id].
  - intros ((route & user & role & -> & -> & -> & Hacc) & Haudit).
    unfold assign_route_responsibility. unfold bind at 1.
    assert (Hup : exists c db1,
               upsert_route_responsibility now (Some route) (Some user)
                 (Some (route_responsibility.role_text role)) p_assigned_by db
               = Ok (c, db1) /\ tbl_users db1 = tbl_users db).
    { rewrite upsert_route_responsibility_run.
      destruct (find (same_grant route user role) (tbl_route_responsibility db))
        as [existing |].
      - replace (opt_eqb N.eqb p_assigned_by (route_responsibility.assigned_by existing)
                 || user_exists db p_assigned_by) with true.
        + eexists. eexists. split; reflexivity.
        + symmetry. apply orb_true_iff.
          destruct Hacc as [Hby | Hby]; [left; now apply opt_eqb_N_eq | now right].
      - destruct Hacc as (-> & -> & -> & ->). simpl.
        eexists. eexists. split; reflexivity. }
    destruct Hup as (c & db1 & Hup & Husers).
    rewrite (audited_run s now _ db _ _ Hup).
    destruct (audit_trigger_function_outcome s now (trigger_data_of c) db1)
      as [(entry & Hok & _) | (e & _ & Hfail)].
    + rewrite Hok. unfold ret. eexists. eexists. reflexivity.
    + exfalso. revert Hfail.
      apply (audit_step_of_writable s (trigger_data_of c) db);
        [exact Husers | apply grant_has_id | exact Haudit].
Qed.

(** Route 2 granted to user 1 as Backup, a grant [Example.granted] does not
    hold. *)
Lemma assign_route_responsibility_succeeds_iff_witness :
  exists v db',
    assign_route_responsibility Example.backend_session (Example.at_8am Example.monday)
      (Some 2%N) (Some 1%N) (Some "Backup") None Example.granted
    = Ok (v, db').
Proof.
  apply (proj2 (assign_route_responsibility_succeeds_iff
                  Example.backend_session (Example.at_8am Example.monday)
                  (Some 2%N) (Some 1%N) (Some "Backup") None Example.granted)).
  split.
  - exists 2%N, 1%N, route_responsibility.Backup.
    repeat (split; [reflexivity |]). simpl. repeat split; reflexivity.
  - repeat split. discriminate.
Defined.

(** A successful call is the upsert followed by one audit record. *)
Lemma assign_route_responsibility_ok (s : session) (now : timestamptz)
    (p_route_id p_user_id : option uuid) (p_role : option string)
    (p_assigned_by : option uuid) (db db' : DB) (v : uuid) :
  assign_route_responsibility s now p_route_id p_user_id p_role p_assigned_by db
  = Ok (v, db') ->
  exists route user role c db1 e,
    p_route_id = Some route /\ p_user_id = Some user
    /\ p_role = Some (route_responsibility.role_text role)
    /\ upsert_route_responsibility now (Some route) (Some user)
         (Some (route_responsibility.role_text role)) p_assigned_by db
       = Ok (c, db1)
    /\ audit_trigger_function s now (trigger_data_of c) db1 = Ok (tt, db')
    /\ db' = set_audit_logs db1 (tbl_audit_logs db1 ++ [e])
    /\ v = match c with
           | inserted r | updated _ r | deleted r => route_responsibility.id r
           end.
Proof.
  intros Hrun. unfold assign_route_responsibility in Hrun.
  unfold bind at 1 in Hrun.
  destruct (audited s now _ db) as [[c db2] | err] eqn:Ha; [| discriminate].
  unfold ret in Hrun. injection Hrun as <- <-.
  unfold audited, bind in Ha.
  destruct (upsert_route_responsibility now _ _ _ _ db) as [[c1 db1] | err] eqn:Hup;
    [| discriminate].
  destruct (audit_trigger_function s now (trigger_data_of c1) db1)
    as [[[] db3] | err] eqn:Htg; [| discriminate].
  unfold ret in Ha. injection Ha as -> ->.
  destruct (upsert_route_responsibility_args _ _ _ _ _ _ _ _ Hup)
    as (route & user & role & -> & -> & ->).
  destruct (audit_trigger_function_entry _ _ _ _ _ _ Htg) as (e & He & _).
  exists route, user, role, c, db1, e. repeat split; assumption.
Qed.

(** X12.  A call of [assign_route_responsibility] for a grant the table
    does not hold, when it goes through, appends one row under a generated
    id, which it returns, and the next responsibility code: the grant
    asked for, active, assigned at the time of the call by the assigner
    given, without notes; the rows stored before are kept as they were, one
    audit record of the insert is written, and no other table changes. *)
Theorem assign_route_responsibility_new_grant (s : session) (now : timestamptz)
    (route user : uuid) (role : route_responsibility.role_t)
    (p_assigned_by : option uuid) (db db' : DB) (v : uuid) :
  grants_of route user role db = [] ->
  assign_route_responsibility s now (Some route) (Some user)
    (Some (route_responsibility.role_text role)) p_assigned_by db
  = Ok (v, db') ->
  exists row e,
    tbl_route_responsibility db' = tbl_route_responsibility db ++ [row]
    /\ route_responsibility.id row = v
    /\ ~ In v (map route_responsibility.id (tbl_route_responsibility db))
    /\ route_responsibility.responsibility_code row
       = responsibility_code_of (seq_route_responsibility_num db + 1)
    /\ seq_route_responsibility_num db' = (seq_route_responsibility_num db + 1)%N
    /\ grants_of route user role db' = [row]
    /\ route_responsibility.is_active row = Some true
    /\ route_responsibility.assigned_at row = Some now
    /\ route_responsibility.assigned_by row = p_assigned_by
    /\ route_responsibility.notes row = None
    /\ In route (map routes.id (tbl_routes db))
    /\ In user (map users.id (tbl_users db))
    /\ tbl_audit_logs db' = tbl_audit_logs db ++ [e]
    /\ audit_logs.table_name e = "route_responsibility"
    /\ audit_logs.operation e = audit_logs.INSERT
    /\ audit_logs.record_id e = audit_logs.id_text v
    /\ audit_logs.new_values e = Some (to_jsonb row)
    /\ audit_logs.changed_fields e = None
    /\ tbl_routes db' = tbl_routes db
    /\ tbl_users db' = tbl_users db
    /\ tbl_route_alerts db' = tbl_route_alerts db
    /\ tbl_support_offer db' = tbl_support_offer db.
Proof.
  intros Hnone Hrun.
  assert (Hfind : find (same_grant route user role) (tbl_route_responsibility db) = None).
  { destruct (find _ _) as [x |] eqn:E; [| reflexivity].
    apply find_some in E. destruct E as [Hin Hx].
    assert (H : In x (grants_of route user role db)) by (apply filter_In; auto).
    rewrite Hnone in H. contradiction. }
  apply assign_route_responsibility_ok in Hrun.
  destruct Hrun as (route' & user' & role' & c & db1 & e0 & Hr & Hu & Hro & Hup & Htg & _ & Hv).
  injection Hr as <-. injection Hu as <-.
  assert (role' = role) as ->.
  { injection Hro as Hro.
    apply (f_equal route_responsibility.role_of_text) in Hro.
    rewrite !role_of_text_text in Hro. congruence. }
  rewrite upsert_route_responsibility_run, Hfind in Hup.
  destruct (existsb _ (tbl_route_responsibility db)) eqn:Hcode; [discriminate |].
  destruct (id_exists routes.id (tbl_routes db) (Some route)) eqn:Hroute;
    [| discriminate].
  destruct (user_exists db (Some user)) eqn:Huser; [| discriminate].
  destruct (user_exists db p_assigned_by) eqn:Hby; [| discriminate].
  injection Hup as <- <-.
  apply audit_trigger_function_entry in Htg.
  destruct Htg as (e & -> & Htab & Hop & Hid & _ & Hnew & Hch & _).
  simpl in Hid. injection Hid as Hid. simpl in Hv. subst v.
  exists (proposed_grant now db route user role p_assigned_by), e.
  simpl. split; [reflexivity |]. split; [reflexivity |].
  split; [apply fresh_uuid_not_in |]. split; [reflexivity |].
  split; [reflexivity |]. split.
  { unfold grants_of. simpl. rewrite filter_app. fold (grants_of route user role db).
    rewrite Hnone. simpl.
    replace (same_grant route user role
               (proposed_grant now db route user role p_assigned_by)) with true;
      [reflexivity |].
    symmetry. apply same_grant_eq. repeat split. }
  repeat (split; [reflexivity |]).
  split.
  { simpl in Hroute. apply existsb_exists in Hroute. destruct Hroute as (r & Hin & E).
    apply N.eqb_eq in E. subst route. now apply in_map. }
  split.
  { simpl in Huser. apply existsb_exists in Huser. destruct Huser as (r & Hin & E).
    apply N.eqb_eq in E. subst user. now apply in_map. }
  repeat split; assumption.
Qed.

(** Route 2 granted to user 1 as Backup in [Example.granted]. *)
Lemma assign_route_responsibility_new_grant_witness :
  exists v db' row,
    assign_route_responsibility Example.backend_session (Example.at_8am Example.monday)
      (Some 2%N) (Some 1%N) (Some "Backup") None Example.granted
    = Ok (v, db')
    /\ tbl_route_responsibility db' = [Example.old_grant; row]
    /\ route_responsibility.id row = v
    /\ route_responsibility.is_active row = Some true.
Proof.
  assert (Hrun : exists v db',
            assign_route_responsibility Example.backend_session
              (Example.at_8am Example.monday)
              (Some 2%N) (Some 1%N) (Some "Backup") None Example.granted
            = Ok (v, db')).
  { eexists. eexists. vm_compute. reflexivity. }
  destruct Hrun as (v & db' & Hrun).
  destruct (assign_route_responsibility_new_grant
              Example.backend_session (Example.at_8am Example.monday)
              2%N 1%N route_responsibility.Backup None Example.granted db' v
              eq_refl Hrun)
    as (row & e & Htbl & Hid & _ & _ & _ & _ & Hact & _).
  exists v, db', row. split; [exact Hrun |]. repeat split; assumption.
Defined.

Lemma jval_eqb_refl (v : jval) : jval_eqb v v = true.
Proof.
  destruct v; simpl;
    auto using Bool.eqb_reflx, Z.eqb_refl, String.eqb_refl, N.eqb_refl.
Qed.

(** The columns a re-assignment changes. *)
Lemma reactivate_changed_fields (now : timestamptz) (p_assigned_by : option uuid)
    (existing : route_responsibility.row) (f : string) :
  In f (changed_fields_of (to_jsonb existing)
          (to_jsonb (reactivate now p_assigned_by existing)))
  <-> (f = "assigned_at" /\ route_responsibility.assigned_at existing <> Some now)
      \/ (f = "assigned_by"
          /\ route_responsibility.assigned_by existing <> p_assigned_by)
      \/ (f = "is_active" /\ route_responsibility.is_active existing <> Some true).
Proof.
  destruct existing as [i code r u role at_ by_ act notes cr up].
  unfold changed_fields_of, reactivate. cbn [to_jsonb Tracked_route_responsibility
    route_responsibility.id route_responsibility.responsibility_code
    route_responsibility.route_id route_responsibility.user_id
    route_responsibility.role route_responsibility.assigned_at
    route_responsibility.assigned_by route_responsibility.is_active
    route_responsibility.notes route_responsibility.created_at
    route_responsibility.updated_at].
  cbn [filter map fst snd member String.eqb Ascii.eqb Bool.eqb andb].
  rewrite !jval_eqb_refl. cbn [negb map].
  assert (Hat : jval_eqb (jopt JTimestamp (Some now)) (jopt JTimestamp at_) = true
                <-> at_ = Some now).
  { destruct at_ as [z |]; simpl; [| split; discriminate].
    rewrite Z.eqb_eq. split; congruence. }
  assert (Hby : jval_eqb (jopt JUuid p_assigned_by) (jopt JUuid by_) = true
                <-> by_ = p_assigned_by).
  { destruct by_ as [x |], p_assigned_by as [y |]; simpl;
      try (split; (discriminate || reflexivity)).
    rewrite N.eqb_eq. split; congruence. }
  assert (Hact : jval_eqb (jopt JBool (Some true)) (jopt JBool act) = true
                 <-> act = Some true).
  { destruct act as [[|] |]; simpl; split; (discriminate || reflexivity). }
  destruct (jval_eqb (jopt JTimestamp (Some now)) (jopt JTimestamp at_));
    destruct (jval_eqb (jopt JUuid p_assigned_by) (jopt JUuid by_));
    destruct (jval_eqb (jopt JBool (Some true)) (jopt JBool act));
    cbn [negb filter map fst snd In];
    (split;
     [ intros H;
       repeat (destruct H as [<- | H]; [| ]); try contradiction;
       first [ left; split; [reflexivity |]; intros E; apply Hat in E; discriminate
             | right; left; split; [reflexivity |]; intros E; apply Hby in E; discriminate
             | right; right; split; [reflexivity |]; intros E; apply Hact in E;
               discriminate ]
     | intros [[-> Hn] | [[-> Hn] | [-> Hn]]];
       first [ exfalso; apply Hn; (apply Hat || apply Hby || apply Hact); reflexivity
             | simpl; tauto ] ]).
Qed.

(** X13.  The audit record of a re-assignment.  A call of
    [assign_route_responsibility] for a grant the table holds, when it
    goes through, writes one audit record of an UPDATE that carries the id
    of the existing row (the id returned), the row as it was and as it is
    left, and as changed fields exactly those of assigned_at, assigned_by
    and is_active whose value changed, never updated_at; the sequence of
    the responsibility codes is advanced although no row is added. *)
Theorem assign_route_responsibility_audits_reassignment
    (s : session) (now : timestamptz)
    (route user : uuid) (role : route_responsibility.role_t)
    (p_assigned_by : option uuid) (existing : route_responsibility.row)
    (db db' : DB) (v : uuid) :
  unique_grants (tbl_route_responsibility db) ->
  In existing (tbl_route_responsibility db) ->
  same_grant route user role existing = true ->
  assign_route_responsibility s now (Some route) (Some user)
    (Some (route_responsibility.role_text role)) p_assigned_by db
  = Ok (v, db') ->
  exists e fields,
    v = route_responsibility.id existing
    /\ tbl_audit_logs db' = tbl_audit_logs db ++ [e]
    /\ audit_logs.table_name e = "route_responsibility"
    /\ audit_logs.operation e = audit_logs.UPDATE
    /\ audit_logs.record_id e = audit_logs.id_text (route_responsibility.id existing)
    /\ audit_logs.old_values e = Some (to_jsonb existing)
    /\ audit_logs.new_values e = Some (to_jsonb (reactivate now p_assigned_by existing))
    /\ audit_logs.changed_fields e = Some fields
    /\ (forall f,
          In f fields <->
          (f = "assigned_at" /\ route_responsibility.assigned_at existing <> Some now)
          \/ (f = "assigned_by"
              /\ route_responsibility.assigned_by existing <> p_assigned_by)
          \/ (f = "is_active"
              /\ route_responsibility.is_active existing <> Some true))
    /\ ~ In "updated_at" fields
    /\ List.length (tbl_route_responsibility db')
       = List.length (tbl_route_responsibility db)
    /\ seq_route_responsibility_num db' = (seq_route_responsibility_num db + 1)%N.
Proof.
  intros Huniq Hin Hgrant Hrun.
  assert (Hfind : find (same_grant route user role) (tbl_route_responsibility db)
                  = Some existing).
  { apply find_of_filter. now apply unique_grants_filter. }
  apply assign_route_responsibility_ok in Hrun.
  destruct Hrun as (route' & user' & role' & c & db1 & e0 & Hr & Hu & Hro & Hup & Htg & _ & Hv).
  injection Hr as <-. injection Hu as <-.
  assert (role' = role) as ->.
  { injection Hro as Hro.
    apply (f_equal route_responsibility.role_of_text) in Hro.
    rewrite !role_of_text_text in Hro. congruence. }
  rewrite upsert_route_responsibility_run, Hfind in Hup.
  destruct (opt_eqb N.eqb p_assigned_by _ || user_exists db p_assigned_by);
    [| discriminate].
  injection Hup as <- <-.
  apply audit_trigger_function_entry in Htg.
  destruct Htg as (e & -> & Htab & Hop & Hid & Hold & Hnew & Hch & _).
  simpl in Hid. injection Hid as Hid. simpl in Hv. subst v.
  exists e, (changed_fields_of (to_jsonb existing)
               (to_jsonb (reactivate now p_assigned_by existing))).
  split; [reflexivity |]. split; [reflexivity |].
  split; [exact Htab |]. split; [exact Hop |]. split; [exact Hid |].
  split; [exact Hold |]. split; [exact Hnew |]. split; [exact Hch |].
  split; [apply reactivate_changed_fields |].
  split.
  { intros H. apply reactivate_changed_fields in H.
    destruct H as [[H _] | [[H _] | [H _]]]; discriminate. }
  split; [apply length_map | reflexivity].
Qed.

(** The grant of [Example.granted], switched off and assigned by nobody,
    assigned again by nobody: assigned_at and is_active change. *)
Lemma assign_route_responsibility_audits_reassignment_witness :
  exists db' e fields,
    assign_route_responsibility Example.backend_session (Example.at_8am Example.monday)
      (Some 1%N) (Some 2%N) (Some "Primary") None Example.granted
    = Ok (5%N, db')
    /\ tbl_audit_logs db' = [e]
    /\ audit_logs.changed_fields e = Some fields
    /\ In "is_active" fields
    /\ ~ In "assigned_by" fields.
Proof.
  assert (Hrun : exists db',
            assign_route_responsibility Example.backend_session
              (Example.at_8am Example.monday)
              (Some 1%N) (Some 2%N) (Some "Primary") None Example.granted
            = Ok (5%N, db')).
  { eexists. vm_compute. reflexivity. }
  destruct Hrun as (db' & Hrun).
  destruct (assign_route_responsibility_audits_reassignment
              Example.backend_session (Example.at_8am Example.monday)
              1%N 2%N route_responsibility.Primary None Example.old_grant
              Example.granted db' 5%N)
    as (e & fields & _ & Hlog & _ & _ & _ & _ & _ & Hch & Hfields & _).
  - simpl. split; [intros r' [] | exact I].
  - simpl. auto.
  - reflexivity.
  - exact Hrun.
  - exists db', e, fields. split; [exact Hrun |]. split; [exact Hlog |].
    split; [exact Hch |]. split.
    + apply Hfields. right. right. split; [reflexivity | discriminate].
    + intros H. apply Hfields in H.
      destruct H as [[H _] | [[_ H] | [H _]]];
        [discriminate | now apply H | discriminate].
Defined.

(* ================================================================== *)
(** * Further facts: the routes of a user *)
(* ================================================================== *)

Lemma get_user_routes_In (u : uuid) (db : DB) (x : user_route) :
  In x (get_user_routes (Some u) db) <->
  exists r rr,
    In r (tbl_routes db) /\ In rr (tbl_route_responsibility db)
    /\ routes.id r = route_responsibility.route_id rr
    /\ route_responsibility.user_id rr = u
    /\ route_responsibility.is_active rr = Some true
    /\ x = mkUserRoute (routes.id r) (routes.route_code r) (routes.name r)
             (route_responsibility.role rr).
Proof.
  unfold get_user_routes, inner_join. split.
  - intros H. apply in_flat_map in H. destruct H as (r & Hr & H).
    apply in_flat_map in H. destruct H as (rr & Hrr & H).
    apply filter_In in Hrr. destruct Hrr as [Hrr Hjoin].
    apply N.eqb_eq in Hjoin.
    destruct (is_true (sql_eq N.eqb (Some (route_responsibility.user_id rr)) (Some u))
              && is_true (sql_eq Bool.eqb (route_responsibility.is_active rr) (Some true)))
      eqn:Hw; [| contradiction].
    destruct H as [<- | []]. apply andb_true_iff in Hw. destruct Hw as [Hu Ha].
    simpl in Hu. destruct (N.eqb_spec (route_responsibility.user_id rr) u);
      [| discriminate].
    destruct (route_responsibility.is_active rr) as [[|] |] eqn:Eact;
      try discriminate.
    exists r, rr. repeat split; assumption.
  - intros (r & rr & Hr & Hrr & Hjoin & Hu & Ha & ->).
    apply in_flat_map. exists r. split; [assumption |].
    apply in_flat_map. exists rr. split.
    + apply filter_In. split; [assumption | now apply N.eqb_eq].
    + rewrite Ha, Hu. simpl. rewrite N.eqb_refl. simpl. now left.
Qed.

Section JoinOnReference.
Context {A B : Type} (key : A -> uuid) (ref : B -> uuid).

Lemma flat_map_app_perm {C : Type} (g h : A -> list C) (ks : list A) :
  Permutation (flat_map (fun a => g a ++ h a) ks) (flat_map g ks ++ flat_map h ks).
Proof.
  induction ks as [| a ks IH]; simpl.
  - constructor.
  - rewrite <- !app_assoc. apply Permutation_app_head.
    rewrite IH. apply Permutation_app_swap_app.
Qed.

Lemma one_referenced (ks : list A) (b : B) :
  NoDup (map key ks) -> In (ref b) (map key ks) ->
  flat_map (fun a => if N.eqb (key a) (ref b) then [b] else []) ks = [b].
Proof.
  induction ks as [| a ks IH]; simpl; intros Hnd Hin.
  - contradiction.
  - inversion Hnd as [| ? ? Hnotin Hnd']; subst.
    destruct (N.eqb_spec (key a) (ref b)) as [E | E].
    + simpl. f_equal. apply flat_map_nil. intros a' Ha'.
      destruct (N.eqb_spec (key a') (ref b)) as [E' | _]; [| reflexivity].
      exfalso. apply Hnotin. rewrite E, <- E'. now apply in_map.
    + simpl. apply IH; [assumption |]. destruct Hin; [contradiction | assumption].
Qed.

(** A join on a foreign key yields every referencing row once. *)
Lemma join_on_reference (ks : list A) (l : list B) :
  NoDup (map key ks) ->
  (forall b, In b l -> In (ref b) (map key ks)) ->
  Permutation (flat_map (fun a => filter (fun b => N.eqb (key a) (ref b)) l) ks) l.
Proof.
  intros Hnd. induction l as [| b l IH]; intros Href.
  - simpl. rewrite flat_map_nil; [constructor | reflexivity].
  - assert (E : flat_map (fun a => filter (fun b0 => N.eqb (key a) (ref b0)) (b :: l)) ks
                = flat_map (fun a => (if N.eqb (key a) (ref b) then [b] else [])
                                     ++ filter (fun b0 => N.eqb (key a) (ref b0)) l) ks).
    { apply flat_map_ext. intros a. simpl.
      destruct (N.eqb (key a) (ref b)); reflexivity. }
    rewrite E, flat_map_app_perm, one_referenced;
      [| assumption | apply Href; now left].
    simpl. apply perm_skip, IH. intros b' Hb'. apply Href. now right.
Qed.
End JoinOnReference.

Section JoinedSelection.
Context {A B C D : Type} (J : A -> B -> bool) (W : B -> bool).
Context (f : A -> B -> C) (g : B -> D) (proj : C -> D) (a : A).
Hypothesis proj_f : forall b, J a b = true -> proj (f a b) = g b.

(** Selecting after a join is joining the selection. *)
Lemma joined_selection (l : list B) :
  map proj (flat_map (fun b => if W b then [f a b] else []) (filter (J a) l))
  = map g (filter (J a) (filter W l)).
Proof.
  induction l as [| b l IH]; [reflexivity |].
  cbn [filter].
  destruct (J a b) eqn:Ej; destruct (W b) eqn:Ew;
    cbn [filter flat_map]; rewrite ?Ej, ?Ew; cbn [app map]; rewrite ?IH;
    try reflexivity.
  f_equal. now apply proj_f.
Qed.
End JoinedSelection.

Lemma where_active_grant (u : uuid) (rr : route_responsibility.row) :
  N.eqb (route_responsibility.user_id rr) u
  && opt_eqb Bool.eqb (route_responsibility.is_active rr) (Some true)
  = is_true (sql_eq N.eqb (Some (route_responsibility.user_id rr)) (Some u))
    && is_true (sql_eq Bool.eqb (route_responsibility.is_active rr) (Some true)).
Proof.
  simpl. destruct (N.eqb (route_responsibility.user_id rr) u);
    destruct (route_responsibility.is_active rr) as [[|] |]; reflexivity.
Qed.

(** X14.  [get_user_routes] lists the grants of the user that are
    switched on, each once, with the code and the name of its route: under
    the primary key of routes and the foreign key of
    route_responsibility.route_id, its rows are, up to their order, the
    (route, role) pairs of the user's grants whose is_active is true, so a
    route the user holds in two roles is listed twice; a grant switched off
    or with is_active NULL is not listed, and a NULL user has no routes. *)
Theorem get_user_routes_lists_active_grants (u : uuid) (db : DB) :
  primary_key routes.id (tbl_routes db) ->
  grants_reference_routes db ->
  Permutation
    (map (fun x => (ur_route_id x, ur_role x)) (get_user_routes (Some u) db))
    (map (fun rr => (route_responsibility.route_id rr, route_responsibility.role rr))
         (active_grants_of u db))
  /\ (forall x, In x (get_user_routes (Some u) db) ->
        exists r, In r (tbl_routes db) /\ routes.id r = ur_route_id x
                  /\ routes.route_code r = ur_route_code x
                  /\ routes.name r = ur_route_name x)
  /\ get_user_routes None db = [].
Proof.
  intros Hpk Hfk. split; [| split].
  - assert (E : map (fun x => (ur_route_id x, ur_role x)) (get_user_routes (Some u) db)
                = map (fun rr => (route_responsibility.route_id rr,
                                  route_responsibility.role rr))
                      (flat_map
                         (fun r => filter (fun rr => N.eqb (routes.id r)
                                               (route_responsibility.route_id rr))
                                     (active_grants_of u db))
                         (tbl_routes db))).
    { unfold get_user_routes, inner_join, active_grants_of.
      rewrite (map_flat_map _ _ (tbl_routes db)).
      rewrite (map_flat_map _ _ (tbl_routes db)).
      apply flat_map_ext. intros r.
      rewrite (filter_ext _ _ (where_active_grant u)).
      apply (joined_selection
               (fun r rr => N.eqb (routes.id r) (route_responsibility.route_id rr))
               (fun rr =>
                  is_true (sql_eq N.eqb (Some (route_responsibility.user_id rr)) (Some u))
                  && is_true (sql_eq Bool.eqb (route_responsibility.is_active rr)
                                (Some true)))
               (fun r rr => mkUserRoute (routes.id r) (routes.route_code r)
                              (routes.name r) (route_responsibility.role rr))
               (fun rr => (route_responsibility.route_id rr,
                           route_responsibility.role rr))
               (fun x => (ur_route_id x, ur_role x)) r).
      intros rr Ej. apply N.eqb_eq in Ej. simpl. now rewrite Ej. }
    rewrite E. apply Permutation_map.
    apply (join_on_reference routes.id route_responsibility.route_id).
    + exact Hpk.
    + intros rr Hrr. apply filter_In in Hrr. apply Hfk. tauto.
  - intros x Hx. apply get_user_routes_In in Hx.
    destruct Hx as (r & rr & Hr & _ & _ & _ & _ & ->). exists r. repeat split. exact Hr.
  - unfold get_user_routes. apply flat_map_nil. intros r _.
    apply flat_map_nil. intros rr _. reflexivity.
Qed.

(** Route 1 granted to user 2 as Primary (active) and as Backup (switched
    off). *)
Lemma get_user_routes_lists_active_grants_witness :
  Permutation
    (map (fun x => (ur_route_id x, ur_role x))
         (get_user_routes (Some 2%N)
            (set_route_responsibility Example.base
               [ reactivate (Example.at_8am Example.monday) None Example.old_grant;
                 route_responsibility.mk 6 "RRP000002" 1 2 route_responsibility.Backup
                   None None (Some false) None None None ] 2)))
    [(1%N, route_responsibility.Primary)].
Proof.
  apply (get_user_routes_lists_active_grants 2%N
           (set_route_responsibility Example.base
              [ reactivate (Example.at_8am Example.monday) None Example.old_grant;
                route_responsibility.mk 6 "RRP000002" 1 2 route_responsibility.Backup
                  None None (Some false) None None None ] 2)).
  - repeat constructor; simpl; intuition discriminate.
  - intros rr [<- | [<- | []]]; simpl; auto.
Defined.

(** X15.  A grant assigned is listed: once
    [assign_route_responsibility] has gone through for a route of the
    table, a user and a role, whether the grant was new, switched off or
    already active, [get_user_routes] of that user lists the route under
    that role, with its code and name. *)
Theorem assign_route_responsibility_then_listed (s : session) (now : timestamptz)
    (route user : uuid) (role : route_responsibility.role_t)
    (p_assigned_by : option uuid) (db db' : DB) (v : uuid) (r : routes.row) :
  In r (tbl_routes db) ->
  routes.id r = route ->
  assign_route_responsibility s now (Some route) (Some user)
    (Some (route_responsibility.role_text role)) p_assigned_by db
  = Ok (v, db') ->
  In (mkUserRoute route (routes.route_code r) (routes.name r) role)
     (get_user_routes (Some user) db').
Proof.
  intros Hr Hid Hrun.
  apply assign_route_responsibility_ok in Hrun.
  destruct Hrun as (route' & user' & role' & c & db1 & e & Hr' & Hu & Hro & Hup & _ & -> & _).
  injection Hr' as <-. injection Hu as <-.
  assert (role' = role) as ->.
  { injection Hro as Hro.
    apply (f_equal route_responsibility.role_of_text) in Hro.
    rewrite !role_of_text_text in Hro. congruence. }
  rewrite upsert_route_responsibility_run in Hup.
  apply get_user_routes_In.
  destruct (find (same_grant route user role) (tbl_route_responsibility db))
    as [existing |] eqn:Hfind.
  - destruct (opt_eqb N.eqb p_assigned_by _ || user_exists db p_assigned_by);
      [| discriminate].
    injection Hup as _ <-.
    apply find_some in Hfind. destruct Hfind as [Hin Hg].
    pose proof (proj1 (same_grant_eq _ _ _ _) Hg) as (Hg1 & Hg2 & Hg3).
    exists r, (reactivate now p_assigned_by existing). simpl.
    split; [exact Hr |]. split.
    { apply in_map_iff. exists existing. rewrite Hg. auto. }
    repeat split; congruence.
  - destruct (existsb _ (tbl_route_responsibility db)); [discriminate |].
    destruct (negb (id_exists routes.id (tbl_routes db) (Some route)));
      [discriminate |].
    destruct (negb (user_exists db (Some user))); [discriminate |].
    destruct (negb (user_exists db p_assigned_by)); [discriminate |].
    injection Hup as _ <-.
    exists r, (proposed_grant now db route user role p_assigned_by). simpl.
    split; [exact Hr |]. split; [apply in_or_app; right; now left |].
    repeat split; congruence.
Qed.

(** After the grant of [Example.granted] is assigned again, user 2 has
    route 1 as Primary. *)
Lemma assign_route_responsibility_then_listed_witness :
  exists db',
    assign_route_responsibility Example.backend_session (Example.at_8am Example.monday)
      (Some 1%N) (Some 2%N) (Some "Primary") None Example.granted
    = Ok (5%N, db')
    /\ In (mkUserRoute 1 "RTE000001" "North loop" route_responsibility.Primary)
          (get_user_routes (Some 2%N) db').
Proof.
  assert (Hrun : exists db',
            assign_route_responsibility Example.backend_session
              (Example.at_8am Example.monday)
              (Some 1%N) (Some 2%N) (Some "Primary") None Example.granted
            = Ok (5%N, db')).
  { eexists. vm_compute. reflexivity. }
  destruct Hrun as (db' & Hrun).
  exists db'. split; [exact Hrun |].
  apply (assign_route_responsibility_then_listed
           Example.backend_session (Example.at_8am Example.monday)
           1%N 2%N route_responsibility.Primary None Example.granted db' 5%N
           (routes.mk 1 "RTE000001" "North loop" None (Some "North"))).
  - simpl. auto.
  - reflexivity.
  - exact Hrun.
Defined.

(* ================================================================== *)
(** * Further facts: notifications *)
(* ================================================================== *)

Section InsertAppends.
Context {R V : Type} (get_id : R -> uuid) (set_id : uuid -> R -> R) (view : R -> V).
Hypothesis view_set_id : forall u r, view (set_id u r) = view r.
Hypothesis get_set_id : forall u r, get_id (set_id u r) = u.

(** The rows inserted come after the rows stored, in the order selected. *)
Lemma insert_rows_appends (news t : list R) :
  exists added,
    insert_rows get_id set_id news t = t ++ added
    /\ map view added = map view news.
Proof.
  revert t. induction news as [| r news IH]; intros t; simpl.
  - exists []. split; [now rewrite app_nil_r | reflexivity].
  - destruct (IH (t ++ [set_id (fresh_uuid (map get_id t)) r])) as (added & -> & Hv).
    exists (set_id (fresh_uuid (map get_id t)) r :: added). split.
    + now rewrite <- app_assoc.
    + simpl. now rewrite view_set_id, Hv.
Qed.

(** Generated ids keep the primary key. *)
Lemma insert_rows_primary_key (news t : list R) :
  primary_key get_id t -> primary_key get_id (insert_rows get_id set_id news t).
Proof.
  unfold primary_key. revert t. induction news as [| r news IH]; intros t Hnd; simpl.
  - exact Hnd.
  - apply IH. rewrite map_app. simpl. rewrite get_set_id.
    apply NoDup_app; [exact Hnd | repeat constructor; simpl; tauto |].
    intros x Hx [<- | []]. revert Hx. apply fresh_uuid_not_in.
Qed.
End InsertAppends.

Lemma filter_map_length {A B : Type} (p : B -> bool) (f : A -> B) (l : list A) :
  List.length (filter p (map f l)) = List.length (filter (fun a => p (f a)) l).
Proof.
  induction l as [| a l IH]; simpl; [reflexivity |].
  destruct (p (f a)); simpl; now rewrite IH.
Qed.

Lemma route_of_known_schedule (x : uuid) (rs : route_schedules.row) (db : DB) :
  primary_key route_schedules.id (tbl_route_schedules db) ->
  In rs (tbl_route_schedules db) ->
  route_schedules.id rs = x ->
  route_of_schedule (Some x) db = Some (route_schedules.route_id rs).
Proof.
  intros Hpk Hin Hid. unfold route_of_schedule.
  destruct (find _ (tbl_route_schedules db)) as [rs' |] eqn:Hf.
  - apply find_some in Hf. destruct Hf as [Hin' E]. simpl in E.
    destruct (N.eqb (route_schedules.id rs') x) eqn:Ex; [| discriminate].
    apply N.eqb_eq in Ex.
    assert (rs' = rs)
      by (apply (key_injective route_schedules.id (tbl_route_schedules db));
          try assumption; congruence).
    now subst.
  - exfalso. apply (find_none _ _ Hf) in Hin. simpl in Hin.
    rewrite Hid, N.eqb_refl in Hin. discriminate.
Qed.

(** X16.  [notify_responsible] for the id of a template appends to the
    alerts, the primary key of the table kept, one alert per grant on the
    template's route whose is_active is true, addressed to the user of the
    grant: the addressees of the alerts added are, up to order, the users
    of those grants, so a user gets as many alerts as they hold active
    roles on the route, and a grant switched off or with is_active NULL
    gets none.  Each alert added is an unread Notification titled
    'Schedule Update' of severity Medium that refers to the template and to
    no occurrence and is stamped with the time of the call.  The alerts
    stored before are kept as they were, and the other tables too.  When
    the id is NULL or the id of no template nothing is written. *)
Theorem notify_responsible_alerts (now : timestamptz) (p_schedule_id : option uuid)
    (db : DB) :
  let db' := notify_responsible now p_schedule_id db in
  (forall x rs,
     p_schedule_id = Some x ->
     primary_key route_schedules.id (tbl_route_schedules db) ->
     In rs (tbl_route_schedules db) ->
     route_schedules.id rs = x ->
     exists added,
       tbl_route_alerts db' = tbl_route_alerts db ++ added
       /\ Permutation
            (map route_alerts.created_for_user added)
            (map (fun rr => Some (route_responsibility.user_id rr))
                 (filter (fun rr =>
                            N.eqb (route_responsibility.route_id rr)
                                  (route_schedules.route_id rs)
                            && match route_responsibility.is_active rr with
                               | Some true => true
                               | Some false | None => false
                               end)
                         (tbl_route_responsibility db)))
       /\ (forall a, In a added ->
             route_alerts.alert_type a = route_alerts.Notification
             /\ route_alerts.title a = "Schedule Update"
             /\ route_alerts.message a
                = Some "Schedule has been updated for your assigned route"
             /\ route_alerts.route_schedule_id a = Some x
             /\ route_alerts.schedule_instance_id a = None
             /\ route_alerts.severity a = route_alerts.Medium
             /\ route_alerts.is_read a = Some false
             /\ route_alerts.read_at a = None
             /\ route_alerts.created_at a = Some now)
       /\ (primary_key route_alerts.id (tbl_route_alerts db) ->
           primary_key route_alerts.id (tbl_route_alerts db')))
  /\ ((forall rs, In rs (tbl_route_schedules db) ->
                  Some (route_schedules.id rs) <> p_schedule_id) ->
      tbl_route_alerts db' = tbl_route_alerts db)
  /\ tbl_route_responsibility db' = tbl_route_responsibility db
  /\ tbl_route_schedules db' = tbl_route_schedules db
  /\ tbl_schedule_instances db' = tbl_schedule_instances db
  /\ tbl_audit_logs db' = tbl_audit_logs db.
Proof.
  intros db'. unfold db', notify_responsible. simpl.
  split; [| split; [| repeat split]].
  - intros x rs -> Hpk Hrs Hid.
    rewrite (route_of_known_schedule x rs db Hpk Hrs Hid).
    destruct (insert_rows_appends route_alerts.id alert_with_id (alert_with_id 0)
                (alert_with_id_idem 0)
                (map (schedule_update_alert now (Some x))
                   (responsible_for (Some (route_schedules.route_id rs)) db))
                (tbl_route_alerts db)) as (added & H1 & H2).
    exists added. split; [exact H1 |].
    assert (Hresp : responsible_for (Some (route_schedules.route_id rs)) db
                    = filter (fun rr =>
                                N.eqb (route_responsibility.route_id rr)
                                      (route_schedules.route_id rs)
                                && match route_responsibility.is_active rr with
                                   | Some true => true
                                   | Some false | None => false
                                   end)
                             (tbl_route_responsibility db)).
    { unfold responsible_for. apply filter_ext. intros rr. simpl.
      destruct (N.eqb (route_responsibility.route_id rr) (route_schedules.route_id rs));
        destruct (route_responsibility.is_active rr) as [[|] |]; reflexivity. }
    rewrite <- Hresp.
    assert (Hfield : forall (T : Type) (f : route_alerts.row -> T),
              (forall u a, f (alert_with_id u a) = f a) ->
              map f added
              = map (fun rr => f (schedule_update_alert now (Some x) rr))
                    (responsible_for (Some (route_schedules.route_id rs)) db)).
    2:{ split; [| split].
        - rewrite (Hfield _ route_alerts.created_for_user) by reflexivity.
          apply Permutation_refl.
        - intros a Ha.
          assert (Hv : In (alert_with_id 0 a) (map (alert_with_id 0) added))
            by now apply in_map.
          rewrite H2 in Hv. apply in_map_iff in Hv. destruct Hv as (y & Ey & Hy).
          apply in_map_iff in Hy. destruct Hy as (rr & <- & _).
          destruct a; simpl in Ey. injection Ey as <- <- <- <- <- <- <- <- <- <-.
          repeat split.
        - apply insert_rows_primary_key. reflexivity. }
    intros T f Hf.
    transitivity (map f (map (alert_with_id 0) added)).
    { rewrite map_map. apply map_ext. intros a. now rewrite Hf. }
    rewrite H2, !map_map. apply map_ext. intros rr. apply Hf.
  - intros Hnone.
    assert (E : route_of_schedule p_schedule_id db = None).
    { unfold route_of_schedule.
      destruct (find _ (tbl_route_schedules db)) as [rs |] eqn:Hf; [| reflexivity].
      apply find_some in Hf. destruct Hf as [Hin Hrs].
      destruct p_schedule_id as [x |]; [| discriminate]. simpl in Hrs.
      destruct (N.eqb (route_schedules.id rs) x) eqn:Ex; [| discriminate].
      apply N.eqb_eq in Ex. exfalso. apply (Hnone rs Hin). now rewrite Ex. }
    rewrite E. unfold responsible_for.
    replace (filter _ (tbl_route_responsibility db)) with (@nil route_responsibility.row);
      [reflexivity |].
    symmetry. apply filter_nil_iff. intros rr _. reflexivity.
Qed.

(** Route 1 held by user 2 as Primary and as Backup and by user 1 as
    Observer, the last switched off: on a change of the template of route
    1, two alerts for user 2 and none for user 1. *)
Lemma notify_responsible_alerts_witness :
  exists added,
    tbl_route_alerts
      (notify_responsible (Example.at_8am Example.monday) (Some 1%N) Example.shared)
    = added
    /\ Permutation (map route_alerts.created_for_user added) [Some 2%N; Some 2%N]
    /\ forall a, In a added ->
         route_alerts.alert_type a = route_alerts.Notification
         /\ route_alerts.is_read a = Some false.
Proof.
  destruct (notify_responsible_alerts (Example.at_8am Example.monday) (Some 1%N)
              Example.shared) as (H & _).
  destruct (H 1%N (Example.template 1 None Example.monday Example.monday) eq_refl)
    as (added & Htbl & Hperm & Hfields & _).
  - repeat constructor; simpl; tauto.
  - simpl. auto.
  - reflexivity.
  - exists added. split; [exact Htbl |]. split; [exact Hperm |].
    intros a Ha. destruct (Hfields a Ha) as (H1 & _ & _ & _ & _ & _ & H7 & _).
    split; assumption.
Defined.

(* ================================================================== *)
(** * Further facts: the duplicate checks *)
(* ================================================================== *)

Lemma some_counted {A : Type} (l : list A) :
  (0 <? List.length l)%nat = true <-> exists x, In x l.
Proof.
  destruct l as [| x l]; simpl.
  - split; [discriminate | intros (x & [])].
  - split; [intros _; exists x; now left | reflexivity].
Qed.

Lemma unique_column {A K : Type} (f : A -> K) (l : list A) (x y : A) :
  NoDup (map f l) -> In x l -> In y l -> f x = f y -> x = y.
Proof.
  induction l as [| a l IH]; simpl; intros Hnd Hx Hy E.
  - contradiction.
  - inversion Hnd as [| ? ? Hnotin Hnd']; subst.
    destruct Hx as [-> | Hx], Hy as [-> | Hy].
    + reflexivity.
    + exfalso. apply Hnotin. rewrite E. now apply in_map.
    + exfalso. apply Hnotin. rewrite <- E. now apply in_map.
    + now apply IH.
Qed.

Lemma duplicate_vehicle_where (p_plate_number : option string)
    (p_vehicle_id : option uuid) (v : vehicles.row) :
  is_true
    (sql_and
       (sql_eq String.eqb (Some (vehicles.plate_number v)) p_plate_number)
       (sql_or (Some (IS_NULL p_vehicle_id))
               (sql_neq N.eqb (Some (vehicles.id v)) p_vehicle_id))) = true
  <-> p_plate_number = Some (vehicles.plate_number v)
      /\ p_vehicle_id <> Some (vehicles.id v).
Proof.
  destruct p_plate_number as [q |]; simpl.
  - destruct (String.eqb_spec (vehicles.plate_number v) q) as [<- | Hq].
    + destruct p_vehicle_id as [x |]; simpl.
      * destruct (N.eqb_spec (vehicles.id v) x) as [<- | Hx]; simpl.
        -- split; [discriminate | intros [_ H]; now contradiction H].
        -- split; [intros _; split; congruence | reflexivity].
      * split; [intros _; split; [reflexivity | discriminate] | reflexivity].
    + split.
      * destruct p_vehicle_id as [x |]; simpl;
          [destruct (N.eqb (vehicles.id v) x) |]; discriminate.
      * intros [H _]. congruence.
  - split; [| intros [H _]; discriminate].
    destruct p_vehicle_id as [x |]; simpl;
      [destruct (N.eqb (vehicles.id v) x) |]; discriminate.
Qed.

(** X17.  [check_duplicate_vehicle] answers true exactly when a stored
    vehicle other than the one edited carries the plate number given; with
    a NULL plate number it answers false.  Under the UNIQUE constraint on
    plate_number, the plate of a stored vehicle is reported for a new
    vehicle and for the edit of any other vehicle, and not for the edit of
    the vehicle itself. *)
Theorem check_duplicate_vehicle_reports (p_plate_number : option string)
    (p_vehicle_id : option uuid) (db : DB) :
  (check_duplicate_vehicle p_plate_number p_vehicle_id db = true
   <-> exists v, In v (tbl_vehicles db)
                 /\ p_plate_number = Some (vehicles.plate_number v)
                 /\ p_vehicle_id <> Some (vehicles.id v))
  /\ check_duplicate_vehicle None p_vehicle_id db = false
  /\ (NoDup (map vehicles.plate_number (tbl_vehicles db)) ->
      forall v, In v (tbl_vehicles db) ->
        check_duplicate_vehicle (Some (vehicles.plate_number v))
          (Some (vehicles.id v)) db = false
        /\ check_duplicate_vehicle (Some (vehicles.plate_number v)) None db = true
        /\ (p_vehicle_id <> Some (vehicles.id v) ->
            check_duplicate_vehicle (Some (vehicles.plate_number v)) p_vehicle_id db
            = true)).
Proof.
  assert (Hiff : forall p i,
            check_duplicate_vehicle p i db = true
            <-> exists v, In v (tbl_vehicles db)
                          /\ p = Some (vehicles.plate_number v)
                          /\ i <> Some (vehicles.id v)).
  { intros p i. unfold check_duplicate_vehicle. rewrite some_counted. split.
    - intros (v & Hv). apply filter_In in Hv. destruct Hv as [Hin Hw].
      apply duplicate_vehicle_where in Hw. exists v. tauto.
    - intros (v & Hin & Hp & Hi). exists v. apply filter_In. split; [assumption |].
      apply duplicate_vehicle_where. tauto. }
  split; [apply Hiff |]. split.
  - destruct (check_duplicate_vehicle None p_vehicle_id db) eqn:E; [| reflexivity].
    apply Hiff in E. destruct E as (v & _ & H & _). discriminate.
  - intros Huniq v Hv. split; [| split].
    + destruct (check_duplicate_vehicle _ (Some (vehicles.id v)) db) eqn:E;
        [| reflexivity].
      apply Hiff in E. destruct E as (v' & Hv' & Hp & Hi). injection Hp as Hp.
      assert (v = v') by (apply (unique_column vehicles.plate_number _ _ _ Huniq);
                          assumption).
      subst v'. now contradiction Hi.
    + apply Hiff. exists v. repeat split; [assumption | discriminate].
    + intros Hother. apply Hiff. exists v. repeat split; assumption.
Qed.

(** The plate of the vehicle of [Example.base], entered for a new
    vehicle. *)
Lemma check_duplicate_vehicle_reports_witness :
  check_duplicate_vehicle (Some "BKK-1234") (Some 1%N) Example.base = false
  /\ check_duplicate_vehicle (Some "BKK-1234") None Example.base = true.
Proof.
  destruct (check_duplicate_vehicle_reports None None Example.base) as (_ & _ & H).
  assert (Hnd : NoDup (map vehicles.plate_number (tbl_vehicles Example.base)))
    by (repeat constructor; simpl; tauto).
  destruct (H Hnd (vehicles.mk 1 "VEH000001" "BKK-1234") (or_introl eq_refl))
    as (H1 & H2 & _).
  split; [exact H1 | exact H2].
Defined.

Lemma duplicate_driver_where (p_name p_license_number : option string)
    (p_driver_id : option uuid) (d : driver_identity) :
  is_true
    (sql_and
       (sql_and
          (sql_eq String.eqb (Some (di_name d)) p_name)
          (sql_eq String.eqb (di_license_number d) p_license_number))
       (sql_or (Some (IS_NULL p_driver_id))
               (sql_neq N.eqb (Some (di_id d)) p_driver_id))) = true
  <-> p_name = Some (di_name d)
      /\ (exists l, p_license_number = Some l /\ di_license_number d = Some l)
      /\ p_driver_id <> Some (di_id d).
Proof.
  destruct p_name as [n |], p_license_number as [l |],
    (di_license_number d) as [l' |], p_driver_id as [x |]; simpl;
    try destruct (String.eqb_spec (di_name d) n) as [<- | Hn];
    try destruct (String.eqb_spec l' l) as [<- | Hl];
    try destruct (N.eqb_spec (di_id d) x) as [<- | Hx]; simpl;
    (split;
     [ try discriminate; intros _;
       (split; [reflexivity |]); (split; [eauto |]); congruence
     | intros (H1 & (l0 & H2 & H3) & H4); try reflexivity; congruence ]).
Qed.

(** X18.  [check_duplicate_driver] answers true exactly when a stored
    driver other than the one edited has the name given and a licence
    number that is set and equal to the one given.  With a NULL licence
    number it answers false whoever is stored: drivers without licence
    number are never reported as duplicates of one another. *)
Theorem check_duplicate_driver_reports (p_name p_license_number : option string)
    (p_driver_id : option uuid) (tbl : list driver_identity) :
  (check_duplicate_driver p_name p_license_number p_driver_id tbl = true
   <-> exists d l,
         In d tbl /\ p_name = Some (di_name d)
         /\ p_license_number = Some l /\ di_license_number d = Some l
         /\ p_driver_id <> Some (di_id d))
  /\ check_duplicate_driver p_name None p_driver_id tbl = false
  /\ check_duplicate_driver None p_license_number p_driver_id tbl = false
  /\ (forall d, In d tbl -> di_license_number d = None ->
        check_duplicate_driver (Some (di_name d)) (di_license_number d) None tbl
        = false).
Proof.
  assert (Hiff : forall n l i,
            check_duplicate_driver n l i tbl = true
            <-> exists d l0,
                  In d tbl /\ n = Some (di_name d)
                  /\ l = Some l0 /\ di_license_number d = Some l0
                  /\ i <> Some (di_id d)).
  { intros n l i. unfold check_duplicate_driver. rewrite some_counted. split.
    - intros (d & Hd). apply filter_In in Hd. destruct Hd as [Hin Hw].
      apply duplicate_driver_where in Hw. destruct Hw as (H1 & (l0 & H2 & H3) & H4).
      exists d, l0. tauto.
    - intros (d & l0 & Hin & H1 & H2 & H3 & H4). exists d.
      apply filter_In. split; [assumption |].
      apply duplicate_driver_where. split; [assumption |]. split; [eauto | assumption]. }
  split; [apply Hiff |]. split; [| split].
  - destruct (check_duplicate_driver p_name None p_driver_id tbl) eqn:E;
      [| reflexivity].
    apply Hiff in E. destruct E as (d & l & _ & _ & H & _). discriminate.
  - destruct (check_duplicate_driver None p_license_number p_driver_id tbl) eqn:E;
      [| reflexivity].
    apply Hiff in E. destruct E as (d & l & _ & H & _). discriminate.
  - intros d Hd Hnone. rewrite Hnone.
    destruct (check_duplicate_driver (Some (di_name d)) None None tbl) eqn:E;
      [| reflexivity].
    apply Hiff in E. destruct E as (d' & l & _ & _ & H & _). discriminate.
Qed.

(** A driver stored without licence number, entered again. *)
Lemma check_duplicate_driver_reports_witness :
  check_duplicate_driver (Some "Somchai") None None
    [mkDriverIdentity 1 "Somchai" None; mkDriverIdentity 2 "Malee" (Some "L-77")]
  = false.
Proof.
  destruct (check_duplicate_driver_reports None None None
              [mkDriverIdentity 1 "Somchai" None;
               mkDriverIdentity 2 "Malee" (Some "L-77")])
    as (_ & _ & _ & H).
  apply (H (mkDriverIdentity 1 "Somchai" None)).
  - simpl. auto.
  - reflexivity.
Defined.

(* ================================================================== *)
(** * Further facts: the daily digest *)
(* ================================================================== *)

Lemma of_day (t : timestamptz) (d : date) :
  (midnight d <=? t) && (t <? midnight (d + 1)) = (DATE t =? d).
Proof.
  unfold midnight, DATE.
  assert (Hpos : 0 < usec_per_day) by reflexivity.
  destruct (Z.eqb_spec (t / usec_per_day) d) as [<- | Hne].
  - apply andb_true_iff. split; [apply Z.leb_le | apply Z.ltb_lt].
    + rewrite Z.mul_comm. now apply Z.mul_div_le.
    + rewrite Z.mul_comm. now apply Z.mul_succ_div_gt.
  - apply andb_false_iff.
    destruct (Z.leb_spec (d * usec_per_day) t) as [Hle | Hgt]; [right | now left].
    apply Z.ltb_ge. destruct (Z.le_gt_cases ((d + 1) * usec_per_day) t) as [H | H];
      [exact H |].
    exfalso. apply Hne. symmetry. apply (Z.div_unique t usec_per_day d (t - d * usec_per_day)).
    + left. lia.
    + lia.
Qed.

Lemma counted_yesterday (now : timestamptz) (a : route_alerts.row) :
  is_true
    (sql_and
       (sql_and
          (sql_eq Bool.eqb (route_alerts.is_read a) (Some false))
          (sql_cmp Z.leb (Some (midnight (CURRENT_DATE now - 1)))
                   (route_alerts.created_at a)))
       (sql_cmp Z.ltb (route_alerts.created_at a)
                (Some (midnight (CURRENT_DATE now)))))
  = unread_of_day (CURRENT_DATE now - 1) a.
Proof.
  unfold unread_of_day.
  replace (midnight (CURRENT_DATE now)) with (midnight (CURRENT_DATE now - 1 + 1))
    by (f_equal; lia).
  destruct (route_alerts.created_at a) as [t |]; simpl.
  - rewrite <- of_day.
    destruct (route_alerts.is_read a) as [[|] |]; simpl;
      destruct (midnight (CURRENT_DATE now - 1) <=? t);
      destruct (t <? midnight (CURRENT_DATE now - 1 + 1)); reflexivity.
  - destruct (route_alerts.is_read a) as [[|] |]; reflexivity.
Qed.

(** X19.  The count [send_bulk_notifications] announces is the number of
    alerts that are unread (is_read false, not NULL) and were created on
    the day before the current date; the function writes nothing.  Every
    cross-day alert raised by [detect_cross_day_conflict] is in the count
    of a run on the following day, for as long as it is unread. *)
Theorem send_bulk_notifications_counts (now : timestamptz) (db : DB) :
  send_bulk_notifications now db
  = List.length (filter (unread_of_day (CURRENT_DATE now - 1)) (tbl_route_alerts db))
  /\ (forall earlier,
        CURRENT_DATE now = CURRENT_DATE earlier + 1 ->
        (List.length (cross_day_alerts earlier db)
         <= send_bulk_notifications now (detect_cross_day_conflict earlier db))%nat).
Proof.
  assert (Hcount : forall db0,
            send_bulk_notifications now db0
            = List.length (filter (unread_of_day (CURRENT_DATE now - 1))
                                  (tbl_route_alerts db0))).
  { intros db0. unfold send_bulk_notifications. f_equal.
    apply filter_ext. intros a. apply counted_yesterday. }
  split; [apply Hcount |].
  intros earlier Hday. rewrite Hcount.
  replace (CURRENT_DATE now - 1) with (CURRENT_DATE earlier) by lia.
  unfold detect_cross_day_conflict. simpl.
  pose proof (insert_rows_view route_alerts.id alert_with_id (alert_with_id 0)
                (unread_of_day (CURRENT_DATE earlier))
                (alert_with_id_idem 0) (fun _ _ => eq_refl)
                (cross_day_alerts earlier db)
                (filter (fun a => negb (cross_day_alert_of_today (CURRENT_DATE earlier) a))
                        (tbl_route_alerts db))) as H.
  apply (f_equal (@List.length _)) in H.
  rewrite length_app, !length_map in H. rewrite H.
  rewrite (filter_all (unread_of_day (CURRENT_DATE earlier)) (cross_day_alerts earlier db)).
  - lia.
  - intros a Ha. apply cross_day_alerts_row in Ha.
    destruct Ha as (Hread & _ & Hat & _). unfold unread_of_day.
    rewrite Hread, Hat. simpl. apply Z.eqb_refl.
Qed.

(** The cross-day alert raised on the Monday of [Example.overnight] is
    counted on Tuesday morning. *)
Lemma send_bulk_notifications_counts_witness :
  (1 <= send_bulk_notifications (Example.at_8am (Example.monday + 1)%Z)
          (detect_cross_day_conflict (Example.at_8am Example.monday)
             Example.overnight))%nat.
Proof.
  destruct (send_bulk_notifications_counts (Example.at_8am (Example.monday + 1)%Z)
              Example.overnight) as [_ H].
  apply (H (Example.at_8am Example.monday)). reflexivity.
Defined.

(* ================================================================== *)
(** * Further facts: the retry policy *)
(* ================================================================== *)

Lemma retryDelay_small (n : nat) :
  (n < 5)%nat -> useSupabaseQuery.retryDelay n = 1000 * 2 ^ Z.of_nat n.
Proof.
  intros H. unfold useSupabaseQuery.retryDelay.
  do 5 (destruct n as [| n]; [reflexivity |]). lia.
Qed.

Lemma retryDelay_capped (n : nat) :
  (5 <= n)%nat -> useSupabaseQuery.retryDelay n = 30000.
Proof.
  intros H. unfold useSupabaseQuery.retryDelay.
  assert (2 ^ 5 <= 2 ^ Z.of_nat n) by (apply Z.pow_le_mono_r; lia).
  change (2 ^ 5) with 32 in *. lia.
Qed.

(** X20.  The retry policy of the query hook.  A failed query is run again
    only after fewer than two failures and never when the message of the
    error mentions JWT or permission; at a failure count for which a retry
    is allowed the delay is 1000 * 2^n ms, that is 1 s and then 2 s, so the
    cap of 30 s is not reached.  The delay itself grows with the count,
    lies between 1 s and 30 s, and is 30 s from the fifth failure on. *)
Theorem retry_policy (n : nat) (message : option string) :
  (useSupabaseQuery.retry n message = true ->
   (n < 2)%nat
   /\ useSupabaseQuery.retryDelay n = 1000 * 2 ^ Z.of_nat n
   /\ useSupabaseQuery.retryDelay n <= 2000
   /\ forall m, message = Some m ->
        useSupabaseQuery.includes m "JWT" = false
        /\ useSupabaseQuery.includes m "permission" = false)
  /\ useSupabaseQuery.retry n None = (n <? 2)%nat
  /\ 1000 <= useSupabaseQuery.retryDelay n <= 30000
  /\ (forall k, (n <= k)%nat ->
        useSupabaseQuery.retryDelay n <= useSupabaseQuery.retryDelay k)
  /\ ((5 <= n)%nat -> useSupabaseQuery.retryDelay n = 30000).
Proof.
  split; [| split; [reflexivity | split; [| split]]].
  - unfold useSupabaseQuery.retry. intros H.
    destruct (_ || _) eqn:Hmsg; [discriminate |].
    apply Nat.ltb_lt in H. apply orb_false_iff in Hmsg. destruct Hmsg as [Hj Hp].
    split; [exact H |]. split; [apply retryDelay_small; lia |]. split.
    + rewrite retryDelay_small by lia.
      destruct n as [| [| n]]; [simpl; lia | simpl; lia | lia].
    + intros m ->. split; assumption.
  - unfold useSupabaseQuery.retryDelay.
    assert (0 < 2 ^ Z.of_nat n) by (apply Z.pow_pos_nonneg; lia). lia.
  - intros k Hk. unfold useSupabaseQuery.retryDelay.
    assert (2 ^ Z.of_nat n <= 2 ^ Z.of_nat k) by (apply Z.pow_le_mono_r; lia).
    lia.
  - apply retryDelay_capped.
Qed.

(** The second failure of a query that could not reach the server. *)
Lemma retry_policy_witness :
  useSupabaseQuery.retry 1 (Some "Failed to fetch") = true
  /\ useSupabaseQuery.retryDelay 1 = 2000
  /\ useSupabaseQuery.retry 0 (Some "JWT expired") = false.
Proof.
  destruct (retry_policy 1 (Some "Failed to fetch")) as [H _].
  destruct (H eq_refl) as (_ & Hd & _).
  split; [reflexivity |]. split; [exact Hd | reflexivity].
Defined.
